(** * UEJSONReader: the curve pipeline of The Isle stat reader

    A shallow embedding of [UEJSONReader.py].  The program reads JSON files
    exported from the game, so every function below works on the values that
    [json.load] produces and follows Python's dynamic semantics: an
    operation applied to a value of the wrong shape raises, and an exception
    travels outwards until an [except] clause that names it.

    Layout:
    - [PyStr]    : the [str] methods the program calls;
    - [PyExc]    : exceptions, [try] and loops;
    - [PyNum]    : [int] and [float] arithmetic, conversions and comparisons;
    - [PyVal]    : the objects of a parsed file and the operators on them;
    - [Reader]   : the functions of [UEJSONReader.py], in source order;
    - [Typed]    : well-shaped curve files, and the rules of the
                   specification written out on them;
    - [Examples] : concrete files;
    - [Formatting], [Table], [Window] : the display names, the balance
                   table and the window, followed through what its
                   widgets show;
    - [ExampleDisk], [MoreExamples] : a folder of files for the examples;
    - [Invariants] : what the further properties are stated with;
    - [Worded]   : the rule of the classifier in the words of the
                   specification;
    - [Reading]  : the functions that read a file, with the exceptions
                   of the reading that [get_json_data] does not catch;
    - the lemmas, the theorems C1 to C10 about the program, and further
      properties X1, X2, ... of the code.

    The drawing itself (matplotlib, the layout of the widgets) is not
    modelled: [plot_selected_file] is followed up to the arguments it
    hands to [plot_data], and [plot_data] up to its guard and the labels
    of its curves. *)

From Stdlib Require Import ZArith List String Ascii Bool Lia Floats.
Import ListNotations.

Set Implicit Arguments.
Set Warnings "-register-all".

(* ===================================================================== *)
(** ** Strings *)
(* ===================================================================== *)

(** A Python [str] is modelled by a Rocq [string] whose characters are the
    code points U+0000 to U+00FF.  On that range the methods below are the
    ones of CPython 3. *)
Module PyStr.

Definition code (c : ascii) : N := N_of_ascii c.

(** [c.isupper()] restricted to the class [[A-Z]] of the regular
    expression in [format_virtual_name]. *)
Definition is_AZ (c : ascii) : bool :=
  ((65 <=? code c) && (code c <=? 90))%N.

(** [str.lower] on one character: the ASCII capitals and the Latin-1
    capitals U+00C0..U+00DE (U+00D7, the multiplication sign, apart). *)
Definition lower_char (c : ascii) : ascii :=
  let n := code c in
  if (((65 <=? n) && (n <=? 90))
      || ((192 <=? n) && (n <=? 222) && negb (n =? 215)))%N
  then ascii_of_N (n + 32) else c.

Fixpoint lower (s : string) : string :=
  match s with
  | EmptyString => EmptyString
  | String c s' => String (lower_char c) (lower s')
  end.

(** [c.isspace()]: TAB..CR, FS..US, SPACE, NEL and NBSP. *)
Definition is_space (c : ascii) : bool :=
  let n := code c in
  (((9 <=? n) && (n <=? 13)) || ((28 <=? n) && (n <=? 32))
   || (n =? 133) || (n =? 160))%N.

Fixpoint lstrip (s : string) : string :=
  match s with
  | EmptyString => EmptyString
  | String c s' => if is_space c then lstrip s' else s
  end.

(** Removes the trailing white space: a character is kept when something
    that is kept follows it, or when it is not white space itself. *)
Fixpoint rstrip (s : string) : string :=
  match s with
  | EmptyString => EmptyString
  | String c s' =>
      match rstrip s' with
      | EmptyString => if is_space c then EmptyString else String c EmptyString
      | r => String c r
      end
  end.

(** [s.strip()] *)
Definition strip (s : string) : string := rstrip (lstrip s).

(** [s.startswith(p)] *)
Definition startswith (p s : string) : bool := String.prefix p s.

(** [p in s] for two strings: [p] occurs in [s] as a substring. *)
Fixpoint contains (p s : string) : bool :=
  String.prefix p s ||
  match s with
  | EmptyString => false
  | String _ s' => contains p s'
  end.

(** [s.split('.')[-1]]: what follows the last dot, the whole string when
    it has none.  [acc] is the segment being read. *)
Fixpoint last_segment_from (acc s : string) : string :=
  match s with
  | EmptyString => acc
  | String c s' =>
      if Ascii.eqb c "."%char then last_segment_from EmptyString s'
      else last_segment_from (acc ++ String c EmptyString) s'
  end.

Definition split_dot_last (s : string) : string :=
  last_segment_from EmptyString s.

(** [re.sub(r'([A-Z])', r' \1', s)]: a space before every capital. *)
Fixpoint space_before_capitals (s : string) : string :=
  match s with
  | EmptyString => EmptyString
  | String c s' =>
      if is_AZ c then String " "%char (String c (space_before_capitals s'))
      else String c (space_before_capitals s')
  end.

(** The characters of a string, as [for c in s] yields them. *)
Fixpoint chars (s : string) : list string :=
  match s with
  | EmptyString => []
  | String c s' => String c EmptyString :: chars s'
  end.

(** [s * n] for a count already turned into a [nat]. *)
Fixpoint repeat_str (s : string) (n : nat) : string :=
  match n with
  | O => EmptyString
  | S n' => (s ++ repeat_str s n')%string
  end.

End PyStr.

(* ===================================================================== *)
(** ** Exceptions *)
(* ===================================================================== *)

Module PyExc.

(** The exception classes that the modelled operations can raise. *)
Inductive exn : Type :=
| KeyError
| IndexError
| TypeError
| AttributeError
| ValueError
| OverflowError
| ZeroDivisionError
| UnboundLocalError.

Definition exn_eqb (a b : exn) : bool :=
  match a, b with
  | KeyError, KeyError | IndexError, IndexError | TypeError, TypeError
  | AttributeError, AttributeError | ValueError, ValueError
  | OverflowError, OverflowError
  | ZeroDivisionError, ZeroDivisionError
  | UnboundLocalError, UnboundLocalError => true
  | _, _ => false
  end.

(** The outcome of evaluating an expression or running a block: a value,
    or an exception on its way out. *)
Inductive result (A : Type) : Type :=
| Ok (a : A)
| Raise (e : exn).
Arguments Ok {A} a.
Arguments Raise {A} e.

Definition bind {A B : Type} (r : result A) (k : A -> result B) : result B :=
  match r with
  | Ok a => k a
  | Raise e => Raise e
  end.

(** [try: body  except (e1, ..., en): handler] *)
Definition try_except {A : Type} (body : result A) (caught : list exn)
           (handler : exn -> result A) : result A :=
  match body with
  | Ok a => Ok a
  | Raise e => if existsb (exn_eqb e) caught then handler e else Raise e
  end.

(** A loop body run over the items of a list, threading the local
    variables [s]; the first exception ends the loop. *)
Fixpoint for_each {X S : Type} (body : S -> X -> result S) (xs : list X)
         (s : S) : result S :=
  match xs with
  | [] => Ok s
  | x :: xs' => bind (body s x) (for_each body xs')
  end.

(** A list comprehension [[f x for x in xs]]. *)
Fixpoint comprehension {X Y : Type} (f : X -> result Y) (xs : list X)
  : result (list Y) :=
  match xs with
  | [] => Ok []
  | x :: xs' =>
      bind (f x) (fun y => bind (comprehension f xs') (fun ys => Ok (y :: ys)))
  end.

End PyExc.

Declare Scope py_scope.
Delimit Scope py_scope with py.
Notation "x <- c ;; k" := (PyExc.bind c (fun x => k))
  (at level 61, c at next level, right associativity) : py_scope.

(* ===================================================================== *)
(** ** Numbers *)
(* ===================================================================== *)

(** Python's [int] is unbounded and its [float] is IEEE binary64; the
    kernel's primitive [float] is the same format with the same rounding. *)
Module PyNum.
Import PyExc.
Local Open Scope Z_scope.

(** [n / d] rounded to the nearest integer, ties to even ([0 <= n],
    [0 < d]). *)
Definition div_half_even (n d : Z) : Z :=
  let q := n / d in
  match 2 * (n mod d) ?= d with
  | Lt => q
  | Gt => q + 1
  | Eq => if Z.even q then q else q + 1
  end.

(** The integer [k] with [2^k <= n/d < 2^(k+1)], for positive [n], [d]. *)
Definition ratio_log2 (n d : Z) : Z :=
  let k := Z.log2 n - Z.log2 d in
  if (if 0 <=? k then d * 2 ^ k <=? n else d <=? n * 2 ^ (- k))
  then k else k - 1.

(** The binary64 number nearest to [n/d] (ties to even), for [0 <= n] and
    [0 < d]; [None] when that number is not finite.  The quotient is cut
    to 53 significant bits, or to a multiple of [2^-1074] when it is
    subnormal, so that the conversion to [float] is exact. *)
Definition nearest_binary64 (n d : Z) : option float :=
  if n =? 0 then Some PrimFloat.zero
  else
    let e := Z.max (ratio_log2 n d - 52) (-1074) in
    let m := if 0 <=? e then div_half_even n (d * 2 ^ e)
             else div_half_even (n * 2 ^ (- e)) d in
    if (0 <=? e) && (2 ^ 1024 <=? m * 2 ^ e) then None
    else Some (FloatOps.Z.ldexp (PrimFloat.of_uint63 (Uint63.of_Z m)) e).

(** [float(z)] for an [int]; [OverflowError] ("int too large to convert
    to float") past the largest double. *)
Definition float_of_int (z : Z) : result float :=
  match nearest_binary64 (Z.abs z) 1 with
  | Some f => Ok (if z <? 0 then PrimFloat.opp f else f)
  | None => Raise OverflowError
  end.

(** [a / b] on two [int]s with [b <> 0]: the correctly rounded quotient;
    [OverflowError] ("integer division result too large for a float"). *)
Definition int_truediv (a b : Z) : result float :=
  match nearest_binary64 (Z.abs a) (Z.abs b) with
  | Some f => Ok (if xorb (a <? 0) (b <? 0) then PrimFloat.opp f else f)
  | None => Raise OverflowError
  end.

(** An [int] against a [float], compared as real numbers the way
    CPython does; [None] when the float is a NaN. *)
Definition cmp_int_float (z : Z) (f : float) : option comparison :=
  match Prim2SF f with
  | S754_nan => None
  | S754_zero _ => Some (z ?= 0)
  | S754_infinity s => Some (if s then Gt else Lt)
  | S754_finite s m e =>
      let v := if s then Zneg m else Zpos m in
      Some (if 0 <=? e then z ?= v * 2 ^ e else z * 2 ^ (- e) ?= v)
  end.

(** A number: what [int], [bool] and [float] objects denote in
    arithmetic. *)
Inductive num : Type :=
| Int (z : Z)
| Float (f : float).

Definition to_float (a : num) : result float :=
  match a with
  | Int z => float_of_int z
  | Float f => Ok f
  end.

(** [a == b] *)
Definition eqb (a b : num) : bool :=
  match a, b with
  | Int x, Int y => x =? y
  | Float x, Float y => PrimFloat.eqb x y
  | Int x, Float y | Float y, Int x =>
      match cmp_int_float x y with Some Eq => true | _ => false end
  end.

(** [a < b] *)
Definition ltb (a b : num) : bool :=
  match a, b with
  | Int x, Int y => x <? y
  | Float x, Float y => PrimFloat.ltb x y
  | Int x, Float y =>
      match cmp_int_float x y with Some Lt => true | _ => false end
  | Float x, Int y =>
      match cmp_int_float y x with Some Gt => true | _ => false end
  end.

(** [a > b] *)
Definition gtb (a b : num) : bool := ltb b a.

(** [a - b] *)
Definition sub (a b : num) : result num :=
  match a, b with
  | Int x, Int y => Ok (Int (x - y))
  | _, _ =>
      (x <- to_float a ;; y <- to_float b ;; Ok (Float (PrimFloat.sub x y)))%py
  end.

(** [a * b] *)
Definition mul (a b : num) : result num :=
  match a, b with
  | Int x, Int y => Ok (Int (x * y))
  | _, _ =>
      (x <- to_float a ;; y <- to_float b ;; Ok (Float (PrimFloat.mul x y)))%py
  end.

(** [a / b]: true division, always a [float]. *)
Definition truediv (a b : num) : result num :=
  match a, b with
  | Int x, Int y =>
      if y =? 0 then Raise ZeroDivisionError
      else (q <- int_truediv x y ;; Ok (Float q))%py
  | _, _ =>
      (x <- to_float a ;; y <- to_float b ;;
       if PrimFloat.eqb y PrimFloat.zero then Raise ZeroDivisionError
       else Ok (Float (PrimFloat.div x y)))%py
  end.

(** [abs(a)] *)
Definition abs (a : num) : num :=
  match a with
  | Int x => Int (Z.abs x)
  | Float x => Float (PrimFloat.abs x)
  end.

End PyNum.

(* ===================================================================== *)
(** ** Objects *)
(* ===================================================================== *)

Module PyVal.
Import PyExc.

(** The objects that [json.load] builds.  A [dict] keeps its items in
    insertion order, so it is a list of bindings; [json.load] never
    builds one with a repeated key. *)
Inductive value : Type :=
| VNone
| VBool (b : bool)
| VInt (z : Z)
| VFloat (f : float)
| VStr (s : string)
| VList (l : list value)
| VDict (d : list (string * value)).

(** *** Dictionaries *)

Fixpoint lookup {A : Type} (k : string) (d : list (string * A)) : option A :=
  match d with
  | [] => None
  | (k', a) :: d' => if String.eqb k k' then Some a else lookup k d'
  end.

(** [d[k] = a]: a present key keeps its place, a new one goes last. *)
Fixpoint dict_set {A : Type} (k : string) (a : A) (d : list (string * A))
  : list (string * A) :=
  match d with
  | [] => [(k, a)]
  | (k', a') :: d' =>
      if String.eqb k k' then (k', a) :: d' else (k', a') :: dict_set k a d'
  end.

Definition has_key {A : Type} (k : string) (d : list (string * A)) : bool :=
  match lookup k d with Some _ => true | None => false end.

(** *** Numbers among the objects *)

(** [bool] is a subclass of [int]: [True] counts as 1, [False] as 0. *)
Definition as_num (v : value) : option PyNum.num :=
  match v with
  | VBool b => Some (PyNum.Int (if b then 1 else 0))
  | VInt z => Some (PyNum.Int z)
  | VFloat f => Some (PyNum.Float f)
  | _ => None
  end.

Definition of_num (n : PyNum.num) : value :=
  match n with
  | PyNum.Int z => VInt z
  | PyNum.Float f => VFloat f
  end.

(** *** Truth value *)

(** [bool(v)], which [not v], [if v] and [v or w] consult. *)
Definition truthy (v : value) : bool :=
  match v with
  | VNone => false
  | VBool b => b
  | VInt z => negb (z =? 0)%Z
  | VFloat f => negb (PrimFloat.eqb f PrimFloat.zero)
  | VStr s => negb (String.eqb s EmptyString)
  | VList l => match l with [] => false | _ => true end
  | VDict d => match d with [] => false | _ => true end
  end.

(** *** Equality *)

(** [json.load] hands out one and the same object for every [NaN] it
    reads, and the items of two containers are compared with
    [x is y or x == y]. *)
Definition same_nan (a b : value) : bool :=
  match a, b with
  | VFloat x, VFloat y => PrimFloat.is_nan x && PrimFloat.is_nan y
  | _, _ => false
  end.

(** [a == b] *)
Fixpoint eq (a b : value) {struct a} : bool :=
  match a, b with
  | VNone, VNone => true
  | VStr s, VStr t => String.eqb s t
  | VList l, VList m =>
      (fix items (l m : list value) {struct l} : bool :=
         match l, m with
         | [], [] => true
         | x :: l', y :: m' => (same_nan x y || eq x y) && items l' m'
         | _, _ => false
         end) l m
  | VDict d, VDict e =>
      Nat.eqb (List.length d) (List.length e) &&
      (fix items (d : list (string * value)) {struct d} : bool :=
         match d with
         | [] => true
         | (k, x) :: d' =>
             match lookup k e with
             | Some y => same_nan x y || eq x y
             | None => false
             end && items d'
         end) d
  | _, _ =>
      match as_num a, as_num b with
      | Some x, Some y => PyNum.eqb x y
      | _, _ => false
      end
  end.

(** [a != b] *)
Definition ne (a b : value) : bool := negb (eq a b).

(** *** Arithmetic and ordering *)

Definition lift2 (op : PyNum.num -> PyNum.num -> result PyNum.num)
           (a b : value) : result value :=
  match as_num a, as_num b with
  | Some x, Some y => (r <- op x y ;; Ok (of_num r))%py
  | _, _ => Raise TypeError
  end.

(** [a - b] *)
Definition sub : value -> value -> result value := lift2 PyNum.sub.

(** [a / b] *)
Definition truediv : value -> value -> result value := lift2 PyNum.truediv.

(** [seq * n]: the count must fit a machine index ([sys.maxsize] on a
    64-bit build); a count below one gives the empty sequence.  The
    repetition is the one of a machine that has the memory for its
    result: the [MemoryError] of a failed allocation is no outcome
    here. *)
Definition repeat_count (n : Z) : result nat :=
  if ((n <? - 2 ^ 63) || (2 ^ 63 - 1 <? n))%Z then Raise OverflowError
  else Ok (Z.to_nat n).

Definition int_like (v : value) : option Z :=
  match v with
  | VBool b => Some (if b then 1 else 0)%Z
  | VInt z => Some z
  | _ => None
  end.

Definition repeat_seq (s : value) (n : Z) : result value :=
  (c <- repeat_count n ;;
   match s with
   | VStr x => Ok (VStr (PyStr.repeat_str x c))
   | VList l => Ok (VList (List.concat (List.repeat l c)))
   | _ => Raise TypeError
   end)%py.

(** [a * b]: a product of numbers, or a sequence repeated. *)
Definition mul (a b : value) : result value :=
  match as_num a, as_num b with
  | Some x, Some y => (r <- PyNum.mul x y ;; Ok (of_num r))%py
  | _, _ =>
      match a, int_like b, int_like a, b with
      | (VStr _ | VList _), Some n, _, _ => repeat_seq a n
      | _, _, Some n, (VStr _ | VList _) => repeat_seq b n
      | _, _, _, _ => Raise TypeError
      end
  end.

(** [abs(a)] *)
Definition abs (a : value) : result value :=
  match as_num a with
  | Some x => Ok (of_num (PyNum.abs x))
  | None => Raise TypeError
  end.

(** [a < c] and [a > c] against a number [c]: the program only orders a
    value against a [float] constant. *)
Definition lt_num (a : value) (c : PyNum.num) : result bool :=
  match as_num a with
  | Some x => Ok (PyNum.ltb x c)
  | None => Raise TypeError
  end.

Definition gt_num (a : value) (c : PyNum.num) : result bool :=
  match as_num a with
  | Some x => Ok (PyNum.gtb x c)
  | None => Raise TypeError
  end.

(** *** Subscripts, methods and iteration *)

(** [l[i]] on a list: a negative index counts from the end. *)
Definition list_getitem {A : Type} (l : list A) (i : Z) : result A :=
  let n := Z.of_nat (List.length l) in
  let j := if (i <? 0)%Z then (i + n)%Z else i in
  if ((j <? 0) || (n <=? j))%Z then Raise IndexError
  else match nth_error l (Z.to_nat j) with
       | Some a => Ok a
       | None => Raise IndexError
       end.

(** [v[i]] for an [int] index.  The keys of a parsed object are strings,
    so an [int] is never one of them. *)
Definition getitem_int (v : value) (i : Z) : result value :=
  match v with
  | VList l => list_getitem l i
  | VStr s => (c <- list_getitem (PyStr.chars s) i ;; Ok (VStr c))%py
  | VDict _ => Raise KeyError
  | _ => Raise TypeError
  end.

(** [v[k]] for a [str] key. *)
Definition getitem_key (v : value) (k : string) : result value :=
  match v with
  | VDict d => match lookup k d with
               | Some x => Ok x
               | None => Raise KeyError
               end
  | _ => Raise TypeError
  end.

(** [v.get(k, default)]: only a [dict] has the method. *)
Definition get (v : value) (k : string) (default : value) : result value :=
  match v with
  | VDict d => match lookup k d with
               | Some x => Ok x
               | None => Ok default
               end
  | _ => Raise AttributeError
  end.

(** [k in v] for a [str] [k]: a key of a dict, an item of a list, a
    substring of a string. *)
Definition contains (k : string) (v : value) : result bool :=
  match v with
  | VDict d => Ok (has_key k d)
  | VList l => Ok (existsb (fun x => eq x (VStr k)) l)
  | VStr s => Ok (PyStr.contains k s)
  | _ => Raise TypeError
  end.

(** [len(v)] *)
Definition len (v : value) : result Z :=
  match v with
  | VList l => Ok (Z.of_nat (List.length l))
  | VStr s => Ok (Z.of_nat (String.length s))
  | VDict d => Ok (Z.of_nat (List.length d))
  | _ => Raise TypeError
  end.

(** The items that [for x in v] goes through. *)
Definition iter (v : value) : result (list value) :=
  match v with
  | VList l => Ok l
  | VStr s => Ok (map VStr (PyStr.chars s))
  | VDict d => Ok (map (fun kv => VStr (fst kv)) d)
  | _ => Raise TypeError
  end.

(** [v[:2]].  A slice is not hashable, so a [dict] answers [TypeError]
    (CPython up to 3.11; later versions answer [KeyError]). *)
Definition slice_to_2 (v : value) : result value :=
  match v with
  | VList l => Ok (VList (firstn 2 l))
  | VStr s => Ok (VStr (String.substring 0 2 s))
  | _ => Raise TypeError
  end.

(** [v.items()] *)
Definition items (v : value) : result (list (string * value)) :=
  match v with
  | VDict d => Ok d
  | _ => Raise AttributeError
  end.

End PyVal.

(* ===================================================================== *)
(** ** The program *)
(* ===================================================================== *)

Module Reader.
Import PyExc PyVal.
Local Open Scope string_scope.
Local Open Scope py_scope.

(** *** Constants of the source *)

(** [0.0], [1.0], [1e-9], [0.036] and [float('inf')], as the doubles that
    Python reads the literals to. *)
Definition f_zero : float := 0x0p+0%float.
Definition f_one : float := 0x1p+0%float.
Definition tolerance : float := 0x1.12e0be826d695p-30%float.
Definition kmh_factor : float := 0x1.26e978d4fdf3bp-5%float.
Definition f_inf : float := PrimFloat.infinity.

(** *** Files *)

(** What a path leads to when [get_json_data] returns: nothing, a text
    that is not JSON, or a text that [json.load] turns into an object.
    The exceptions of [open] and [json.load] that [get_json_data] does
    not catch are the matter of [Reading], below. *)
Inductive file : Type :=
| Missing
| Invalid
| Parsed (v : value).

(** [get_json_data]: [None] when the file is not found or its text is
    rejected by the parser. *)
Definition get_json_data (f : file) : value :=
  match f with
  | Missing => VNone
  | Invalid => VNone
  | Parsed v => v
  end.

(** [format_virtual_name] *)
Definition format_virtual_name (name : string) : string :=
  PyStr.strip (PyStr.space_before_capitals name).

(** *** is_linear_or_flat *)

(** [data[0].get("FloatCurves") or
     [data[0].get("Properties", {}).get("FloatCurve")]], the expression
    of [is_linear_or_flat] and of [plot_selected_file]. *)
Definition float_curves_or (record : value) : result value :=
  a <- get record "FloatCurves" VNone ;;
  if truthy a then Ok a
  else
    p <- get record "Properties" (VDict []) ;;
    c <- get p "FloatCurve" VNone ;;
    Ok (VList [c]).

(** The slope over the segment that ends at index [i], or [inf] when the
    segment has no duration. *)
Definition current_slope (time_points values : list value) (i : Z)
  : result value :=
  ti <- list_getitem time_points i ;;
  tp <- list_getitem time_points (i - 1) ;;
  time_diff <- sub ti tp ;;
  if eq time_diff (VInt 0) then Ok (VFloat f_inf)
  else
    vi <- list_getitem values i ;;
    vp <- list_getitem values (i - 1) ;;
    dv <- sub vi vp ;;
    truediv dv time_diff.

(** The loop [for i in range(2, len(keys))]: [Ok false] is its
    [return False], [Ok true] the [return True] that follows it. *)
Fixpoint slope_loop (time_points values : list value) (first_slope : value)
         (indices : list Z) : result bool :=
  match indices with
  | [] => Ok true
  | i :: rest =>
      s <- current_slope time_points values i ;;
      d <- sub s first_slope ;;
      a <- abs d ;;
      differs <- gt_num a (PyNum.Float tolerance) ;;
      if differs then Ok false
      else slope_loop time_points values first_slope rest
  end.

(** [range(2, n)] *)
Definition range_from_2 (n : Z) : list Z :=
  map Z.of_nat (seq 2 (Z.to_nat n - 2)).

(** Lines 187 to 215: the decision, once [keys] is at hand. *)
Definition classify_keys (keys : value) : result bool :=
  n <- len keys ;;
  if (n <=? 2)%Z then Ok true
  else
    ks <- iter keys ;;
    time_points <- comprehension (fun key => getitem_key key "Time") ks ;;
    values <- comprehension (fun key => getitem_key key "Value") ks ;;
    first_value <- list_getitem values 0 ;;
    if forallb (fun v => eq v first_value) values then Ok true
    else
      t1 <- list_getitem time_points 1 ;;
      t0 <- list_getitem time_points 0 ;;
      dt <- sub t1 t0 ;;
      first_slope <-
        (if ne dt (VInt 0) then
           v1 <- list_getitem values 1 ;;
           v0 <- list_getitem values 0 ;;
           dv <- sub v1 v0 ;;
           t1' <- list_getitem time_points 1 ;;
           t0' <- list_getitem time_points 0 ;;
           dt' <- sub t1' t0' ;;
           truediv dv dt'
         else Ok (VFloat f_inf)) ;;
      slope_loop time_points values first_slope (range_from_2 n).

(** The body of the [try] block. *)
Definition is_linear_or_flat_body (data : value) : result bool :=
  record <- getitem_int data 0 ;;
  float_curves <- float_curves_or record ;;
  curve <- getitem_int float_curves 0 ;;
  keys <- getitem_key curve "Keys" ;;
  classify_keys keys.

(** [is_linear_or_flat(file_path)], on what the path leads to. *)
Definition is_linear_or_flat (f : file) : result bool :=
  let data := get_json_data f in
  if negb (truthy data) then Ok true
  else
    try_except (is_linear_or_flat_body data)
               [KeyError; IndexError; TypeError]
               (fun _ => Ok true).

(** *** update_json_files: the filter on one attribute file *)

(** The [try] block of the loop over [ATT_*.json]: [Ok true] when the
    file is put in [json_files_paths], [Ok false] when it is skipped. *)
Definition attribute_listed (f : file) : result bool :=
  try_except
    (let file_data := get_json_data f in
     if negb (truthy file_data) then Ok false
     else
       r0 <- getitem_int file_data 0 ;;
       a <- contains "FloatCurves" r0 ;;
       shaped <-
         (if a then Ok true
          else
            r1 <- getitem_int file_data 0 ;;
            p <- contains "Properties" r1 ;;
            if p then
              r2 <- getitem_int file_data 0 ;;
              props <- getitem_key r2 "Properties" ;;
              contains "FloatCurve" props
            else Ok false) ;;
       if shaped then
         trivial <- is_linear_or_flat f ;;
         Ok (negb trivial)
       else Ok false)
    [KeyError; IndexError]
    (fun _ => Ok false).

(** *** generate_virtual_attack_files *)

(** One derived curve: [{"Time": time_points, "Values": values}]. *)
Record series : Type := {
  Time : list value;
  Values : list value
}.

(** One item of [self.virtual_files_data]. *)
Record virtual_entry : Type := {
  curves : list series;
  y_label : string;
  title_name : string
}.

(** [self.virtual_files_data]: display name to entry. *)
Definition virtual_files := list (string * virtual_entry).

(** Lines 374 to 379: the curves of the AttackPower record, found by the
    presence of the keys. *)
Definition float_curves_in (ap_content : value) : result value :=
  a <- contains "FloatCurves" ap_content ;;
  if a then getitem_key ap_content "FloatCurves"
  else
    p <- contains "Properties" ap_content ;;
    b <- (if p then
            props <- getitem_key ap_content "Properties" ;;
            contains "FloatCurve" props
          else Ok false) ;;
    if b then
      props <- getitem_key ap_content "Properties" ;;
      c <- getitem_key props "FloatCurve" ;;
      Ok (VList [c])
    else Raise ValueError.

(** The body of the first [try] block. *)
Definition attack_power_curves (attack_power_data : value) : result value :=
  ap_content <- getitem_int attack_power_data 0 ;;
  float_curves_in ap_content.

(** One pass of the dict comprehension of line 384, over the item
    [(k, v)] of [Rows]. *)
Definition damage_attributes_step (acc : list (string * value))
           (kv : string * value) : result (list (string * value)) :=
  let '(k, v) := kv in
  if PyStr.startswith "Damage." k then
    p <- getitem_key v "AttributePercentageValues" ;;
    if ne p (VInt 0) then
      p' <- getitem_key v "AttributePercentageValues" ;;
      Ok (dict_set k p' acc)
    else Ok acc
  else Ok acc.

(** The dict comprehension of line 384. *)
Definition damage_attributes (balance_data : value)
  : result (list (string * value)) :=
  record <- getitem_int balance_data 0 ;;
  rows <- getitem_key record "Rows" ;;
  its <- items rows ;;
  for_each damage_attributes_step its [].

(** One pass of the loop over [curve["Keys"]]: a keyframe is kept when
    its time is above zero. *)
Definition scaled_curve_step (damage_value : value) (acc : series)
           (key : value) : result series :=
  t <- getitem_key key "Time" ;;
  keep <- gt_num t (PyNum.Float f_zero) ;;
  if keep then
    t' <- getitem_key key "Time" ;;
    v <- getitem_key key "Value" ;;
    w <- mul v damage_value ;;
    Ok {| Time := (Time acc ++ [t'])%list;
          Values := (Values acc ++ [w])%list |}
  else Ok acc.

(** The loop over [curve["Keys"]]. *)
Definition scaled_curve (curve damage_value : value) : result series :=
  keys <- getitem_key curve "Keys" ;;
  ks <- iter keys ;;
  for_each (scaled_curve_step damage_value) ks {| Time := []; Values := [] |}.

(** One pass of the loop over [ap_curves[:2]]. *)
Definition new_curves_step (damage_value : value) (acc : list series)
           (curve : value) : result (list series) :=
  c <- scaled_curve curve damage_value ;;
  Ok (acc ++ [c])%list.

(** The loop over [ap_curves[:2]]. *)
Definition new_curves (ap_curves damage_value : value)
  : result (list series) :=
  two <- slice_to_2 ap_curves ;;
  cs <- iter two ;;
  for_each (new_curves_step damage_value) cs [].

(** [f"{format_virtual_name(attack_name.split('.')[-1])} Attack"] *)
Definition display_name (attack_name : string) : string :=
  format_virtual_name (PyStr.split_dot_last attack_name) ++ " Attack".

(** The loop over [damage_attributes.items()].  The entries stored
    before an exception stay stored. *)
Fixpoint store_attacks (ap_curves : value) (attrs : list (string * value))
         (vfd : virtual_files) : virtual_files * result unit :=
  match attrs with
  | [] => (vfd, Ok tt)
  | (attack_name, damage_value) :: rest =>
      let name := display_name attack_name in
      match new_curves ap_curves damage_value with
      | Raise e => (vfd, Raise e)
      | Ok cs =>
          store_attacks ap_curves rest
            (dict_set name
               {| curves := cs; y_label := "Damage"; title_name := name |}
               vfd)
      end
  end.

(** [generate_virtual_attack_files], on the two files it opens and the
    [virtual_files_data] it finds; it gives back the [virtual_files_data]
    it leaves and how it ended. *)
Definition generate_virtual_attack_files (balance attack_power : file)
           (vfd : virtual_files) : virtual_files * result unit :=
  let balance_data := get_json_data balance in
  let attack_power_data := get_json_data attack_power in
  if negb (truthy balance_data) || negb (truthy attack_power_data)
  then (vfd, Ok tt)
  else
    match try_except
            (c <- attack_power_curves attack_power_data ;; Ok (Some c))
            [KeyError; ValueError; IndexError]
            (fun _ => Ok None)
    with
    | Raise e => (vfd, Raise e)
    | Ok None => (vfd, Ok tt)
    | Ok (Some ap_curves) =>
        match damage_attributes balance_data with
        | Raise e => (vfd, Raise e)
        | Ok attrs => store_attacks ap_curves attrs vfd
        end
    end.

(** *** plot_selected_file *)

(** The arguments of a call of [plot_data], the presentation layer. *)
Record plot_call : Type := {
  arg_time_points_list : list (list value);
  arg_values_list : list (list value);
  arg_file_name : string;
  arg_y_label : string
}.

(** Lines 459 to 463: the curves of "weight" and "scale" are carried on
    to the end of the time axis. *)
Definition extend_to_one (selected_file_name : string)
           (time_points values : list value)
  : result (list value * list value) :=
  if existsb (String.eqb (PyStr.lower selected_file_name)) ["weight"; "scale"]
  then
    match time_points with
    | [] => Ok (time_points, values)
    | _ :: _ =>
        final <- list_getitem time_points (-1) ;;
        short <- lt_num final (PyNum.Float f_one) ;;
        if short then
          last_value <- list_getitem values (-1) ;;
          Ok ((time_points ++ [VFloat f_one])%list,
              (values ++ [last_value])%list)
        else Ok (time_points, values)
    end
  else Ok (time_points, values).

(** Lines 465 to 471: the label of the value axis and the factor applied
    to the values. *)
Definition unit_rule (selected_file_name : string) : string * float :=
  if PyStr.contains "speed" (PyStr.lower selected_file_name)
  then ("Value (km/h)", kmh_factor)
  else if PyStr.contains "weight" (PyStr.lower selected_file_name)
       then ("Value (kg)", f_one)
       else ("Value", f_one).

(** The body of the loop over [float_curves[:2]]: the time points, the
    values and the label that one curve gives. *)
Definition plot_curve (selected_file_name : string) (curve : value)
  : result (list value * list value * string) :=
  keys <- getitem_key curve "Keys" ;;
  ks <- iter keys ;;
  time_points <- comprehension (fun key => getitem_key key "Time") ks ;;
  keys' <- getitem_key curve "Keys" ;;
  ks' <- iter keys' ;;
  values <- comprehension (fun key => getitem_key key "Value") ks' ;;
  extended <- extend_to_one selected_file_name time_points values ;;
  let '(time_points, values) := extended in
  let '(label, conversion_factor) := unit_rule selected_file_name in
  values <- comprehension (fun v => mul v (VFloat conversion_factor)) values ;;
  Ok (time_points, values, label).

(** The local variables of the loop: the two lists, and [y_label], which
    is not bound before the first pass. *)
Definition plot_locals : Type :=
  (list (list value) * list (list value) * option string)%type.

(** One pass of the loop over [float_curves[:2]]. *)
Definition plot_step (selected_file_name : string) (acc : plot_locals)
           (curve : value) : result plot_locals :=
  let '(tpl, vl, _) := acc in
  r <- plot_curve selected_file_name curve ;;
  let '(time_points, values, label) := r in
  Ok ((tpl ++ [time_points])%list, (vl ++ [values])%list, Some label).

(** Lines 451 to 477: from [float_curves] to the call of [plot_data]. *)
Definition plot_float_curves (selected_file_name : string)
           (float_curves : value) : result (option plot_call) :=
  if negb (truthy float_curves) then Ok None
  else
    first <- getitem_int float_curves 0 ;;
    if negb (truthy first) then Ok None
    else
      two <- slice_to_2 float_curves ;;
      cs <- iter two ;;
      locals <- for_each (plot_step selected_file_name) cs ([], [], None) ;;
      let '(tpl, vl, bound) := locals in
      match bound with
      | None => Raise UnboundLocalError
      | Some label =>
          Ok (Some {| arg_time_points_list := tpl;
                      arg_values_list := vl;
                      arg_file_name := selected_file_name;
                      arg_y_label := label |})
      end.

(** Lines 447 to 477: a file read from disk. *)
Definition plot_file (selected_file_name : string) (f : file)
  : result (option plot_call) :=
  let file_data := get_json_data f in
  if negb (truthy file_data) then Ok None
  else
    record <- getitem_int file_data 0 ;;
    float_curves <- float_curves_or record ;;
    plot_float_curves selected_file_name float_curves.

(** [plot_selected_file], on the selected name, [virtual_files_data],
    [json_files_paths] and the files on disk: the call of [plot_data] it
    makes, if any. *)
Definition plot_selected_file (selected_file_name : string)
           (vfd : virtual_files) (json_files_paths : list (string * string))
           (disk : string -> file) : result (option plot_call) :=
  match lookup selected_file_name vfd with
  | Some data =>
      Ok (Some {| arg_time_points_list := map Time (curves data);
                  arg_values_list := map Values (curves data);
                  arg_file_name := title_name data;
                  arg_y_label := y_label data |})
  | None =>
      match lookup selected_file_name json_files_paths with
      | None => Ok None
      | Some full_path =>
          if String.eqb full_path EmptyString then Ok None
          else plot_file selected_file_name (disk full_path)
      end
  end.

End Reader.

(* ===================================================================== *)
(** ** Well-shaped files and the rules of the specification *)
(* ===================================================================== *)

Module Typed.
Import PyExc PyVal Reader.
Local Open Scope string_scope.

(** A keyframe [{ time: float, value: float }] and a curve, as the data
    model of the specification has them. *)
Definition keyframe : Type := (float * float)%type.
Definition time (k : keyframe) : float := fst k.
Definition val (k : keyframe) : float := snd k.
Definition curve : Type := list keyframe.

(** The object [v] is a keyframe with the time and the value of [k]; it
    may have other fields. *)
Definition is_keyframe (v : value) (k : keyframe) : Prop :=
  exists d, v = VDict d
            /\ lookup "Time" d = Some (VFloat (time k))
            /\ lookup "Value" d = Some (VFloat (val k)).

(** The object [v] is a curve with the keyframes of [c]. *)
Definition is_curve (v : value) (c : curve) : Prop :=
  exists d kvs, v = VDict d
                /\ lookup "Keys" d = Some (VList kvs)
                /\ Forall2 is_keyframe kvs c.

(** The keys that the classifier looks at: those of the first curve of
    the record. *)
Definition representative_keys (data : value) : result value :=
  (record <- getitem_int data 0 ;;
   float_curves <- float_curves_or record ;;
   first <- getitem_int float_curves 0 ;;
   getitem_key first "Keys")%py.

(** The times and the values of a curve, as lists of objects. *)
Definition time_values (c : curve) : list value :=
  map (fun k => VFloat (time k)) c.

Definition val_values (c : curve) : list value :=
  map (fun k => VFloat (val k)) c.

(** The plainest objects of these shapes. *)
Definition keyframe_value (k : keyframe) : value :=
  VDict [("Time", VFloat (time k)); ("Value", VFloat (val k))].

Definition curve_value (c : curve) : value :=
  VDict [("Keys", VList (map keyframe_value c))].

(** Shape (A): the curves in a list under [FloatCurves].
    Shape (B): one curve under [Properties.FloatCurve]. *)
Definition shape_A (cs : list value) : value :=
  VDict [("FloatCurves", VList cs)].

Definition shape_B (c : value) : value :=
  VDict [("Properties", VDict [("FloatCurve", c)])].

(** An attribute file: a top-level array whose element 0 is the record. *)
Definition attribute_file (record : value) : file :=
  Parsed (VList [record]).

(** A balance table file: element 0 has the [Rows]. *)
Definition row_value (p : float) : value :=
  VDict [("AttributePercentageValues", VFloat p)].

Definition balance_file (table : list (string * float)) : file :=
  Parsed (VList [VDict [("Rows",
            VDict (map (fun kp => (fst kp, row_value (snd kp))) table))]]).

(** The binding [kv] of [Rows] is the row of the table entry [kp]: the
    same key, and an object whose [AttributePercentageValues] is the
    percentage; it may have other fields. *)
Definition is_row (kv : string * value) (kp : string * float) : Prop :=
  fst kv = fst kp
  /\ exists d, snd kv = VDict d
               /\ lookup "AttributePercentageValues" d = Some (VFloat (snd kp)).

(** The parsed balance file holds the percentage table. *)
Definition is_balance_data (balance_data : value)
           (table : list (string * float)) : Prop :=
  exists record rows,
    getitem_int balance_data 0 = Ok record
    /\ getitem_key record "Rows" = Ok (VDict rows)
    /\ Forall2 is_row rows table.

(** The parsed AttackPower file holds the curve set, in either shape. *)
Definition is_attack_power_data (attack_power_data : value)
           (curve_set : list curve) : Prop :=
  exists cvs,
    attack_power_curves attack_power_data = Ok (VList cvs)
    /\ Forall2 is_curve cvs curve_set.

(** The parsed attribute file holds the curve set, in either shape, as
    the plotter and the classifier resolve it. *)
Definition is_attribute_data (file_data : value) (curve_set : list curve)
  : Prop :=
  exists record cvs,
    getitem_int file_data 0 = Ok record
    /\ float_curves_or record = Ok (VList cvs)
    /\ Forall2 is_curve cvs curve_set.

(** The records on which the two resolutions of the program meet:
    [FloatCurves] is present with a value that is true, or it is absent
    and [Properties] is an object that holds [FloatCurve]. *)
Definition agreeing_record (d : list (string * value)) : Prop :=
  (exists a, lookup "FloatCurves" d = Some a /\ truthy a = true)
  \/ (lookup "FloatCurves" d = None
      /\ exists p c, lookup "Properties" d = Some (VDict p)
                     /\ lookup "FloatCurve" p = Some c).

(** *** The classifier, rule by rule (specification 4.2) *)

(** Rule 2: every value equals the first one. *)
Definition is_flat (c : curve) : bool :=
  match c with
  | [] => true
  | k0 :: _ => forallb (fun k => PrimFloat.eqb (val k) (val k0)) c
  end.

(** Rule 3, with the test of the code: the slope of a segment,
    [+infinity] when the difference of its two times is zero. *)
Definition slope (a b : keyframe) : float :=
  if PrimFloat.eqb (PrimFloat.sub (time b) (time a)) f_zero then f_inf
  else PrimFloat.div (PrimFloat.sub (val b) (val a))
                     (PrimFloat.sub (time b) (time a)).

(** The slopes of the consecutive pairs, in order. *)
Fixpoint slopes (c : curve) : list float :=
  match c with
  | a :: (b :: _) as rest => slope a b :: slopes rest
  | _ => []
  end.

(** Rule 4: two slopes differ by more than the tolerance. *)
Definition differs (s first : float) : bool :=
  PrimFloat.ltb tolerance (PrimFloat.abs (PrimFloat.sub s first)).

(** Rules 4 and 5: [false] at the first later pair whose slope differs
    from the first slope, [true] when there is none. *)
Fixpoint all_match (first : float) (later : list float) : bool :=
  match later with
  | [] => true
  | s :: later' => if differs s first then false else all_match first later'
  end.

(** Rules 2 to 5, for a curve of more than two keyframes. *)
Definition is_trivial_long (c : curve) : bool :=
  if is_flat c then true
  else match slopes c with
       | first :: later => all_match first later
       | [] => true
       end.

(** *** The virtual curves (specification 4.3) *)

(** The keyframes that stay, each with its value times the percentage. *)
Definition derived_curve (c : curve) (percentage : float) : curve :=
  map (fun k => (time k, PrimFloat.mul (val k) percentage))
      (filter (fun k => PrimFloat.ltb f_zero (time k)) c).

Definition series_of (c : curve) : series :=
  {| Time := time_values c; Values := val_values c |}.

(** A key of the table qualifies: the prefix, and a percentage that is
    not zero. *)
Definition qualifies (kp : string * float) : bool :=
  PyStr.startswith "Damage." (fst kp)
  && negb (PrimFloat.eqb (snd kp) f_zero).

(** The entry that a qualifying key gives. *)
Definition entry_of (curve_set : list curve) (kp : string * float)
  : string * virtual_entry :=
  (display_name (fst kp),
   {| curves := map (fun c => series_of (derived_curve c (snd kp)))
                    (firstn 2 curve_set);
      y_label := "Damage";
      title_name := display_name (fst kp) |}).

(** The entries of the keys [kps], put one after the other in a mapping
    from display name to entry that starts as [vfd]. *)
Definition store_entries (curve_set : list curve)
           (kps : list (string * float)) (vfd : virtual_files)
  : virtual_files :=
  fold_left
    (fun acc kp =>
       dict_set (fst (entry_of curve_set kp)) (snd (entry_of curve_set kp)) acc)
    kps vfd.

(** *** The post-processor (specification 4.4) *)

(** The name is "weight" or "scale", whatever the case of its letters. *)
Definition is_weight_or_scale (name : string) : bool :=
  String.eqb (PyStr.lower name) "weight"
  || String.eqb (PyStr.lower name) "scale".

(** The time of the last keyframe is below one. *)
Definition ends_early (c : curve) : bool :=
  match rev c with
  | [] => false
  | k :: _ => PrimFloat.ltb (time k) f_one
  end.

(** The curve with the synthetic keyframe at time one. *)
Definition extended (c : curve) : curve :=
  match rev c with
  | [] => c
  | k :: _ => (c ++ [(f_one, val k)])%list
  end.

(** The boundary extension rule. *)
Definition boundary (name : string) (c : curve) : curve :=
  if is_weight_or_scale name && ends_early c then extended c else c.

(** The unit rule, applied to the values. *)
Definition converted_values (factor : float) (c : curve) : list value :=
  map (fun k => VFloat (PrimFloat.mul (val k) factor)) c.

End Typed.

(* ===================================================================== *)
(** ** Concrete files *)
(* ===================================================================== *)

(** The inputs of the testable properties of the specification, written
    as the JSON text writes them (an integer literal is an [int]), and a
    few malformed files. *)
Module Examples.
Import PyVal Reader Typed.
Local Open Scope string_scope.

Definition f_half : float := 0x1p-1%float.
Definition f_0_8 : float := 0x1.999999999999ap-1%float.
Definition f_3_6 : float := 0x1.ccccccccccccdp+1%float.
Definition f_below_3_6 : float := 0x1.cccccccccccccp+1%float.

(** [{"Time": t, "Value": v}] and [{"Keys": [...]}] *)
Definition key (t v : value) : value := VDict [("Time", t); ("Value", v)].
Definition keys (ks : list value) : value := VDict [("Keys", VList ks)].

(** Keyframes (0,0), (0.5,1), (1,4) and (0,0), (0.5,1), (1,2). *)
Definition bent : value :=
  keys [key (VInt 0) (VInt 0); key (VFloat f_half) (VInt 1);
        key (VInt 1) (VInt 4)].

Definition straight : value :=
  keys [key (VInt 0) (VInt 0); key (VFloat f_half) (VInt 1);
        key (VInt 1) (VInt 2)].

(** The same two curves with every number a [float]. *)
Definition bent_curve : curve :=
  [(0x0p+0, 0x0p+0); (0x1p-1, 0x1p+0); (0x1p+0, 0x1p+2)]%float.

Definition straight_curve : curve :=
  [(0x0p+0, 0x0p+0); (0x1p-1, 0x1p+0); (0x1p+0, 0x1p+1)]%float.

(** Two keys that are not keyframes at all. *)
Definition two_odd_keys : value := keys [VStr "x"; VNone].

(** Attack power [(0,10), (0.5,20), (1,30)], stage 0 only. *)
Definition attack_power : file :=
  attribute_file
    (shape_A [keys [key (VInt 0) (VInt 10); key (VFloat f_half) (VInt 20);
                    key (VInt 1) (VInt 30)]]).

Definition attack_power_curve : curve :=
  [(0x0p+0, 0x1.4p+3); (0x1p-1, 0x1.4p+4); (0x1p+0, 0x1.ep+4)]%float.

(** [{"Damage.Bite": 0.5, "Other.X": 1.0}] *)
Definition bite_table : list (string * float) :=
  [("Damage.Bite", f_half); ("Other.X", f_one)].

(** Two damage keys with the same last segment. *)
Definition two_bites_table : list (string * float) :=
  [("Damage.Bite", f_half); ("Damage.Alt.Bite", 0x1p+1%float)].

(** A balance file whose record has no [Rows]. *)
Definition balance_without_rows : file := Parsed (VList [VDict []]).

(** A curve file whose only curve has no [Keys]. *)
Definition curve_without_keys : file :=
  attribute_file (shape_A [VDict [("Name", VStr "Curve")]]).

(** [[{"FloatCurves": [], "Properties": null}]] *)
Definition empty_curves_null_properties : value :=
  VDict [("FloatCurves", VList []); ("Properties", VNone)].

(** [{"FloatCurves": []}], alone and with a curve under [Properties]. *)
Definition empty_curves : value := VDict [("FloatCurves", VList [])].

Definition empty_curves_and_B : value :=
  VDict [("FloatCurves", VList []);
         ("Properties", VDict [("FloatCurve", straight)])].

(** Weight [(0,2), (0.8,5)], the same ending at 1.0, and a speed of 100. *)
Definition weight_short : value :=
  keys [key (VInt 0) (VInt 2); key (VFloat f_0_8) (VInt 5)].

Definition weight_full : value :=
  keys [key (VInt 0) (VInt 2); key (VFloat f_one) (VInt 5)].

Definition weight_short_curve : curve :=
  [(0x0p+0, 0x1p+1); (0x1.999999999999ap-1, 0x1.4p+2)]%float.

Definition speed_100 : value := keys [key (VInt 0) (VInt 100)].

Definition speed_100_curve : curve := [(0x0p+0, 0x1.9p+6)]%float.

(** Three curves, the third of which is not a curve. *)
Definition three_curves : list value := [straight; bent; VInt 7].

End Examples.

From Stdlib Require Import Sorted Permutation.

(* ===================================================================== *)
(** ** The names of the files *)
(* ===================================================================== *)

Module Formatting.
Local Open Scope string_scope.

(** [s.replace(old, new)] for an [old] that is not empty: the occurrences
    are taken from the left and do not overlap.  [skip] counts the
    characters of an occurrence that are still to be passed over. *)
Fixpoint replace_from (old new : string) (skip : nat) (s : string) : string :=
  match s with
  | EmptyString => EmptyString
  | String c s' =>
      match skip with
      | S n => replace_from old new n s'
      | O =>
          if String.prefix old s
          then new ++ replace_from old new (String.length old - 1) s'
          else String c (replace_from old new 0 s')
      end
  end.

(** With an empty [old], [new] goes before every character and at the
    end. *)
Fixpoint interleave (new s : string) : string :=
  match s with
  | EmptyString => new
  | String c s' => new ++ String c (interleave new s')
  end.

(** [s.replace(old, new)] *)
Definition replace (old new s : string) : string :=
  match old with
  | EmptyString => interleave new s
  | String _ _ => replace_from old new 0 s
  end.

Section WithPaths.

(** [os.path.basename], which depends on the platform. *)
Variable basename : string -> string.

(** [format_file_name] *)
Definition format_file_name (file_name dinosaur_name : string) : string :=
  let name := basename file_name in
  let name := replace ".json" EmptyString name in
  let name :=
    if PyStr.startswith "ATT_" name
    then replace ("ATT_" ++ dinosaur_name ++ "_") EmptyString name
    else if PyStr.startswith "DT_" name
         then replace ("DT_" ++ dinosaur_name) EmptyString name
         else name in
  PyStr.strip (PyStr.space_before_capitals name).

End WithPaths.

End Formatting.

(* ===================================================================== *)
(** ** The balance table as text *)
(* ===================================================================== *)

Module Table.
Import PyExc PyVal Reader.
Local Open Scope string_scope.
Local Open Scope py_scope.

(** The line feed that ends a row. *)
Definition line_feed : string := String (ascii_of_nat 10) EmptyString.

(** The text shown when the [try] block fails. *)
Definition error_text : string := "Error parsing the BalanceAttributes file.".

Section WithStr.

(** [str(v)], the way an f-string writes a value. *)
Variable str_of : value -> string.

(** One pass of the loop over [rows.items()]: the row is written when
    its [AttributePercentageValues] is not [None]. *)
Definition table_step (table_string : string) (kv : string * value)
  : result string :=
  let '(key, value_dict) := kv in
  v <- get value_dict "AttributePercentageValues" VNone ;;
  match v with
  | VNone => Ok table_string
  | _ => Ok (table_string ++ key ++ ": " ++ str_of v ++ line_feed)
  end.

(** The [try] block and its handler. *)
Definition table_string_of (data : value) : result string :=
  try_except
    (record <- getitem_int data 0 ;;
     rows <- get record "Rows" (VDict []) ;;
     its <- items rows ;;
     for_each table_step its EmptyString)
    [KeyError; IndexError]
    (fun _ => Ok error_text).

(** [show_balance_table]: the text put in the window, or [None] when the
    function returns before it opens one. *)
Definition show_balance_table (f : file) : result (option string) :=
  let data := get_json_data f in
  if negb (truthy data) then Ok None
  else
    s <- table_string_of data ;;
    Ok (Some s).

End WithStr.

End Table.

(* ===================================================================== *)
(** ** The window: folders, menus and the button *)
(* ===================================================================== *)

(** The widgets are followed through what they show: the labels of the
    two menus, the two variables, and the text, state and command of the
    buttons.  A callback that [trace] or [command] attaches runs inside
    Tk's wrapper, which reports an exception and does not hand it on; the
    state that the callback left stays. *)
Module Window.
Import PyExc PyVal Reader.
Local Open Scope string_scope.

(** What [plot_button] runs. *)
Inductive command : Type :=
| PlotSelectedFile
| ShowSelectedDataTable.

Record button : Type := {
  button_text : string;
  button_enabled : bool;
  button_command : command
}.

(** The attributes of a [JSONPlotterUI] and what its widgets show. *)
Record ui : Type := {
  root_dir : string;
  folders : list string;
  json_files_paths : list (string * string);
  virtual_files_data : virtual_files;
  folder_var : string;
  json_file_var : string;
  override_path_var : bool;
  path_entry : string;
  path_entry_enabled : bool;
  select_root_text : string;
  select_root_enabled : bool;
  folder_menu : list string;
  json_menu : list string;
  plot_button : button
}.

Definition with_paths (st : ui) (paths : list (string * string)) : ui :=
  {| root_dir := root_dir st; folders := folders st;
     json_files_paths := paths;
     virtual_files_data := virtual_files_data st;
     folder_var := folder_var st; json_file_var := json_file_var st;
     override_path_var := override_path_var st;
     path_entry := path_entry st;
     path_entry_enabled := path_entry_enabled st;
     select_root_text := select_root_text st;
     select_root_enabled := select_root_enabled st;
     folder_menu := folder_menu st; json_menu := json_menu st;
     plot_button := plot_button st |}.

Definition with_virtual (st : ui) (vfd : virtual_files) : ui :=
  {| root_dir := root_dir st; folders := folders st;
     json_files_paths := json_files_paths st;
     virtual_files_data := vfd;
     folder_var := folder_var st; json_file_var := json_file_var st;
     override_path_var := override_path_var st;
     path_entry := path_entry st;
     path_entry_enabled := path_entry_enabled st;
     select_root_text := select_root_text st;
     select_root_enabled := select_root_enabled st;
     folder_menu := folder_menu st; json_menu := json_menu st;
     plot_button := plot_button st |}.

Definition with_plot_button (st : ui) (b : button) : ui :=
  {| root_dir := root_dir st; folders := folders st;
     json_files_paths := json_files_paths st;
     virtual_files_data := virtual_files_data st;
     folder_var := folder_var st; json_file_var := json_file_var st;
     override_path_var := override_path_var st;
     path_entry := path_entry st;
     path_entry_enabled := path_entry_enabled st;
     select_root_text := select_root_text st;
     select_root_enabled := select_root_enabled st;
     folder_menu := folder_menu st; json_menu := json_menu st;
     plot_button := b |}.

Definition with_json_menu (st : ui) (labels : list string) : ui :=
  {| root_dir := root_dir st; folders := folders st;
     json_files_paths := json_files_paths st;
     virtual_files_data := virtual_files_data st;
     folder_var := folder_var st; json_file_var := json_file_var st;
     override_path_var := override_path_var st;
     path_entry := path_entry st;
     path_entry_enabled := path_entry_enabled st;
     select_root_text := select_root_text st;
     select_root_enabled := select_root_enabled st;
     folder_menu := folder_menu st; json_menu := labels;
     plot_button := plot_button st |}.

Definition with_json_file_var (st : ui) (name : string) : ui :=
  {| root_dir := root_dir st; folders := folders st;
     json_files_paths := json_files_paths st;
     virtual_files_data := virtual_files_data st;
     folder_var := folder_var st; json_file_var := name;
     override_path_var := override_path_var st;
     path_entry := path_entry st;
     path_entry_enabled := path_entry_enabled st;
     select_root_text := select_root_text st;
     select_root_enabled := select_root_enabled st;
     folder_menu := folder_menu st; json_menu := json_menu st;
     plot_button := plot_button st |}.

Definition with_folder_menu (st : ui) (labels : list string) : ui :=
  {| root_dir := root_dir st; folders := folders st;
     json_files_paths := json_files_paths st;
     virtual_files_data := virtual_files_data st;
     folder_var := folder_var st; json_file_var := json_file_var st;
     override_path_var := override_path_var st;
     path_entry := path_entry st;
     path_entry_enabled := path_entry_enabled st;
     select_root_text := select_root_text st;
     select_root_enabled := select_root_enabled st;
     folder_menu := labels; json_menu := json_menu st;
     plot_button := plot_button st |}.

Definition with_folder_var (st : ui) (name : string) : ui :=
  {| root_dir := root_dir st; folders := folders st;
     json_files_paths := json_files_paths st;
     virtual_files_data := virtual_files_data st;
     folder_var := name; json_file_var := json_file_var st;
     override_path_var := override_path_var st;
     path_entry := path_entry st;
     path_entry_enabled := path_entry_enabled st;
     select_root_text := select_root_text st;
     select_root_enabled := select_root_enabled st;
     folder_menu := folder_menu st; json_menu := json_menu st;
     plot_button := plot_button st |}.

Definition with_root (st : ui) (root : string) (dirs : list string) : ui :=
  {| root_dir := root; folders := dirs;
     json_files_paths := json_files_paths st;
     virtual_files_data := virtual_files_data st;
     folder_var := folder_var st; json_file_var := json_file_var st;
     override_path_var := override_path_var st;
     path_entry := path_entry st;
     path_entry_enabled := path_entry_enabled st;
     select_root_text := select_root_text st;
     select_root_enabled := select_root_enabled st;
     folder_menu := folder_menu st; json_menu := json_menu st;
     plot_button := plot_button st |}.

Definition with_select_root (st : ui) (text : string) (enabled : bool) : ui :=
  {| root_dir := root_dir st; folders := folders st;
     json_files_paths := json_files_paths st;
     virtual_files_data := virtual_files_data st;
     folder_var := folder_var st; json_file_var := json_file_var st;
     override_path_var := override_path_var st;
     path_entry := path_entry st;
     path_entry_enabled := path_entry_enabled st;
     select_root_text := text;
     select_root_enabled := enabled;
     folder_menu := folder_menu st; json_menu := json_menu st;
     plot_button := plot_button st |}.

Definition with_path_entry_enabled (st : ui) (enabled : bool) : ui :=
  {| root_dir := root_dir st; folders := folders st;
     json_files_paths := json_files_paths st;
     virtual_files_data := virtual_files_data st;
     folder_var := folder_var st; json_file_var := json_file_var st;
     override_path_var := override_path_var st;
     path_entry := path_entry st;
     path_entry_enabled := enabled;
     select_root_text := select_root_text st;
     select_root_enabled := select_root_enabled st;
     folder_menu := folder_menu st; json_menu := json_menu st;
     plot_button := plot_button st |}.

(** [sorted(names)] on strings: they are ordered by code point, so the
    result is the one ordered list with the same items. *)
Fixpoint insert_sorted (x : string) (l : list string) : list string :=
  match l with
  | [] => [x]
  | y :: l' => if String.leb x y then x :: l else y :: insert_sorted x l'
  end.

Definition sorted (l : list string) : list string :=
  fold_right insert_sorted [] l.

(** *** plot_data: who is drawn *)

(** Lines 53 to 55: nothing is drawn when a list is empty. *)
Definition has_data (call : plot_call) : bool :=
  match arg_values_list call, arg_time_points_list call with
  | _ :: _, _ :: _ => true
  | _, _ => false
  end.

(** Lines 64 to 70: the label of the curve at index [i]. *)
Definition stage_label (i : nat) : string :=
  match i with
  | O => "Senior"
  | S _ => "Elder"
  end.

(** The curves given to [ax.plot], each with its label: one per pair of
    [zip(time_points_list, values_list)]. *)
Definition plotted_lines (call : plot_call)
  : list (string * (list value * list value)) :=
  let pairs := combine (arg_time_points_list call) (arg_values_list call) in
  combine (map stage_label (seq 0 (List.length pairs))) pairs.

(** *** enable_plot_button *)

Definition enable_plot_button (st : ui) : ui :=
  let selected_file_name := json_file_var st in
  if negb (String.eqb selected_file_name EmptyString)
     && negb (String.eqb selected_file_name "No files found")
  then
    if PyStr.contains "Balance Attributes" selected_file_name
    then with_plot_button st
           {| button_text := "Show Data Table"; button_enabled := true;
              button_command := ShowSelectedDataTable |}
    else with_plot_button st
           {| button_text := "Plot Data"; button_enabled := true;
              button_command := PlotSelectedFile |}
  else with_plot_button st
         {| button_text := button_text (plot_button st);
            button_enabled := false;
            button_command := button_command (plot_button st) |}.

(** [self.json_file_var.set(name)]: the variable changes, then the
    callback that line 256 attaches runs. *)
Definition set_json_file_var (st : ui) (name : string) : ui :=
  enable_plot_button (with_json_file_var st name).

(** [self.plot_button.config(state=...)] *)
Definition set_plot_button_state (st : ui) (enabled : bool) : ui :=
  with_plot_button st
    {| button_text := button_text (plot_button st);
       button_enabled := enabled;
       button_command := button_command (plot_button st) |}.

Section WithOS.

(** The file system: [os.path.join], [os.path.basename], [os.path.isdir],
    [os.path.exists], [os.listdir], [glob.glob], and what each path leads
    to when it is opened. *)
Variable join : list string -> string.
Variable basename : string -> string.
Variable isdir : string -> bool.
Variable path_exists : string -> bool.
Variable listdir : string -> list string.
Variable glob : string -> list string.
Variable disk : string -> file.

(** The directory of the script, [os.path.dirname(os.path.abspath(__file__))]. *)
Variable script_dir : string.

(** [str(v)], for the table window. *)
Variable str_of : value -> string.

Definition balance_file_path (st : ui) (dinosaur_name : string) : string :=
  join [root_dir st; dinosaur_name;
        "DT_" ++ dinosaur_name ++ "BalanceAttributes.json"].

Definition attack_power_file_path (st : ui) (dinosaur_name : string)
  : string :=
  join [root_dir st; dinosaur_name; "Attributes";
        "ATT_" ++ dinosaur_name ++ "_AttackPower.json"].

(** The method [generate_virtual_attack_files] on the window. *)
Definition generate_virtual_attack_files_of (st : ui)
           (dinosaur_name : string) : ui * result unit :=
  let '(vfd, r) :=
    generate_virtual_attack_files
      (disk (balance_file_path st dinosaur_name))
      (disk (attack_power_file_path st dinosaur_name))
      (virtual_files_data st) in
  (with_virtual st vfd, r).

(** The loop over [glob.glob(... "ATT_*.json")]: a file that passes the
    filter is put under its display name. *)
Fixpoint list_attributes (dinosaur_name : string) (file_paths : list string)
         (paths : list (string * string))
  : list (string * string) * result unit :=
  match file_paths with
  | [] => (paths, Ok tt)
  | file_path :: rest =>
      match attribute_listed (disk file_path) with
      | Raise e => (paths, Raise e)
      | Ok false => list_attributes dinosaur_name rest paths
      | Ok true =>
          list_attributes dinosaur_name rest
            (dict_set
               (Formatting.format_file_name basename file_path dinosaur_name)
               file_path paths)
      end
  end.

(** Lines 344 to 356: the menu of the attributes is built again. *)
Definition rebuild_json_menu (st : ui) : ui :=
  let all_display_names :=
    sorted (map fst (json_files_paths st)
            ++ map fst (virtual_files_data st))%list in
  match all_display_names with
  | [] =>
      let st := with_json_menu st ["No files found"] in
      let st := set_json_file_var st "No files found" in
      set_plot_button_state st false
  | first :: _ =>
      let st := with_json_menu st all_display_names in
      let st := set_json_file_var st first in
      set_plot_button_state st true
  end.

(** [update_json_files]: the window it leaves, and how it ended. *)
Definition update_json_files (st : ui) : ui * result unit :=
  let selected_dino_folder := folder_var st in
  let st := with_virtual (with_paths st []) [] in
  if String.eqb selected_dino_folder EmptyString
     || String.eqb selected_dino_folder "No Dinosaurs found"
  then (rebuild_json_menu (with_paths st []), Ok tt)
  else
    let attributes_path :=
      join [root_dir st; selected_dino_folder; "Attributes"] in
    if isdir attributes_path then
      let path := balance_file_path st selected_dino_folder in
      let st :=
        if path_exists path
        then with_paths st
               (dict_set
                  (Formatting.format_file_name basename path
                                               selected_dino_folder)
                  path (json_files_paths st))
        else st in
      match list_attributes selected_dino_folder
                            (glob (join [attributes_path; "ATT_*.json"]))
                            (json_files_paths st)
      with
      | (paths, Raise e) => (with_paths st paths, Raise e)
      | (paths, Ok _) =>
          match generate_virtual_attack_files_of (with_paths st paths)
                                                 selected_dino_folder
          with
          | (st, Raise e) => (st, Raise e)
          | (st, Ok _) => (rebuild_json_menu st, Ok tt)
          end
      end
    else (rebuild_json_menu (with_paths st []), Ok tt).

(** [self.folder_var.set(name)]: the variable changes, then the callback
    that line 250 attaches runs; an exception stops the callback and is
    reported. *)
Definition set_folder_var (st : ui) (name : string) : ui :=
  fst (update_json_files (with_folder_var st name)).

(** [update_folder_menu] *)
Definition update_folder_menu (st : ui) : ui :=
  match folders st with
  | [] =>
      set_folder_var (with_folder_menu st ["No Dinosaurs found"])
                     "No Dinosaurs found"
  | first :: _ =>
      set_folder_var (with_folder_menu st (folders st)) first
  end.

(** [sorted([d for d in os.listdir(root) if os.path.isdir(...)])] *)
Definition subfolders (root : string) : list string :=
  sorted (filter (fun d => isdir (join [root; d])) (listdir root)).

(** [auto_locate_jsons_folder] *)
Definition auto_locate_jsons_folder (st : ui) : ui :=
  let root := join [script_dir; "JSONs"] in
  let st := with_root st root (folders st) in
  if isdir root then
    let st := with_root st root (subfolders root) in
    let st := update_folder_menu st in
    with_select_root st ("Found: " ++ root) true
  else
    with_select_root st ("JSONs folder not found at: " ++ root) true.

(** [update_folder_from_entry] *)
Definition update_folder_from_entry (st : ui) : ui :=
  let new_path := PyStr.strip (path_entry st) in
  if isdir new_path then
    let st := with_root st new_path (subfolders new_path) in
    let st := update_folder_menu st in
    with_select_root st ("Using: " ++ new_path) true
  else with_select_root st "Invalid Path" true.

(** [toggle_path_entry] *)
Definition toggle_path_entry (st : ui) : ui :=
  if override_path_var st then
    with_select_root (with_path_entry_enabled st true) "Use Manual Path" true
  else
    let st := with_path_entry_enabled st false in
    let st := auto_locate_jsons_folder st in
    with_select_root st "Locating JSONs folder..." false.

(** The window as [__init__] builds it, before its last line. *)
Definition initial : ui :=
  {| root_dir := EmptyString; folders := [];
     json_files_paths := []; virtual_files_data := [];
     folder_var := EmptyString; json_file_var := EmptyString;
     override_path_var := false;
     path_entry := EmptyString; path_entry_enabled := false;
     select_root_text := "Locating JSONs folder...";
     select_root_enabled := false;
     folder_menu := ["No folders found"];
     json_menu := ["No files found"];
     plot_button := {| button_text := "Plot Data"; button_enabled := false;
                       button_command := PlotSelectedFile |} |}.

(** [JSONPlotterUI(root)] *)
Definition init : ui := auto_locate_jsons_folder initial.

(** [show_selected_data_table]: the text of the window it opens, if any. *)
Definition show_selected_data_table (st : ui) : result (option string) :=
  match lookup (json_file_var st) (json_files_paths st) with
  | None => Ok None
  | Some full_path =>
      if String.eqb full_path EmptyString then Ok None
      else Table.show_balance_table str_of (disk full_path)
  end.

(** [plot_selected_file] on the window. *)
Definition plot_selected_file_of (st : ui) : result (option plot_call) :=
  plot_selected_file (json_file_var st) (virtual_files_data st)
                     (json_files_paths st) disk.

(** A press on [plot_button]: what is shown, a plot or a table. *)
Inductive shown : Type :=
| Nothing
| Plot (call : plot_call)
| TableText (text : string).

Definition press_plot_button (st : ui) : result shown :=
  if button_enabled (plot_button st) then
    match button_command (plot_button st) with
    | PlotSelectedFile =>
        match plot_selected_file_of st with
        | Raise e => Raise e
        | Ok None => Ok Nothing
        | Ok (Some call) => Ok (if has_data call then Plot call else Nothing)
        end
    | ShowSelectedDataTable =>
        match show_selected_data_table st with
        | Raise e => Raise e
        | Ok None => Ok Nothing
        | Ok (Some text) => Ok (TableText text)
        end
    end
  else Ok Nothing.

End WithOS.

End Window.

(* ===================================================================== *)
(** ** A folder of examples *)
(* ===================================================================== *)

(** A POSIX file system with one dinosaur, [/JSONs/Rex], for the
    examples. *)
Module ExampleDisk.
Import PyVal Reader Examples.
Local Open Scope string_scope.

(** [posixpath.join] *)
Fixpoint ends_with_slash (s : string) : bool :=
  match s with
  | EmptyString => false
  | String c EmptyString => Ascii.eqb c "/"%char
  | String _ s' => ends_with_slash s'
  end.

Definition join2 (path b : string) : string :=
  if PyStr.startswith "/" b then b
  else if String.eqb path EmptyString || ends_with_slash path then path ++ b
       else path ++ "/" ++ b.

Definition join (parts : list string) : string :=
  match parts with
  | [] => EmptyString
  | a :: p => fold_left join2 p a
  end.

(** [posixpath.basename]: what follows the last slash. *)
Fixpoint basename_from (acc s : string) : string :=
  match s with
  | EmptyString => acc
  | String c s' =>
      if Ascii.eqb c "/"%char then basename_from EmptyString s'
      else basename_from (acc ++ String c EmptyString) s'
  end.

Definition basename (s : string) : string := basename_from EmptyString s.

Definition balance_path : string := "/JSONs/Rex/DT_RexBalanceAttributes.json".
Definition attack_power_path : string :=
  "/JSONs/Rex/Attributes/ATT_Rex_AttackPower.json".
Definition weight_path : string := "/JSONs/Rex/Attributes/ATT_Rex_Weight.json".
Definition speed_path : string :=
  "/JSONs/Rex/Attributes/ATT_Rex_MaxSpeed.json".
Definition broken_path : string := "/JSONs/Rex/Attributes/ATT_Rex_Broken.json".

Definition isdir (path : string) : bool :=
  existsb (String.eqb path) ["/JSONs"; "/JSONs/Rex"; "/JSONs/Rex/Attributes"].

Definition listdir (path : string) : list string :=
  if String.eqb path "/JSONs" then ["Rex"; "readme.txt"] else [].

(** The files: a balance table, a straight attack power, a bent weight,
    a speed with two stages, and a file whose record is a number. *)
Definition files : list (string * file) :=
  [(balance_path, Typed.balance_file bite_table);
   (attack_power_path, attack_power);
   (weight_path, Typed.attribute_file (Typed.shape_A [bent]));
   (speed_path, Typed.attribute_file (Typed.shape_A [bent; straight]));
   (broken_path, Parsed (VList [VInt 7]))].

Definition disk (path : string) : file :=
  match lookup path files with
  | Some f => f
  | None => Missing
  end.

Definition path_exists (path : string) : bool :=
  has_key path files || isdir path.

(** [glob.glob] in a folder without the last file, and in one with it. *)
Definition glob (pattern : string) : list string :=
  if String.eqb pattern "/JSONs/Rex/Attributes/ATT_*.json"
  then [attack_power_path; weight_path; speed_path] else [].


(** The window with the folder of the one dinosaur selected, and the
    same once [update_json_files] has run. *)
Definition rex_selected : Window.ui :=
  Window.with_folder_var
    (Window.with_folder_menu (Window.with_root Window.initial "/JSONs" ["Rex"])
                             ["Rex"])
    "Rex".

Definition rex_listed : Window.ui :=
  fst (Window.update_json_files join basename isdir path_exists glob disk
                                rex_selected).

(** The call of [plot_data] for the weight. *)
Definition weight_call : plot_call :=
  {| arg_time_points_list := [[VInt 0; VFloat f_half; VInt 1]];
     arg_values_list := [[VFloat f_zero; VFloat f_one; VFloat 0x1p+2%float]];
     arg_file_name := "Weight";
     arg_y_label := "Value (kg)" |}.


(** The window with a path typed into the entry. *)
Definition typed_path : Window.ui :=
  {| Window.root_dir := EmptyString; Window.folders := [];
     Window.json_files_paths := []; Window.virtual_files_data := [];
     Window.folder_var := EmptyString; Window.json_file_var := EmptyString;
     Window.override_path_var := true;
     Window.path_entry := " /JSONs ";
     Window.path_entry_enabled := true;
     Window.select_root_text := "Use Manual Path";
     Window.select_root_enabled := true;
     Window.folder_menu := ["No folders found"];
     Window.json_menu := ["No files found"];
     Window.plot_button := Window.plot_button Window.initial |}.

(** The entry that the generator stores for the bite. *)
Definition bite_entry : virtual_entry :=
  {| curves := [{| Time := [VFloat f_half; VInt 1];
                   Values := [VFloat 0x1.4p+3%float; VFloat 0x1.ep+3%float] |}];
     y_label := "Damage";
     title_name := "Bite Attack" |}.

(** A balance table with a row that is not an object. *)
Definition table_with_odd_row : list (string * value) :=
  [("Rows", VDict [("Damage.Bite",
                    VDict [("AttributePercentageValues", VFloat f_half)]);
                   ("Other.X", VInt 3)])].

(** [str(v)] on the numbers of the balance table. *)
Definition str_of (v : value) : string :=
  match v with
  | VFloat f =>
      if PrimFloat.eqb f f_half then "0.5"
      else if PrimFloat.eqb f f_one then "1.0" else "?"
  | _ => "?"
  end.

End ExampleDisk.

(* ===================================================================== *)
(** ** What the properties are stated with *)
(* ===================================================================== *)

Module Invariants.
Import PyExc PyVal Reader Window.
Local Open Scope string_scope.

(** A derived curve with as many time points as values. *)
Definition balanced (s : series) : Prop :=
  List.length (Time s) = List.length (Values s).

(** A derived curve all of whose time points are above zero. *)
Definition after_zero (s : series) : Prop :=
  Forall (fun t => gt_num t (PyNum.Float f_zero) = Ok true) (Time s).

(** An entry as the generator stores it under [name]. *)
Definition entry_ok (name : string) (e : virtual_entry) : Prop :=
  y_label e = "Damage"
  /\ title_name e = name
  /\ List.length (curves e) <= 2
  /\ Forall balanced (curves e)
  /\ Forall after_zero (curves e).

(** A call of [plot_data] that [ax.plot] accepts: curve by curve, as
    many time points as values. *)
Definition call_ok (call : plot_call) : Prop :=
  Forall2 (fun t v : list value => List.length t = List.length v)
          (arg_time_points_list call) (arg_values_list call).

(** [c not in s] *)
Fixpoint no_char (c : ascii) (s : string) : bool :=
  match s with
  | EmptyString => true
  | String c' s' => negb (Ascii.eqb c c') && no_char c s'
  end.

(** No white space in [s]. *)
Fixpoint no_space (s : string) : bool :=
  match s with
  | EmptyString => true
  | String c s' => negb (PyStr.is_space c) && no_space s'
  end.

(** [s] without its white space. *)
Fixpoint without_space (s : string) : string :=
  match s with
  | EmptyString => EmptyString
  | String c s' =>
      if PyStr.is_space c then without_space s'
      else String c (without_space s')
  end.

(** The order of [sorted] on strings. *)
Definition str_le (a b : string) : Prop := String.leb a b = true.

(** The rows that the generator reads. *)
Definition is_damage_row (kv : string * value) : bool :=
  PyStr.startswith "Damage." (fst kv).

(** The percentage of a row of the balance table, when it has one. *)
Definition percentage (row : value) : option value :=
  match row with
  | VDict r =>
      match lookup "AttributePercentageValues" r with
      | Some VNone => None
      | Some v => Some v
      | None => None
      end
  | _ => None
  end.

(** The text of the rows that have a percentage, a line each. *)
Fixpoint table_lines (str_of : value -> string)
         (rows : list (string * value)) : string :=
  match rows with
  | [] => EmptyString
  | (k, row) :: rows' =>
      match percentage row with
      | Some v => k ++ ": " ++ str_of v ++ Table.line_feed
                    ++ table_lines str_of rows'
      | None => table_lines str_of rows'
      end
  end.

(** The exceptions that a computation can end with are among
    [allowed]. *)
Definition raises_only {A : Type} (allowed : list exn) (r : result A)
  : Prop :=
  forall e, r = Raise e -> In e allowed.

(** What the loop over [float_curves[:2]] keeps. *)
Definition locals_ok (name : string) (some : bool) (acc : plot_locals)
  : Prop :=
  let '(tpl, vl, bound) := acc in
  Forall2 (fun t v : list value => List.length t = List.length v) tpl vl
  /\ (some = true -> bound = Some (fst (unit_rule name)) /\ tpl <> []).

(** A call made for curves read from a file. *)
Definition file_call_ok (name : string) (call : plot_call) : Prop :=
  call_ok call
  /\ has_data call = true
  /\ List.length (arg_time_points_list call) <= 2
  /\ arg_file_name call = name
  /\ arg_y_label call = fst (unit_rule name).

(** The menu of the attributes shows what the two dicts hold: it is in
    order and its first label is the one selected; with both dicts
    empty it holds the placeholder and the button is disabled; if not,
    it holds the names of the two dicts, each as often as it occurs
    there, and the button is enabled. *)
Definition menu_shows (st : ui) : Prop :=
  let names :=
    (map fst (json_files_paths st) ++ map fst (virtual_files_data st))%list in
  Sorted str_le (json_menu st)
  /\ hd_error (json_menu st) = Some (json_file_var st)
  /\ (names = [] ->
      json_menu st = ["No files found"]
      /\ button_enabled (plot_button st) = false)
  /\ (names <> [] ->
      Permutation (json_menu st) names
      /\ button_enabled (plot_button st) = true).

(** The folders that the window shows for the root [root]: the
    directories in it, in order, the first of them selected. *)
Definition folders_of (join : list string -> string)
           (isdir : string -> bool) (listdir : string -> list string)
           (root : string) (st : ui) : Prop :=
  root_dir st = root
  /\ Sorted str_le (folders st)
  /\ (forall d, In d (folders st)
                <-> In d (listdir root) /\ isdir (join [root; d]) = true)
  /\ hd_error (folder_menu st) = Some (folder_var st)
  /\ (folders st <> [] -> folder_menu st = folders st).

(** The exceptions that wrongly shaped data can bring about. *)
Definition data_errors : list exn :=
  [KeyError; TypeError; AttributeError; OverflowError].

(** A row that is a JSON object. *)
Definition is_object (v : value) : bool :=
  match v with
  | VDict _ => true
  | _ => false
  end.

End Invariants.

(* ===================================================================== *)
(** ** The classifier in the words of the specification *)
(* ===================================================================== *)

(** Rule 3 of the specification gives a segment the slope [+infinity]
    "when [t1 == t0]"; the code tests the difference of the two times.
    Here is the rule with the test on the times themselves. *)
Module Worded.
Import Reader Typed.

Definition slope (a b : keyframe) : float :=
  if PrimFloat.eqb (time b) (time a) then f_inf
  else PrimFloat.div (PrimFloat.sub (val b) (val a))
                     (PrimFloat.sub (time b) (time a)).

Fixpoint slopes (c : curve) : list float :=
  match c with
  | a :: (b :: _) as rest => slope a b :: slopes rest
  | _ => []
  end.

(** Rules 2 to 5, for a curve of more than two keyframes. *)
Definition is_trivial_long (c : curve) : bool :=
  if is_flat c then true
  else match slopes c with
       | first :: later => all_match first later
       | [] => true
       end.

(** Every time of the curve is a finite number. *)
Definition finite_times (c : curve) : bool :=
  forallb (fun k => PrimFloat.is_finite (time k)) c.

(** Keyframes (0,0), (inf,1), (inf,5): the JSON text [1e999] is read as
    [inf]. *)
Definition infinite_times : curve :=
  [(f_zero, f_zero); (f_inf, f_one); (f_inf, 0x1.4p+2%float)].

End Worded.

(* ===================================================================== *)
(** ** Reading that fails *)
(* ===================================================================== *)

(** [get_json_data] catches [FileNotFoundError] and
    [json.JSONDecodeError].  Any other exception of [open] and
    [json.load] gets out of it, and out of the function that called it:
    a [UnicodeDecodeError], a [PermissionError], the [ValueError] of an
    integer literal of too many digits, a [RecursionError].  The
    functions above say what happens once [get_json_data] has returned;
    here they are with the reading before them. *)
Module Reading.
Import PyExc PyVal Reader.
Local Open Scope string_scope.

(** What the reading of a path ends with: a file as above, or an
    exception [x] that [get_json_data] does not catch. *)
Inductive reading (X : Type) : Type :=
| Gives (f : file)
| Fails (x : X).
Arguments Gives {X} f.
Arguments Fails {X} x.

(** How a function that reads files ends: the way the functions above
    say, or with the exception of a reading. *)
Inductive ending (X A : Type) : Type :=
| Ends (r : result A)
| ReadFails (x : X).
Arguments Ends {X A} r.
Arguments ReadFails {X A} x.

(** A function that starts with [get_json_data(file_path)] and goes on
    with what it returned. *)
Definition reads {X A : Type} (r : reading X) (rest : file -> result A)
  : ending X A :=
  match r with
  | Gives f => Ends (rest f)
  | Fails x => ReadFails x
  end.

(** [get_json_data] *)
Definition get_json_data {X : Type} (r : reading X) : ending X value :=
  reads r (fun f => Ok (Reader.get_json_data f)).

(** [show_balance_table] *)
Definition show_balance_table {X : Type} (str_of : value -> string)
           (r : reading X) : ending X (option string) :=
  reads r (Table.show_balance_table str_of).

(** [generate_virtual_attack_files]: the two files are read, the balance
    file first, before anything is looked at. *)
Definition generate_virtual_attack_files {X : Type}
           (balance attack_power : reading X) (vfd : virtual_files)
  : virtual_files * ending X unit :=
  match balance with
  | Fails x => (vfd, ReadFails x)
  | Gives b =>
      match attack_power with
      | Fails x => (vfd, ReadFails x)
      | Gives a =>
          let '(vfd', r) := Reader.generate_virtual_attack_files b a vfd in
          (vfd', Ends r)
      end
  end.

(** [plot_selected_file]: a file is read when the name is not one of
    [virtual_files_data] and [json_files_paths] has a path for it. *)
Definition plot_selected_file {X : Type} (selected_file_name : string)
           (vfd : virtual_files) (json_files_paths : list (string * string))
           (disk : string -> reading X) : ending X (option plot_call) :=
  match lookup selected_file_name vfd with
  | Some data =>
      Ends (Ok (Some {| arg_time_points_list := map Time (curves data);
                        arg_values_list := map Values (curves data);
                        arg_file_name := title_name data;
                        arg_y_label := y_label data |}))
  | None =>
      match lookup selected_file_name json_files_paths with
      | None => Ends (Ok None)
      | Some full_path =>
          if String.eqb full_path EmptyString then Ends (Ok None)
          else reads (disk full_path) (plot_file selected_file_name)
      end
  end.

(** The percentage of a qualifying row is a [float]. *)
Definition float_valued (kv : string * value) : bool :=
  match snd kv with
  | VFloat _ => true
  | _ => false
  end.

(** The balance file, if it was read and the rows could be gone
    through, gives every qualifying key a [float]: then no product of
    line 400 repeats a sequence. *)
Definition float_percentages {X : Type} (balance : reading X) : Prop :=
  forall (b : file) (attrs : list (string * value)),
    balance = Gives b ->
    damage_attributes (Reader.get_json_data b) = Ok attrs ->
    forallb float_valued attrs = true.

End Reading.

(* ===================================================================== *)
(** ** More examples *)
(* ===================================================================== *)

Module MoreExamples.
Import PyVal Reader Typed Examples Reading.
Local Open Scope string_scope.

(** [{"FloatCurves": [], "Properties": {"FloatCurve": ...}}] with the
    bent curve, as an AttackPower file. *)
Definition empty_curves_and_bent : value :=
  VDict [("FloatCurves", VList []);
         ("Properties", VDict [("FloatCurve", bent)])].

(** A file that cannot be decoded, the exception named by a string. *)
Definition undecodable : reading string := Fails "UnicodeDecodeError".

(** A folder in which the one file cannot be decoded. *)
Definition undecodable_disk (path : string) : reading string := undecodable.

End MoreExamples.

(* ===================================================================== *)
(** ** Facts about binary64 numbers *)
(* ===================================================================== *)

Section FloatFacts.

Lemma Prim2SF_f_zero : Prim2SF Reader.f_zero = S754_zero false.
Proof. reflexivity. Qed.

Lemma Prim2SF_f_one :
  Prim2SF Reader.f_one = S754_finite false 4503599627370496 (-52).
Proof. reflexivity. Qed.

(** No finite double other than zero compares equal to the integer 0. *)
Lemma cmp_zero_finite (s : bool) (m : positive) (e : Z) :
  (if (0 <=? e)%Z
   then (0 ?= (if s then Zneg m else Zpos m) * 2 ^ e)%Z
   else (0 * 2 ^ (- e) ?= (if s then Zneg m else Zpos m))%Z) <> Eq.
Proof.
  destruct (0 <=? e)%Z eqn:He.
  - apply Z.leb_le in He.
    assert (0 < 2 ^ e)%Z by (apply Z.pow_pos_nonneg; lia).
    rewrite Z.compare_eq_iff. destruct s; nia.
  - rewrite Z.compare_eq_iff. destruct s; lia.
Qed.

(** [d == 0] and [d == 0.0] are the same test on a float. *)
Lemma float_eqb_int_zero (d : float) :
  PyNum.eqb (PyNum.Float d) (PyNum.Int 0) = PrimFloat.eqb d Reader.f_zero.
Proof.
  rewrite eqb_spec, Prim2SF_f_zero.
  unfold PyNum.eqb, PyNum.cmp_int_float, SFeqb.
  destruct (Prim2SF d) as [s | s | | s m e]; try reflexivity.
  - destruct s; reflexivity.
  - pose proof (cmp_zero_finite s m e) as H.
    cbv zeta.
    destruct (if (0 <=? e)%Z then _ else _);
      try contradiction; destruct s; reflexivity.
Qed.

(** A time that is at most zero is not above zero. *)
Lemma leb_zero_not_gt (t : float) :
  PrimFloat.leb t Reader.f_zero = true -> PrimFloat.ltb Reader.f_zero t = false.
Proof.
  rewrite leb_spec, ltb_spec, Prim2SF_f_zero. unfold SFleb, SFltb.
  destruct (Prim2SF t) as [s | s | | s m e]; simpl;
    try reflexivity; destruct s; simpl; congruence.
Qed.

(** Apart from NaN, a time is above zero exactly when it is not at most
    zero. *)
Lemma gt_zero_not_leb (t : float) :
  PrimFloat.is_nan t = false ->
  PrimFloat.ltb Reader.f_zero t = negb (PrimFloat.leb t Reader.f_zero).
Proof.
  unfold PrimFloat.is_nan.
  rewrite leb_spec, ltb_spec, eqb_spec, Prim2SF_f_zero.
  unfold SFleb, SFltb, SFeqb.
  destruct (Prim2SF t) as [s | s | | s m e]; simpl;
    try reflexivity; try discriminate; destruct s; simpl; congruence.
Qed.

Lemma mul_pow52 (m : positive) :
  (m * 4503599627370496)%positive = Pos.iter xO m 52.
Proof. rewrite Pos.mul_comm. reflexivity. Qed.

Lemma digits2_iter_xO (n : nat) (m : positive) :
  Zpos (digits2_pos (Nat.iter n xO m)) = (Zpos (digits2_pos m) + Z.of_nat n)%Z.
Proof.
  induction n as [| n IH]; simpl Nat.iter; [lia |].
  cbn [digits2_pos]. rewrite Pos2Z.inj_succ, IH. lia.
Qed.

Lemma shr_iter_xO (n : nat) (m : positive) :
  Nat.iter n shr_1 (Build_shr_record (Zpos (Nat.iter n xO m)) false false)
  = Build_shr_record (Zpos m) false false.
Proof.
  induction n as [| n IH]; [reflexivity |].
  rewrite Nat.iter_succ_r. cbn [Nat.iter]. exact IH.
Qed.

(** Multiplying a double by [1.0] gives the same double back: the product
    of the mantissa by [2^52] is cut back by 52 bits, none of them set. *)
Lemma mul_one_r (x : float) : PrimFloat.mul x Reader.f_one = x.
Proof.
  apply Prim2SF_inj. rewrite mul_spec, Prim2SF_f_one.
  pose proof (Prim2SF_valid x) as V.
  destruct (Prim2SF x) as [s | s | | s m e];
    try (destruct s; reflexivity); [reflexivity |].
  unfold SF64mul, SFmul. rewrite mul_pow52, xorb_false_r.
  simpl in V. unfold bounded, canonical_mantissa in V.
  apply andb_prop in V as [Hc Hb]. apply Z.eqb_eq in Hc.
  assert (Hd : Zdigits2 (Z.pos (Pos.iter xO m 52))
               = (Z.pos (digits2_pos m) + 52)%Z).
  { change (Pos.iter xO m 52) with (Nat.iter 52 xO m).
    unfold Zdigits2. rewrite digits2_iter_xO. reflexivity. }
  unfold binary_round_aux, shr_fexp. rewrite Hd.
  replace (Z.pos (digits2_pos m) + 52 + (e + -52))%Z
    with (Z.pos (digits2_pos m) + e)%Z by lia.
  rewrite Hc. replace (e - (e + -52))%Z with 52%Z by lia.
  unfold shr at 1.
  change (iter_pos shr_1 52
            (shr_record_of_loc (Z.pos (Pos.iter xO m 52)) loc_Exact))
    with (Nat.iter 52 shr_1
            (Build_shr_record (Z.pos (Nat.iter 52 xO m)) false false)).
  rewrite shr_iter_xO.
  replace (e + -52 + 52)%Z with e by lia.
  cbn [shr_m loc_of_shr_record round_nearest_even Zdigits2].
  rewrite Hc, Z.sub_diag. cbn [shr shr_record_of_loc shr_m].
  rewrite Hb. reflexivity.
Qed.

End FloatFacts.

Section FloatOrder.

Lemma SFcompare_antisym (x y : spec_float) :
  SFcompare y x = option_map CompOpp (SFcompare x y).
Proof.
  destruct x as [sx | sx | | sx mx ex], y as [sy | sy | | sy my ey];
    try reflexivity;
    try (destruct sx; reflexivity); try (destruct sy; reflexivity);
    try (destruct sx, sy; reflexivity).
  destruct sx, sy; try reflexivity; cbn [SFcompare option_map];
    rewrite (Z.compare_antisym ex ey);
    destruct (ex ?= ey)%Z; cbn [CompOpp]; try reflexivity;
    rewrite (Pos.compare_cont_antisym mx my Eq); reflexivity.
Qed.

(** [a <= b] rules out [b < a]. *)
Lemma leb_not_ltb (a b : float) :
  PrimFloat.leb a b = true -> PrimFloat.ltb b a = false.
Proof.
  rewrite leb_spec, ltb_spec. unfold SFleb, SFltb.
  rewrite (SFcompare_antisym (Prim2SF a) (Prim2SF b)).
  destruct (SFcompare (Prim2SF a) (Prim2SF b)) as [[| |] |];
    cbn [option_map CompOpp]; congruence.
Qed.

End FloatOrder.

(* ===================================================================== *)
(** ** A zero difference between finite doubles *)
(* ===================================================================== *)

Section ZeroDifference.
Local Open Scope Z_scope.

Lemma digits2_log2 (m : positive) :
  Zpos (digits2_pos m) = Z.log2 (Zpos m) + 1.
Proof.
  assert (H : forall p, digits2_pos p = Pos.size p)
    by (induction p as [p IH | p IH |]; cbn; congruence).
  rewrite H. destruct m as [p | p |]; cbn [Z.log2 Pos.size]; lia.
Qed.

Lemma digits2_lower (m : positive) : 2 ^ (Zpos (digits2_pos m) - 1) <= Zpos m.
Proof.
  rewrite digits2_log2. replace (Z.log2 (Zpos m) + 1 - 1) with (Z.log2 (Zpos m)) by lia.
  apply Z.log2_spec. lia.
Qed.

Lemma iter_xO_value (d m : positive) :
  Zpos (Pos.iter xO m d) = Zpos m * 2 ^ Zpos d.
Proof.
  induction d as [| d IH] using Pos.peano_ind.
  - cbn [Pos.iter]. rewrite (Pos2Z.inj_xO m). lia.
  - rewrite Pos.iter_succ, Pos2Z.inj_succ, Z.pow_succ_r by lia.
    rewrite (Pos2Z.inj_xO (Pos.iter xO m d)), IH. lia.
Qed.

(** The aligned mantissa: [m * 2^(e - e')] when [e' <= e]. *)
Lemma shl_align_value (m : positive) (e e' : Z) :
  e' <= e ->
  Zpos (fst (shl_align m e e')) = Zpos m * 2 ^ (e - e')
  /\ snd (shl_align m e e') = e'.
Proof.
  intros H. unfold shl_align.
  destruct (e' - e) as [| p | p] eqn:E; cbn [fst snd].
  - replace (e - e') with 0 by lia. split; lia.
  - lia.
  - rewrite iter_xO_value. replace (e - e') with (Zpos p) by lia. split; lia.
Qed.

Lemma shr_1_half (r : shr_record) :
  0 <= shr_m r -> shr_m (shr_1 r) = shr_m r / 2.
Proof.
  destruct r as [m rb sb]. cbn [shr_m]. intros H.
  destruct m as [| [p | p |] | p]; cbn [shr_1 shr_m]; try lia.
  - reflexivity.
  - rewrite Pos2Z.inj_xI. apply Z.div_unique with (r := 1); lia.
  - rewrite (Pos2Z.inj_xO p). apply Z.div_unique with (r := 0); lia.
  - reflexivity.
Qed.

Lemma shr_iter_div (p : positive) :
  forall r : shr_record,
    0 <= shr_m r ->
    shr_m (iter_pos shr_1 p r) = shr_m r / 2 ^ Zpos p.
Proof.
  assert (Hpos : forall q, 0 < 2 ^ Zpos q)
    by (intros; apply Z.pow_pos_nonneg; lia).
  induction p as [p IH | p IH |]; intros r Hr; cbn [iter_pos].
  - assert (HI : 2 ^ Zpos p~1 = 2 * 2 ^ Zpos p * 2 ^ Zpos p).
    { rewrite Pos2Z.inj_xI.
      replace (2 * Zpos p + 1) with (1 + Zpos p + Zpos p) by lia.
      rewrite !Z.pow_add_r by lia. reflexivity. }
    assert (H1 : 0 <= shr_m (shr_1 r))
      by (rewrite shr_1_half by exact Hr; apply Z.div_pos; lia).
    assert (H2 : 0 <= shr_m (iter_pos shr_1 p (shr_1 r)))
      by (rewrite IH by exact H1; apply Z.div_pos; [exact H1 | apply Hpos]).
    rewrite IH by exact H2. rewrite IH by exact H1.
    rewrite shr_1_half by exact Hr. rewrite HI.
    pose proof (Hpos p).
    rewrite !Z.div_div by lia. f_equal. lia.
  - assert (HO : 2 ^ Zpos p~0 = 2 ^ Zpos p * 2 ^ Zpos p).
    { rewrite (Pos2Z.inj_xO p), <- Z.add_diag.
      rewrite Z.pow_add_r by lia. reflexivity. }
    assert (H2 : 0 <= shr_m (iter_pos shr_1 p r))
      by (rewrite IH by exact Hr; apply Z.div_pos; [exact Hr | apply Hpos]).
    rewrite IH by exact H2. rewrite IH by exact Hr. rewrite HO.
    pose proof (Hpos p).
    rewrite !Z.div_div by lia. f_equal.
  - rewrite shr_1_half by exact Hr. reflexivity.
Qed.

Lemma shr_m_of_loc (m : Z) (l : location) : shr_m (shr_record_of_loc m l) = m.
Proof. destruct l as [| []]; reflexivity. Qed.

(** Cutting a positive mantissa to the format, from an exponent that is
    not below [emin], leaves a positive mantissa. *)
Lemma shr_fexp_positive (m : positive) (e : Z) (l : location) :
  emin <= e ->
  0 < shr_m (fst (shr_fexp prec emax (Zpos m) e l))
  /\ emin <= snd (shr_fexp prec emax (Zpos m) e l).
Proof.
  intros He. unfold shr_fexp, shr. cbn [Zdigits2].
  destruct (fexp prec emax (Zpos (digits2_pos m) + e) - e) as [| p | p] eqn:E;
    cbn [fst snd]; rewrite ?shr_m_of_loc; try (split; lia).
  rewrite shr_iter_div by (rewrite shr_m_of_loc; lia).
  rewrite shr_m_of_loc.
  unfold fexp, SpecFloat.emin, prec, emax in *.
  pose proof (digits2_lower m) as Hd.
  split; [| lia].
  apply Z.div_str_pos. split; [apply Z.pow_pos_nonneg; lia |].
  apply Z.le_trans with (2 ^ (Zpos (digits2_pos m) - 1)); [| exact Hd].
  apply Z.pow_le_mono_r; lia.
Qed.


Lemma round_nearest_even_positive (m : Z) (l : location) :
  0 < m -> 0 < round_nearest_even m l.
Proof.
  intros H. destruct l as [| []]; cbn [round_nearest_even]; try lia.
  destruct (Z.even m); lia.
Qed.

(** Rounding a positive mantissa from an exponent that is not below [emin]
    never gives a zero. *)
Lemma binary_round_aux_not_zero (s : bool) (m : positive) (e : Z)
      (l : location) :
  emin <= e ->
  SFeqb (binary_round_aux prec emax s (Zpos m) e l) (S754_zero false) = false.
Proof.
  intros He. unfold binary_round_aux.
  destruct (shr_fexp_positive m l He) as [H1 H1e].
  destruct (shr_fexp prec emax (Zpos m) e l) as [mrs' e'].
  cbn [fst snd] in H1, H1e.
  pose proof (round_nearest_even_positive (loc_of_shr_record mrs') H1) as H2.
  destruct (round_nearest_even (shr_m mrs') (loc_of_shr_record mrs'))
    as [| m2 | m2]; try lia.
  destruct (shr_fexp_positive m2 loc_Exact H1e) as [H3 _].
  destruct (shr_fexp prec emax (Zpos m2) e' loc_Exact) as [mrs'' e''].
  cbn [fst] in H3.
  destruct (shr_m mrs'') as [| m3 | m3]; try lia.
  destruct (e'' <=? emax - prec); destruct s; reflexivity.
Qed.

Lemma fexp_ge_emin (e : Z) : emin <= fexp prec emax e.
Proof. unfold fexp. lia. Qed.

Lemma shl_align_exponent (m : positive) (e e' : Z) :
  snd (shl_align m e e') = e \/ snd (shl_align m e e') = e'.
Proof. unfold shl_align. destruct (e' - e); cbn [snd]; auto. Qed.

Lemma binary_round_not_zero (s : bool) (m : positive) (e : Z) :
  emin <= e ->
  SFeqb (binary_round prec emax s m e) (S754_zero false) = false.
Proof.
  intros He. unfold binary_round.
  pose proof (shl_align_exponent m e
                (fexp prec emax (Zpos (digits2_pos m) + e))) as Hs.
  destruct (shl_align m e (fexp prec emax (Zpos (digits2_pos m) + e)))
    as [mz ez].
  apply binary_round_aux_not_zero. cbn [snd] in Hs.
  destruct Hs as [-> | ->]; [exact He | apply fexp_ge_emin].
Qed.

(** A valid finite number has its exponent at [emin] or above, and the
    exponent is determined by the number of digits. *)
Lemma bounded_canonical (m : positive) (e : Z) :
  bounded prec emax m e = true ->
  fexp prec emax (Zpos (digits2_pos m) + e) = e /\ emin <= e.
Proof.
  unfold bounded, canonical_mantissa. intros H.
  apply andb_prop in H as [H _]. apply Z.eqb_eq in H.
  split; [exact H |]. rewrite <- H. apply fexp_ge_emin.
Qed.

(** Two valid mantissas that denote the same number are the same. *)
Lemma canonical_unique (m1 m2 : positive) (e1 e2 : Z) :
  bounded prec emax m1 e1 = true -> bounded prec emax m2 e2 = true ->
  e1 <= e2 -> Zpos m1 = Zpos m2 * 2 ^ (e2 - e1) ->
  e1 = e2 /\ m1 = m2.
Proof.
  intros B1 B2 Hle Hm.
  destruct (@bounded_canonical m1 e1 B1) as [C1 _].
  destruct (@bounded_canonical m2 e2 B2) as [C2 _].
  assert (Hd : Zpos (digits2_pos m1) = Zpos (digits2_pos m2) + (e2 - e1)).
  { rewrite !digits2_log2, Hm, Z.log2_mul_pow2 by lia. lia. }
  assert (He : e1 = e2) by (rewrite <- C1, <- C2; f_equal; lia).
  split; [exact He |]. subst e2. rewrite Z.sub_diag in Hm.
  change (2 ^ 0) with 1 in Hm. lia.
Qed.


(** Equality of two finite numbers, read off their fields. *)
Lemma SFeqb_finite (sx sy : bool) (mx my : positive) (ex ey : Z) :
  SFeqb (S754_finite sx mx ex) (S754_finite sy my ey) = true
  <-> sx = sy /\ ex = ey /\ mx = my.
Proof.
  unfold SFeqb, SFcompare. split.
  - destruct sx, sy; try discriminate;
      destruct (ex ?= ey) eqn:E; try discriminate;
      apply Z.compare_eq in E;
      destruct (Pos.compare_cont Eq mx my) eqn:C; try discriminate;
      apply Pos.compare_eq in C; auto.
  - intros (-> & -> & ->). rewrite Z.compare_refl.
    change (Pos.compare_cont Eq my my) with (my ?= my)%positive.
    rewrite Pos.compare_refl. destruct sy; reflexivity.
Qed.

(** The difference of two valid finite numbers is zero exactly when they
    are equal. *)
Lemma SFsub_finite_zero (sx sy : bool) (mx my : positive) (ex ey : Z) :
  bounded prec emax mx ex = true -> bounded prec emax my ey = true ->
  SFeqb (SF64sub (S754_finite sx mx ex) (S754_finite sy my ey))
        (S754_zero false)
  = SFeqb (S754_finite sx mx ex) (S754_finite sy my ey).
Proof.
  intros Bx By.
  destruct (@bounded_canonical mx ex Bx) as [_ Hex].
  destruct (@bounded_canonical my ey By) as [_ Hey].
  unfold SF64sub, SFsub.
  destruct (shl_align_value mx (Z.le_min_l ex ey)) as [Vx _].
  destruct (shl_align_value my (Z.le_min_r ex ey)) as [Vy _].
  set (X := Zpos (fst (shl_align mx ex (Z.min ex ey)))) in *.
  set (Y := Zpos (fst (shl_align my ey (Z.min ex ey)))) in *.
  assert (HX : 0 < X) by (subst X; lia).
  assert (HY : 0 < Y) by (subst Y; lia).
  destruct (SFeqb (S754_finite sx mx ex) (S754_finite sy my ey)) eqn:E.
  - apply SFeqb_finite in E as (-> & -> & ->).
    assert (X = Y) by congruence.
    replace (cond_Zopp sy X - cond_Zopp sy Y) with 0
      by (destruct sy; cbn [cond_Zopp]; lia).
    reflexivity.
  - assert (D : cond_Zopp sx X - cond_Zopp sy Y <> 0).
    { intros D. enough (SFeqb (S754_finite sx mx ex) (S754_finite sy my ey)
                        = true) by congruence.
      apply SFeqb_finite.
      assert (Hs : sx = sy)
        by (destruct sx, sy; cbn [cond_Zopp] in D; try reflexivity; lia).
      subst sy. assert (HXY : X = Y) by (destruct sx; cbn [cond_Zopp] in D; lia).
      rewrite Vx, Vy in HXY.
      destruct (Z.le_ge_cases ex ey) as [Hle | Hle].
      - rewrite Z.min_l in HXY by exact Hle. rewrite Z.sub_diag in HXY.
        change (2 ^ 0) with 1 in HXY. rewrite Z.mul_1_r in HXY.
        destruct (@canonical_unique mx my ex ey Bx By Hle HXY) as [-> ->]. auto.
      - rewrite Z.min_r in HXY by exact Hle. rewrite Z.sub_diag in HXY.
        change (2 ^ 0) with 1 in HXY. rewrite Z.mul_1_r in HXY.
        symmetry in HXY.
        destruct (@canonical_unique my mx ey ex By Bx Hle HXY) as [-> ->]. auto. }
    unfold binary_normalize.
    destruct (cond_Zopp sx X - cond_Zopp sy Y) as [| d | d];
      [contradiction | |]; apply binary_round_not_zero; lia.
Qed.

(** A finite double is a zero or has a mantissa and an exponent. *)
Lemma is_finite_SF (a : float) :
  PrimFloat.is_finite a = true ->
  match Prim2SF a with
  | S754_zero _ | S754_finite _ _ _ => True
  | _ => False
  end.
Proof.
  unfold PrimFloat.is_finite, PrimFloat.is_nan, PrimFloat.is_infinity.
  rewrite !eqb_spec, !abs_spec.
  change (Prim2SF infinity) with (S754_infinity false).
  destruct (Prim2SF a) as [s | s | | s m e]; try exact (fun _ => I);
    try destruct s; cbn; discriminate.
Qed.

(** For two doubles that are finite, the difference is zero exactly when
    they are equal. *)
Lemma sub_eqb_zero (a b : float) :
  PrimFloat.is_finite a = true -> PrimFloat.is_finite b = true ->
  PrimFloat.eqb (PrimFloat.sub a b) PrimFloat.zero = PrimFloat.eqb a b.
Proof.
  intros Fa Fb. apply is_finite_SF in Fa. apply is_finite_SF in Fb.
  rewrite !eqb_spec, sub_spec.
  change (Prim2SF PrimFloat.zero) with (S754_zero false).
  pose proof (Prim2SF_valid a) as Va. pose proof (Prim2SF_valid b) as Vb.
  destruct (Prim2SF a) as [sa | sa | | sa ma ea]; try contradiction;
    destruct (Prim2SF b) as [sb | sb | | sb mb eb]; try contradiction.
  - destruct sa, sb; reflexivity.
  - destruct sa, sb; reflexivity.
  - destruct sa, sb; reflexivity.
  - apply SFsub_finite_zero; assumption.
Qed.

End ZeroDifference.

(* ===================================================================== *)
(** ** The operators on floats and on lists *)
(* ===================================================================== *)

Section Operators.
Import PyExc PyVal.

Lemma eq_floats (a b : float) : eq (VFloat a) (VFloat b) = PrimFloat.eqb a b.
Proof. reflexivity. Qed.

Lemma eq_float_int_zero (d : float) :
  eq (VFloat d) (VInt 0) = PrimFloat.eqb d Reader.f_zero.
Proof. exact (float_eqb_int_zero d). Qed.

Lemma sub_floats (a b : float) :
  sub (VFloat a) (VFloat b) = Ok (VFloat (PrimFloat.sub a b)).
Proof. reflexivity. Qed.

Lemma mul_floats (a b : float) :
  mul (VFloat a) (VFloat b) = Ok (VFloat (PrimFloat.mul a b)).
Proof. reflexivity. Qed.

(** A division of floats raises nothing once the divisor is not zero. *)
Lemma truediv_floats (a b : float) :
  PrimFloat.eqb b Reader.f_zero = false ->
  truediv (VFloat a) (VFloat b) = Ok (VFloat (PrimFloat.div a b)).
Proof.
  intros H. unfold truediv, lift2. cbn [as_num PyNum.truediv PyNum.to_float bind].
  change PrimFloat.zero with Reader.f_zero. rewrite H. reflexivity.
Qed.

Lemma gt_num_floats (a c : float) :
  gt_num (VFloat a) (PyNum.Float c) = Ok (PrimFloat.ltb c a).
Proof. reflexivity. Qed.

Lemma lt_num_floats (a c : float) :
  lt_num (VFloat a) (PyNum.Float c) = Ok (PrimFloat.ltb a c).
Proof. reflexivity. Qed.

(** [l[i]] at the position that follows a prefix. *)
Lemma list_getitem_app {A : Type} (pre : list A) (a : A) (rest : list A) :
  list_getitem (pre ++ a :: rest) (Z.of_nat (List.length pre)) = Ok a.
Proof.
  unfold list_getitem. rewrite length_app. cbn [List.length]. cbv zeta.
  assert (H0 : (Z.of_nat (List.length pre) <? 0)%Z = false)
    by (apply Z.ltb_ge; lia).
  rewrite !H0.
  rewrite (proj2 (Z.leb_gt _ _)) by lia. cbn [orb].
  rewrite Nat2Z.id, nth_error_app2 by lia.
  rewrite Nat.sub_diag. reflexivity.
Qed.

(** [l[-1]] is the last item. *)
Lemma list_getitem_last {A : Type} (pre : list A) (a : A) :
  list_getitem (pre ++ [a]) (-1) = Ok a.
Proof.
  unfold list_getitem. rewrite length_app. cbn [List.length]. cbv zeta.
  change (-1 <? 0)%Z with true. cbv iota.
  rewrite (proj2 (Z.ltb_ge _ _)) by lia.
  rewrite (proj2 (Z.leb_gt _ _)) by lia. cbn [orb].
  replace (Z.to_nat (-1 + Z.of_nat (List.length pre + 1)))
    with (List.length pre) by lia.
  rewrite nth_error_app2 by lia. rewrite Nat.sub_diag. reflexivity.
Qed.

(** Nothing can be taken from an empty list. *)
Lemma list_getitem_nil {A : Type} (i : Z) :
  list_getitem (@nil A) i = Raise IndexError.
Proof.
  unfold list_getitem. cbn [List.length Z.of_nat].
  destruct (i <? 0)%Z eqn:E.
  - rewrite Z.add_0_r, E. reflexivity.
  - destruct (0 <=? i)%Z eqn:E2; [rewrite orb_true_r; reflexivity |].
    apply Z.ltb_ge in E. apply Z.leb_gt in E2. lia.
Qed.

Lemma list_getitem_0 {A : Type} (x : A) (l : list A) :
  list_getitem (x :: l) 0 = Ok x.
Proof. exact (list_getitem_app [] x l). Qed.

Lemma list_getitem_1 {A : Type} (x y : A) (l : list A) :
  list_getitem (x :: y :: l) 1 = Ok y.
Proof. exact (list_getitem_app [x] y l). Qed.

Lemma comprehension_app {X Y : Type} (f : X -> result Y) (xs ys : list X)
      (us vs : list Y) :
  comprehension f xs = Ok us -> comprehension f ys = Ok vs ->
  comprehension f (xs ++ ys) = Ok (us ++ vs).
Proof.
  revert us. induction xs as [| x xs IH]; intros us Hx Hy.
  - inversion Hx. exact Hy.
  - cbn [comprehension app] in *. destruct (f x) as [y |]; [| discriminate].
    cbn [bind] in *. destruct (comprehension f xs) as [ws |]; [| discriminate].
    cbn [bind] in *. inversion Hx. rewrite (IH ws eq_refl Hy). reflexivity.
Qed.

(** A comprehension whose function never raises is a [map]. *)
Lemma comprehension_map {X Y : Type} (f : X -> result Y) (g : X -> Y)
      (xs : list X) :
  (forall x, In x xs -> f x = Ok (g x)) ->
  comprehension f xs = Ok (map g xs).
Proof.
  induction xs as [| x xs IH]; intros H; [reflexivity |].
  cbn [comprehension map]. rewrite (H x (or_introl eq_refl)). cbn [bind].
  rewrite IH by (intros y Hy; apply H; right; exact Hy). reflexivity.
Qed.

End Operators.

(* ===================================================================== *)
(** ** The classifier on well-shaped curves *)
(* ===================================================================== *)

Section Classifier.
Import PyExc PyVal Reader Typed.
Local Open Scope string_scope.

Lemma keyframe_time (v : value) (k : keyframe) :
  is_keyframe v k -> getitem_key v "Time" = Ok (VFloat (time k)).
Proof. intros (d & -> & Ht & _). cbn [getitem_key]. rewrite Ht. reflexivity. Qed.

Lemma keyframe_val (v : value) (k : keyframe) :
  is_keyframe v k -> getitem_key v "Value" = Ok (VFloat (val k)).
Proof. intros (d & -> & _ & Hv). cbn [getitem_key]. rewrite Hv. reflexivity. Qed.

Lemma keyframes_times (kvs : list value) (c : curve) :
  Forall2 is_keyframe kvs c ->
  comprehension (fun key => getitem_key key "Time") kvs = Ok (time_values c).
Proof.
  induction 1 as [| v k kvs c Hk _ IH]; [reflexivity |].
  cbn [comprehension]. rewrite (keyframe_time Hk), IH. reflexivity.
Qed.

Lemma keyframes_vals (kvs : list value) (c : curve) :
  Forall2 is_keyframe kvs c ->
  comprehension (fun key => getitem_key key "Value") kvs = Ok (val_values c).
Proof.
  induction 1 as [| v k kvs c Hk _ IH]; [reflexivity |].
  cbn [comprehension]. rewrite (keyframe_val Hk), IH. reflexivity.
Qed.

(** The slope that the loop computes at the index after [pre ++ [a]] is the
    slope of the segment from [a] to [b]. *)
Lemma current_slope_spec (pre : curve) (a b : keyframe) (rest : curve) :
  let c := (pre ++ a :: b :: rest)%list in
  current_slope (time_values c) (val_values c)
                (Z.of_nat (List.length pre + 1))
  = Ok (VFloat (slope a b)).
Proof.
  intros c. unfold current_slope.
  assert (Hi : forall f : keyframe -> value,
             list_getitem (map f c) (Z.of_nat (List.length pre + 1)) = Ok (f b)).
  { intros f. subst c.
    replace (pre ++ a :: b :: rest)%list with ((pre ++ [a]) ++ b :: rest)%list
      by (rewrite <- app_assoc; reflexivity).
    rewrite map_app. cbn [map].
    replace (List.length pre + 1)%nat
      with (List.length (map f (pre ++ [a])))
      by (rewrite length_map, length_app; reflexivity).
    apply list_getitem_app. }
  assert (Hp : forall f : keyframe -> value,
             list_getitem (map f c) (Z.of_nat (List.length pre + 1) - 1)
             = Ok (f a)).
  { intros f. subst c. rewrite map_app. cbn [map].
    replace (Z.of_nat (List.length pre + 1) - 1)%Z
      with (Z.of_nat (List.length (map f pre)))
      by (rewrite length_map; lia).
    apply list_getitem_app. }
  unfold time_values, val_values. rewrite !Hi, !Hp. cbn [bind].
  rewrite sub_floats. cbn [bind]. rewrite eq_float_int_zero.
  unfold slope.
  destruct (PrimFloat.eqb (PrimFloat.sub (time b) (time a)) f_zero) eqn:Hz;
    [reflexivity |].
  rewrite sub_floats. cbn [bind]. apply truediv_floats. exact Hz.
Qed.

(** The loop over the indices that follow [pre ++ [a]] answers like
    [all_match] on the slopes from [a] on. *)
Lemma slope_loop_spec (first : float) (rest : curve) :
  forall (pre : curve) (a : keyframe),
    let c := (pre ++ a :: rest)%list in
    slope_loop (time_values c) (val_values c) (VFloat first)
               (map Z.of_nat (seq (List.length pre + 1) (List.length rest)))
    = Ok (all_match first (slopes (a :: rest))).
Proof.
  induction rest as [| b rest IH]; intros pre a c; [reflexivity |].
  cbn [List.length seq map slope_loop]. subst c.
  rewrite current_slope_spec. cbn [bind].
  rewrite sub_floats. cbn [bind abs as_num of_num PyNum.abs].
  rewrite gt_num_floats. cbn [bind slopes all_match]. unfold differs.
  destruct (PrimFloat.ltb tolerance _); [reflexivity |].
  specialize (IH (pre ++ [a])%list b). cbv zeta in IH.
  rewrite <- app_assoc in IH. cbn [app] in IH.
  rewrite length_app in IH. cbn [List.length] in IH.
  replace (S (List.length pre + 1)) with (List.length pre + 1 + 1)%nat by lia.
  exact IH.
Qed.

Lemma flat_check (c : curve) (k0 : keyframe) :
  forallb (fun v => eq v (VFloat (val k0))) (val_values c)
  = forallb (fun k => PrimFloat.eqb (val k) (val k0)) c.
Proof.
  induction c as [| k c IH]; [reflexivity |].
  cbn [val_values map forallb]. rewrite eq_floats. f_equal. exact IH.
Qed.

(** Lines 187 to 215 on a curve of more than two well-shaped keyframes:
    no exception, and the answer of the rules. *)
Lemma classify_keys_long (kvs : list value) (c : curve) :
  Forall2 is_keyframe kvs c -> 2 < List.length c ->
  classify_keys (VList kvs) = Ok (is_trivial_long c).
Proof.
  intros Hk Hlen. pose proof (Forall2_length Hk) as Hl.
  unfold classify_keys. cbn [len bind iter].
  rewrite (proj2 (Z.leb_gt _ _)) by lia.
  rewrite (keyframes_times Hk), (keyframes_vals Hk). cbn [bind].
  destruct c as [| k0 [| k1 [| k2 rest]]]; cbn [List.length] in Hlen; try lia.
  assert (Hv0 : list_getitem (val_values (k0 :: k1 :: k2 :: rest)) 0
                = Ok (VFloat (val k0))) by apply list_getitem_0.
  assert (Hv1 : list_getitem (val_values (k0 :: k1 :: k2 :: rest)) 1
                = Ok (VFloat (val k1))) by apply list_getitem_1.
  assert (Ht0 : list_getitem (time_values (k0 :: k1 :: k2 :: rest)) 0
                = Ok (VFloat (time k0))) by apply list_getitem_0.
  assert (Ht1 : list_getitem (time_values (k0 :: k1 :: k2 :: rest)) 1
                = Ok (VFloat (time k1))) by apply list_getitem_1.
  rewrite Hv0. cbn [bind]. rewrite flat_check. unfold is_trivial_long.
  change (is_flat (k0 :: k1 :: k2 :: rest))
    with (forallb (fun k => PrimFloat.eqb (val k) (val k0))
                  (k0 :: k1 :: k2 :: rest)).
  destruct (forallb _ _); [reflexivity |].
  rewrite Ht1, Ht0, Hv1. cbn [bind]. rewrite !sub_floats. cbn [bind].
  unfold ne. rewrite eq_float_int_zero.
  assert (Hfirst :
            (if negb (PrimFloat.eqb (PrimFloat.sub (time k1) (time k0)) f_zero)
             then truediv (VFloat (PrimFloat.sub (val k1) (val k0)))
                          (VFloat (PrimFloat.sub (time k1) (time k0)))
             else Ok (VFloat f_inf))
            = Ok (VFloat (slope k0 k1))).
  { unfold slope.
    destruct (PrimFloat.eqb (PrimFloat.sub (time k1) (time k0)) f_zero) eqn:Hz;
      [reflexivity |].
    cbn [negb]. apply truediv_floats. exact Hz. }
  rewrite Hfirst. cbn [bind].
  pose proof (slope_loop_spec (slope k0 k1) (k2 :: rest) [k0] k1) as Hloop.
  cbv zeta in Hloop. cbn [app List.length Nat.add] in Hloop.
  unfold range_from_2. rewrite Hl. cbn [List.length].
  replace (Z.to_nat (Z.of_nat (S (S (S (List.length rest))))) - 2)%nat
    with (S (List.length rest)) by lia.
  exact Hloop.
Qed.

(** Lines 187 to 189: two keys or fewer, whatever they are. *)
Lemma classify_keys_short (kvs : list value) :
  List.length kvs <= 2 -> classify_keys (VList kvs) = Ok true.
Proof.
  intros H. unfold classify_keys. cbn [len bind].
  rewrite (proj2 (Z.leb_le _ _)) by lia. reflexivity.
Qed.

(** An item can only be taken from a value that is true. *)
Lemma getitem_int_truthy (v x : value) (i : Z) :
  getitem_int v i = Ok x -> truthy v = true.
Proof.
  destruct v as [| b | z | f | s | l | d]; cbn [getitem_int]; try discriminate.
  - destruct s; [| reflexivity]. cbn [PyStr.chars].
    rewrite list_getitem_nil. discriminate.
  - destruct l; [| reflexivity]. rewrite list_getitem_nil. discriminate.
Qed.

(** The classifier, once the keys of the first curve are found. *)
Lemma is_linear_or_flat_of_keys (data keys : value) :
  representative_keys data = Ok keys ->
  is_linear_or_flat (Parsed data)
  = try_except (classify_keys keys) [KeyError; IndexError; TypeError]
               (fun _ => Ok true).
Proof.
  intros H. unfold is_linear_or_flat, get_json_data.
  unfold representative_keys in H.
  destruct (getitem_int data 0) as [record |] eqn:H0; [| discriminate].
  rewrite (getitem_int_truthy _ _ H0). cbn [negb].
  unfold is_linear_or_flat_body. rewrite H0. cbn [bind] in *.
  destruct (float_curves_or record) as [fc |]; [| discriminate].
  cbn [bind] in *.
  destruct (getitem_int fc 0) as [first |]; [| discriminate].
  cbn [bind] in *. rewrite H. reflexivity.
Qed.

End Classifier.

(* ===================================================================== *)
(** ** The generator on a well-shaped table and curve set *)
(* ===================================================================== *)

Section Generator.
Import PyExc PyVal Reader Typed.
Local Open Scope string_scope.

Lemma dict_set_fresh {A : Type} (k : string) (a : A) (d : list (string * A)) :
  lookup k d = None -> dict_set k a d = (d ++ [(k, a)])%list.
Proof.
  induction d as [| [k' a'] d IH]; intros H; [reflexivity |].
  cbn [lookup dict_set app] in *. destruct (String.eqb k k'); [discriminate |].
  rewrite IH by exact H. reflexivity.
Qed.

Lemma lookup_app_fresh {A : Type} (k k' : string) (a : A)
      (d : list (string * A)) :
  lookup k d = None -> k <> k' -> lookup k (d ++ [(k', a)]) = None.
Proof.
  intros H Hk. induction d as [| [k'' a''] d IH]; cbn [lookup app] in *.
  - destruct (String.eqb_spec k k'); [contradiction | reflexivity].
  - destruct (String.eqb k k''); [discriminate | exact (IH H)].
Qed.

Lemma lookup_none_not_in {A : Type} (k : string) (d : list (string * A)) :
  lookup k d = None <-> ~ In k (map fst d).
Proof.
  induction d as [| [k' a'] d IH]; cbn [lookup map fst In].
  - split; [intros _ [] | reflexivity].
  - destruct (String.eqb_spec k k') as [-> | Hne].
    + split; [discriminate | intros H; exfalso; apply H; left; reflexivity].
    + rewrite IH. split.
      * intros H [E | I]; [apply Hne; symmetry; exact E | exact (H I)].
      * intros H I. apply H. right. exact I.
Qed.

(** Line 384 over rows that hold percentages: the qualifying keys with
    their percentages, in the order of the table. *)
Lemma damage_attributes_rows (rows : list (string * value))
      (table : list (string * float)) :
  Forall2 is_row rows table ->
  forall acc : list (string * value),
    NoDup (map fst acc ++ map fst table) ->
    for_each damage_attributes_step rows acc
    = Ok (acc ++ map (fun kp => (fst kp, VFloat (snd kp)))
                     (filter qualifies table))%list.
Proof.
  induction 1 as [| [k v] [k' p] rows table [Hk (d & Hd & Hp)] _ IH];
    intros acc Hnd.
  - cbn. rewrite app_nil_r. reflexivity.
  - cbn [fst snd] in Hk, Hd, Hp. subst k' v.
    cbn [for_each damage_attributes_step filter].
    change (qualifies (k, p))
      with (PyStr.startswith "Damage." k && negb (PrimFloat.eqb p f_zero)).
    cbn [map fst] in Hnd.
    destruct (PyStr.startswith "Damage." k) eqn:Hs; cbn [andb].
    + cbn [getitem_key]. rewrite Hp. cbn [bind]. unfold ne.
      rewrite eq_float_int_zero.
      destruct (PrimFloat.eqb p f_zero); cbn [negb bind].
      * apply IH. apply NoDup_remove_1 in Hnd. exact Hnd.
      * rewrite dict_set_fresh.
        -- rewrite IH.
           ++ rewrite <- app_assoc. reflexivity.
           ++ rewrite map_app, <- app_assoc. exact Hnd.
        -- apply lookup_none_not_in. apply NoDup_remove_2 in Hnd.
           intros I. apply Hnd. apply in_or_app. left. exact I.
    + cbn [bind]. apply IH. apply NoDup_remove_1 in Hnd. exact Hnd.
Qed.

(** The loop over the keys of one curve. *)
Lemma scaled_keys (p : float) (kvs : list value) (c : curve) :
  Forall2 is_keyframe kvs c ->
  forall acc : series,
    for_each (scaled_curve_step (VFloat p)) kvs acc
    = Ok {| Time := Time acc ++ time_values (derived_curve c p);
            Values := Values acc ++ val_values (derived_curve c p) |}%list.
Proof.
  induction 1 as [| v k kvs c Hk _ IH]; intros acc.
  - cbn. rewrite !app_nil_r. destruct acc; reflexivity.
  - cbn [for_each]. unfold scaled_curve_step at 1.
    rewrite (keyframe_time Hk). cbn [bind]. rewrite gt_num_floats. cbn [bind].
    unfold derived_curve. cbn [filter].
    destruct (PrimFloat.ltb f_zero (time k)).
    + rewrite (keyframe_val Hk). cbn [bind]. rewrite mul_floats. cbn [bind].
      rewrite IH. cbn [Time Values map time_values val_values time val fst snd].
      unfold derived_curve, time_values, val_values.
      rewrite <- !app_assoc. reflexivity.
    + cbn [bind]. exact (IH acc).
Qed.

Lemma scaled_curve_spec (p : float) (cv : value) (c : curve) :
  is_curve cv c ->
  scaled_curve cv (VFloat p) = Ok (series_of (derived_curve c p)).
Proof.
  intros (d & kvs & -> & Hkeys & Hk). unfold scaled_curve.
  cbn [getitem_key]. rewrite Hkeys. cbn [bind iter].
  rewrite (scaled_keys p Hk). reflexivity.
Qed.

(** A loop that appends one result per item is a comprehension. *)
Lemma for_each_collect {X Y : Type} (f : X -> result Y) (xs : list X) :
  forall acc : list Y,
    for_each (fun acc x => (y <- f x ;; Ok (acc ++ [y])%list)%py) xs acc
    = (ys <- comprehension f xs ;; Ok (acc ++ ys)%list)%py.
Proof.
  induction xs as [| x xs IH]; intros acc.
  - cbn. rewrite app_nil_r. reflexivity.
  - cbn [for_each comprehension]. destruct (f x) as [y | e]; [| reflexivity].
    cbn [bind]. rewrite IH.
    destruct (comprehension f xs) as [ys | e]; [| reflexivity].
    cbn [bind]. rewrite <- app_assoc. reflexivity.
Qed.

Lemma Forall2_firstn {A B : Type} (R : A -> B -> Prop) (n : nat)
      (l : list A) (m : list B) :
  Forall2 R l m -> Forall2 R (firstn n l) (firstn n m).
Proof.
  intros H. revert n. induction H as [| a b l m Hab _ IH]; intros [| n];
    cbn [firstn]; constructor; [exact Hab | apply IH].
Qed.

(** The loop over the first two curves of a well-shaped curve set. *)
Lemma new_curves_spec (p : float) (cvs : list value) (curve_set : list curve) :
  Forall2 is_curve cvs curve_set ->
  new_curves (VList cvs) (VFloat p)
  = Ok (map (fun c => series_of (derived_curve c p)) (firstn 2 curve_set)).
Proof.
  intros H. unfold new_curves. cbn [slice_to_2 bind iter].
  unfold new_curves_step.
  rewrite (for_each_collect (fun cv => scaled_curve cv (VFloat p))).
  apply (Forall2_firstn 2) in H.
  induction H as [| cv c l m Hc _ IH]; [reflexivity |].
  cbn [comprehension map]. rewrite (scaled_curve_spec p Hc). cbn [bind].
  destruct (comprehension _ l) as [ys |]; [| discriminate].
  cbn [bind app] in *. inversion IH. reflexivity.
Qed.

(** The loop over the damage attributes. *)
Lemma store_attacks_spec (cvs : list value) (curve_set : list curve) :
  Forall2 is_curve cvs curve_set ->
  forall (kps : list (string * float)) (vfd : virtual_files),
    store_attacks (VList cvs)
                  (map (fun kp => (fst kp, VFloat (snd kp))) kps) vfd
    = (store_entries curve_set kps vfd, Ok tt).
Proof.
  intros H kps. induction kps as [| [k p] kps IH]; intros vfd; [reflexivity |].
  cbn [map store_attacks fst snd]. rewrite (new_curves_spec p H).
  rewrite IH. reflexivity.
Qed.

(** Entries under distinct names line up after the ones already there. *)
Lemma store_entries_distinct (curve_set : list curve)
      (kps : list (string * float)) :
  forall vfd : virtual_files,
    NoDup (map fst vfd ++ map (fun kp => display_name (fst kp)) kps) ->
    store_entries curve_set kps vfd
    = (vfd ++ map (entry_of curve_set) kps)%list.
Proof.
  unfold store_entries.
  induction kps as [| kp kps IH]; intros vfd Hnd.
  - cbn. rewrite app_nil_r. reflexivity.
  - cbn [fold_left map]. cbn [map] in Hnd.
    rewrite dict_set_fresh.
    + rewrite IH.
      * rewrite <- app_assoc. reflexivity.
      * rewrite map_app, <- app_assoc. exact Hnd.
    + apply lookup_none_not_in. apply NoDup_remove_2 in Hnd.
      intros I. apply Hnd. apply in_or_app. left. exact I.
Qed.

(** The whole method on well-shaped files. *)
Lemma generate_spec (balance_data attack_power_data : value)
      (table : list (string * float)) (curve_set : list curve)
      (vfd : virtual_files) :
  is_balance_data balance_data table ->
  is_attack_power_data attack_power_data curve_set ->
  NoDup (map fst table) ->
  generate_virtual_attack_files (Parsed balance_data) (Parsed attack_power_data)
                                vfd
  = (store_entries curve_set (filter qualifies table) vfd, Ok tt).
Proof.
  intros (record & rows & Hb0 & Hrows & Hr) (cvs & Hap & Hc) Hnd.
  unfold generate_virtual_attack_files, get_json_data.
  rewrite (getitem_int_truthy _ _ Hb0).
  assert (Ht : truthy attack_power_data = true).
  { unfold attack_power_curves in Hap.
    destruct (getitem_int attack_power_data 0) eqn:E; [| discriminate].
    exact (getitem_int_truthy _ _ E). }
  rewrite Ht, Hap. cbn [negb orb bind try_except].
  unfold damage_attributes. rewrite Hb0. cbn [bind]. rewrite Hrows.
  cbn [bind items].
  rewrite (damage_attributes_rows Hr) by exact Hnd.
  cbn [app]. apply (store_attacks_spec Hc).
Qed.

End Generator.

(* ===================================================================== *)
(** ** The post-processor on a well-shaped curve *)
(* ===================================================================== *)

Section PostProcessor.
Import PyExc PyVal Reader Typed.
Local Open Scope string_scope.

Lemma weight_or_scale_test (name : string) :
  existsb (String.eqb (PyStr.lower name)) ["weight"; "scale"]
  = is_weight_or_scale name.
Proof. unfold is_weight_or_scale. cbn [existsb]. rewrite orb_false_r. reflexivity. Qed.

(** Lines 459 to 463 on the times and values of a curve. *)
Lemma extend_to_one_spec (name : string) (c : curve) :
  extend_to_one name (time_values c) (val_values c)
  = Ok (time_values (boundary name c), val_values (boundary name c)).
Proof.
  unfold extend_to_one, boundary. rewrite weight_or_scale_test.
  destruct (is_weight_or_scale name); [| reflexivity]. cbn [andb].
  induction c as [| k pre _] using rev_ind; [reflexivity |].
  unfold ends_early, extended. rewrite rev_app_distr. cbn [rev app].
  unfold time_values, val_values. rewrite !map_app. cbn [map].
  destruct (map (fun k0 => VFloat (time k0)) pre ++ [VFloat (time k)])%list
    as [| t ts] eqn:E.
  { destruct (map (fun k0 => VFloat (time k0)) pre); discriminate. }
  rewrite <- E. rewrite !list_getitem_last. cbn [bind].
  rewrite lt_num_floats. cbn [bind].
  destruct (PrimFloat.ltb (time k) f_one); rewrite !map_app; reflexivity.
Qed.

Lemma convert_values (factor : float) (c : curve) :
  comprehension (fun v => mul v (VFloat factor)) (val_values c)
  = Ok (converted_values factor c).
Proof.
  unfold val_values, converted_values.
  induction c as [| k c IH]; [reflexivity |].
  cbn [map comprehension]. rewrite mul_floats, IH. reflexivity.
Qed.

(** The body of the loop of [plot_selected_file] on a well-shaped curve. *)
Lemma plot_curve_spec (name : string) (cv : value) (c : curve) :
  is_curve cv c ->
  plot_curve name cv
  = Ok (time_values (boundary name c),
        converted_values (snd (unit_rule name)) (boundary name c),
        fst (unit_rule name)).
Proof.
  intros (d & kvs & -> & Hkeys & Hk). unfold plot_curve.
  cbn [getitem_key]. rewrite Hkeys. cbn [bind iter].
  rewrite (keyframes_times Hk), (keyframes_vals Hk). cbn [bind].
  rewrite extend_to_one_spec. cbn [bind].
  destruct (unit_rule name) as [label factor]. cbn [fst snd].
  rewrite convert_values. reflexivity.
Qed.

(** A factor of one leaves the values as they are. *)
Lemma converted_values_one (c : curve) :
  converted_values f_one c = val_values c.
Proof.
  unfold converted_values, val_values. apply map_ext. intros k.
  rewrite mul_one_r. reflexivity.
Qed.

(** The unit rule under "weight" and "scale": no conversion. *)
Lemma unit_rule_weight_or_scale (name : string) :
  is_weight_or_scale name = true -> snd (unit_rule name) = f_one.
Proof.
  unfold is_weight_or_scale, unit_rule. intros H.
  apply orb_prop in H as [H | H]; apply String.eqb_eq in H; rewrite H;
    reflexivity.
Qed.

End PostProcessor.

(* ===================================================================== *)
(** ** Only the first two curves *)
(* ===================================================================== *)

Section FirstTwo.
Import PyExc PyVal Reader Typed.

Lemma firstn_2_idem {A : Type} (l : list A) : firstn 2 (firstn 2 l) = firstn 2 l.
Proof. destruct l as [| a [| b l]]; reflexivity. Qed.

Lemma new_curves_first_two (cs : list value) (damage_value : value) :
  new_curves (VList cs) damage_value
  = new_curves (VList (firstn 2 cs)) damage_value.
Proof. unfold new_curves. cbn [slice_to_2 bind]. rewrite firstn_2_idem. reflexivity. Qed.

Lemma new_curves_steps_length (damage_value : value) (cs : list value) :
  forall (acc l : list series),
    for_each (new_curves_step damage_value) cs acc = Ok l ->
    List.length l = List.length acc + List.length cs.
Proof.
  induction cs as [| c cs IH]; intros acc l H.
  - cbn in H. inversion H. cbn. lia.
  - cbn [for_each] in H. unfold new_curves_step at 1 in H.
    destruct (scaled_curve c damage_value) as [s |]; [| discriminate].
    cbn [bind] in H. apply IH in H. rewrite H, length_app. cbn. lia.
Qed.

Lemma new_curves_length (cs : list value) (damage_value : value)
      (l : list series) :
  new_curves (VList cs) damage_value = Ok l -> List.length l <= 2.
Proof.
  unfold new_curves. cbn [slice_to_2 bind iter]. intros H.
  apply new_curves_steps_length in H. rewrite H. cbn [List.length].
  rewrite length_firstn. lia.
Qed.

Lemma store_attacks_first_two (cs : list value)
      (attrs : list (string * value)) :
  forall vfd : virtual_files,
    store_attacks (VList cs) attrs vfd
    = store_attacks (VList (firstn 2 cs)) attrs vfd.
Proof.
  induction attrs as [| [k v] attrs IH]; intros vfd; [reflexivity |].
  cbn [store_attacks]. rewrite <- new_curves_first_two.
  destruct (new_curves (VList cs) v); [apply IH | reflexivity].
Qed.

Lemma lookup_dict_set {A : Type} (k k' : string) (a : A)
      (d : list (string * A)) :
  lookup k (dict_set k' a d)
  = if String.eqb k k' then Some a else lookup k d.
Proof.
  induction d as [| [k'' a''] d IH]; cbn [dict_set lookup].
  - destruct (String.eqb k k'); reflexivity.
  - destruct (String.eqb_spec k' k'') as [<- | Hne]; cbn [lookup].
    + destruct (String.eqb k k'); reflexivity.
    + rewrite IH. destruct (String.eqb_spec k k'') as [-> | Hne'];
        [| reflexivity].
      destruct (String.eqb_spec k'' k') as [E | _]; [| reflexivity].
      exfalso. apply Hne. symmetry. exact E.
Qed.

(** An entry that the loop stores has two curves at most. *)
Lemma store_attacks_short (ap_curves : list value)
      (attrs : list (string * value)) :
  forall (vfd : virtual_files) (name : string) (e : virtual_entry),
    lookup name (fst (store_attacks (VList ap_curves) attrs vfd)) = Some e ->
    lookup name vfd = Some e \/ List.length (curves e) <= 2.
Proof.
  induction attrs as [| [k v] attrs IH]; intros vfd name e H.
  - left. exact H.
  - cbn [store_attacks] in H.
    destruct (new_curves (VList ap_curves) v) as [cs |] eqn:Hn.
    + apply IH in H as [H | H]; [| right; exact H].
      rewrite lookup_dict_set in H.
      destruct (String.eqb name (display_name k)); [| left; exact H].
      right. inversion H. cbn [curves]. exact (new_curves_length _ _ Hn).
    + left. exact H.
Qed.

Lemma plot_steps_length (name : string) (cs : list value) :
  forall (acc out : plot_locals),
    for_each (plot_step name) cs acc = Ok out ->
    List.length (fst (fst out)) = List.length (fst (fst acc)) + List.length cs
    /\ List.length (snd (fst out)) = List.length (snd (fst acc)) + List.length cs.
Proof.
  induction cs as [| c cs IH]; intros [[tpl vl] b] out H.
  - cbn in H. inversion H. cbn. lia.
  - cbn [for_each] in H. unfold plot_step at 1 in H.
    destruct (plot_curve name c) as [[[tp vs] label] |]; [| discriminate].
    cbn [bind] in H. apply IH in H. cbn [fst snd] in *.
    rewrite !length_app in H. cbn [List.length] in *. lia.
Qed.

Lemma plot_float_curves_first_two (name : string) (cs : list value) :
  plot_float_curves name (VList cs)
  = plot_float_curves name (VList (firstn 2 cs)).
Proof. destruct cs as [| a [| b cs]]; reflexivity. Qed.

Lemma plot_float_curves_length (name : string) (cs : list value)
      (call : plot_call) :
  plot_float_curves name (VList cs) = Ok (Some call) ->
  List.length (arg_time_points_list call) <= 2
  /\ List.length (arg_values_list call) <= 2.
Proof.
  unfold plot_float_curves.
  destruct (negb (truthy (VList cs))); [discriminate |].
  destruct (getitem_int (VList cs) 0) as [first |]; [| discriminate].
  cbn [bind]. destruct (negb (truthy first)); [discriminate |].
  cbn [slice_to_2 bind iter].
  destruct (for_each (plot_step name) (firstn 2 cs) ([], [], None))
    as [[[tpl vl] bound] |] eqn:Hl; [| discriminate].
  cbn [bind]. destruct bound as [label |]; [| discriminate].
  intros H. inversion H. cbn [arg_time_points_list arg_values_list].
  apply plot_steps_length in Hl. cbn [fst snd List.length] in Hl.
  pose proof (length_firstn 2 cs). lia.
Qed.

End FirstTwo.

(* ===================================================================== *)
(** ** The two ways of finding the curves of a record *)
(* ===================================================================== *)

Section Normalizer.
Import PyExc PyVal Reader Typed.
Local Open Scope string_scope.

(** Shape (A) with a value that is true: both ways give that value. *)
Lemma shape_A_both (d : list (string * value)) (a : value) :
  lookup "FloatCurves" d = Some a -> truthy a = true ->
  float_curves_or (VDict d) = Ok a /\ float_curves_in (VDict d) = Ok a.
Proof.
  intros H Ht. unfold float_curves_or, float_curves_in.
  cbn [get contains getitem_key]. unfold has_key. rewrite H. cbn [bind].
  rewrite Ht. split; reflexivity.
Qed.

(** Shape (B) alone: both ways give the curve in a one-item list. *)
Lemma shape_B_both (d p : list (string * value)) (c : value) :
  lookup "FloatCurves" d = None ->
  lookup "Properties" d = Some (VDict p) ->
  lookup "FloatCurve" p = Some c ->
  float_curves_or (VDict d) = Ok (VList [c])
  /\ float_curves_in (VDict d) = Ok (VList [c]).
Proof.
  intros Ha Hp Hc. unfold float_curves_or, float_curves_in.
  cbn [get contains getitem_key]. unfold has_key. rewrite Ha, Hp.
  cbn [bind truthy get contains getitem_key]. unfold has_key. rewrite Hc.
  split; reflexivity.
Qed.

End Normalizer.

(* ===================================================================== *)
(** ** The series of a well-shaped curve set *)
(* ===================================================================== *)

Section Series.
Import PyExc PyVal Reader Typed.
Local Open Scope string_scope.

Lemma is_curve_truthy (cv : value) (c : curve) :
  is_curve cv c -> truthy cv = true.
Proof.
  intros (d & kvs & -> & Hkeys & _). destruct d; [discriminate | reflexivity].
Qed.

(** The loop of [plot_selected_file] over well-shaped curves. *)
Lemma plot_steps_spec (name : string) (cvs : list value) (cs : list curve) :
  Forall2 is_curve cvs cs ->
  forall (tpl vl : list (list value)) (bound : option string),
    for_each (plot_step name) cvs (tpl, vl, bound)
    = Ok ((tpl ++ map (fun c => time_values (boundary name c)) cs)%list,
          (vl ++ map (fun c => converted_values (snd (unit_rule name))
                                                (boundary name c)) cs)%list,
          match cs with
          | [] => bound
          | _ :: _ => Some (fst (unit_rule name))
          end).
Proof.
  induction 1 as [| cv c cvs cs Hc Hcs IH]; intros tpl vl bound.
  - cbn. rewrite !app_nil_r. reflexivity.
  - cbn [for_each]. unfold plot_step at 1.
    rewrite (plot_curve_spec name Hc). cbn [bind]. rewrite IH.
    cbn [map]. rewrite <- !app_assoc. cbn [app].
    destruct cs; reflexivity.
Qed.

(** Lines 451 to 477 on a well-shaped curve set that is not empty: the
    call of [plot_data] with the series of the first two curves. *)
Lemma plot_float_curves_spec (name : string) (cvs : list value)
      (cs : list curve) :
  Forall2 is_curve cvs cs -> cs <> [] ->
  plot_float_curves name (VList cvs)
  = Ok (Some {| arg_time_points_list :=
                  map (fun c => time_values (boundary name c)) (firstn 2 cs);
                arg_values_list :=
                  map (fun c => converted_values (snd (unit_rule name))
                                                 (boundary name c))
                      (firstn 2 cs);
                arg_file_name := name;
                arg_y_label := fst (unit_rule name) |}).
Proof.
  intros H Hne. unfold plot_float_curves.
  destruct H as [| cv c cvs cs Hc Hcs]; [contradiction |].
  cbn [truthy negb getitem_int]. rewrite list_getitem_0. cbn [bind].
  rewrite (is_curve_truthy Hc). cbn [negb slice_to_2 bind iter].
  assert (H2 : Forall2 is_curve (firstn 2 (cv :: cvs)) (firstn 2 (c :: cs)))
    by (apply Forall2_firstn; constructor; assumption).
  rewrite (plot_steps_spec name H2). cbn [bind app]. reflexivity.
Qed.

(** Lines 447 to 477 on a well-shaped attribute file. *)
Lemma plot_file_spec (name : string) (file_data : value) (cs : list curve) :
  is_attribute_data file_data cs -> cs <> [] ->
  plot_file name (Parsed file_data)
  = Ok (Some {| arg_time_points_list :=
                  map (fun c => time_values (boundary name c)) (firstn 2 cs);
                arg_values_list :=
                  map (fun c => converted_values (snd (unit_rule name))
                                                 (boundary name c))
                      (firstn 2 cs);
                arg_file_name := name;
                arg_y_label := fst (unit_rule name) |}).
Proof.
  intros (record & cvs & H0 & Hfc & Hc) Hne. unfold plot_file, get_json_data.
  rewrite (getitem_int_truthy _ _ H0), H0. cbn [negb bind]. rewrite Hfc.
  cbn [bind]. apply plot_float_curves_spec; assumption.
Qed.

End Series.

(* ===================================================================== *)
(** ** The plainest files are well-shaped *)
(* ===================================================================== *)

Section Encodings.
Import PyExc PyVal Reader Typed.
Local Open Scope string_scope.

Lemma keyframe_value_ok (k : keyframe) : is_keyframe (keyframe_value k) k.
Proof. eexists. repeat split. Qed.

Lemma curve_value_ok (c : curve) : is_curve (curve_value c) c.
Proof.
  eexists. exists (map keyframe_value c). repeat split.
  induction c as [| k c IH]; constructor; [apply keyframe_value_ok | exact IH].
Qed.

Lemma curve_values_ok (cs : list curve) :
  Forall2 is_curve (map curve_value cs) cs.
Proof. induction cs as [| c cs IH]; constructor; [apply curve_value_ok | exact IH]. Qed.

Lemma shape_A_file_ok (cs : list curve) :
  is_attack_power_data (VList [shape_A (map curve_value cs)]) cs.
Proof. exists (map curve_value cs). split; [reflexivity | apply curve_values_ok]. Qed.

Lemma shape_B_file_ok (c : curve) :
  is_attack_power_data (VList [shape_B (curve_value c)]) [c].
Proof.
  exists [curve_value c]. split; [reflexivity |].
  constructor; [apply curve_value_ok | constructor].
Qed.

Lemma balance_file_ok (table : list (string * float)) :
  is_balance_data
    (VList [VDict [("Rows",
              VDict (map (fun kp => (fst kp, row_value (snd kp))) table))]])
    table.
Proof.
  eexists. eexists. repeat split.
  induction table as [| [k p] table IH]; constructor; [| exact IH].
  split; [reflexivity |]. eexists. split; reflexivity.
Qed.

End Encodings.

(* ===================================================================== *)
(** ** The claims *)
(* ===================================================================== *)

Section Claims.
Import PyExc PyVal Reader Typed Examples.
Local Open Scope string_scope.
Local Open Scope list_scope.

(** C1, as stated, fails: two keys with the prefix and a percentage that is
    not zero, ["Damage.Bite"] and ["Damage.Alt.Bite"], have the same
    display name, so the mapping ends with one entry for the two of them,
    and that entry is the one of the later key (values times 2, not
    times 0.5). *)
Lemma C1_two_keys_share_one_entry :
  List.length (filter qualifies two_bites_table) = 2
  /\ fst (generate_virtual_attack_files (balance_file two_bites_table)
                                        attack_power [])
     = [("Bite Attack",
         {| curves := [{| Time := [VFloat f_half; VInt 1];
                          Values := [VFloat 0x1.4p+5; VFloat 0x1.ep+5] |}];
            y_label := "Damage";
            title_name := "Bite Attack" |})]
  /\ List.length (fst (generate_virtual_attack_files
                         (balance_file two_bites_table) attack_power []))
     <> List.length (filter qualifies two_bites_table).
Proof.
  split; [reflexivity | split; [vm_compute; reflexivity |]].
  vm_compute. discriminate.
Qed.

(** C1, amended.  From a balance table and an attack-power curve set the
    generator stores, for each key that starts with ["Damage."] and whose
    percentage is not zero, in the order of the table, one entry under the
    display name of the key, an entry replacing the one that an earlier
    key left under the same name; when the display names of these keys
    are all different, there is exactly one entry per key.  The curves of
    an entry come from the first two attack-power curves: the keyframes
    whose time is above zero, in order, which leaves out every keyframe
    whose time is at most zero, each with the value
    [sourceAttackValue * damagePercentage].  On the table
    [{"Damage.Bite": 0.5, "Other.X": 1.0}] and the keyframes
    [(0,10),(0.5,20),(1,30)] the result is the single entry
    ["Bite Attack"] with the curve [(0.5,10.0),(1,15.0)].  (A time that
    is not a number is not above zero either; on the curves without such
    times, the keyframes kept are those whose time is not [<= 0].) *)
Theorem C1_virtual_curves_by_display_name :
  (forall (balance_data attack_power_data : value)
          (table : list (string * float)) (curve_set : list curve),
      is_balance_data balance_data table ->
      is_attack_power_data attack_power_data curve_set ->
      NoDup (map fst table) ->
      generate_virtual_attack_files (Parsed balance_data)
                                    (Parsed attack_power_data) []
      = (store_entries curve_set (filter qualifies table) [], Ok tt)
      /\ (NoDup (map (fun kp => display_name (fst kp))
                     (filter qualifies table)) ->
          generate_virtual_attack_files (Parsed balance_data)
                                        (Parsed attack_power_data) []
          = (map (entry_of curve_set) (filter qualifies table), Ok tt)))
  /\ (forall (c : curve) (p : float) (k : keyframe),
         PrimFloat.leb (time k) f_zero = true ->
         derived_curve (k :: c) p = derived_curve c p)
  /\ (forall (c : curve) (p : float) (k : keyframe),
         PrimFloat.ltb f_zero (time k) = true ->
         derived_curve (k :: c) p
         = (time k, PrimFloat.mul (val k) p) :: derived_curve c p)
  /\ (forall (c : curve) (p : float),
         Forall (fun k => PrimFloat.is_nan (time k) = false) c ->
         derived_curve c p
         = map (fun k => (time k, PrimFloat.mul (val k) p))
               (filter (fun k => negb (PrimFloat.leb (time k) f_zero)) c))
  /\ generate_virtual_attack_files (balance_file bite_table) attack_power []
     = ([("Bite Attack",
          {| curves := [{| Time := [VFloat f_half; VInt 1];
                           Values := [VFloat 0x1.4p+3; VFloat 0x1.ep+3] |}];
             y_label := "Damage";
             title_name := "Bite Attack" |})],
        Ok tt).
Proof.
  split; [| split; [| split; [| split]]].
  - intros balance_data attack_power_data table curve_set Hb Ha Hnd.
    rewrite (generate_spec [] Hb Ha Hnd). split; [reflexivity |].
    intros Hnames. rewrite store_entries_distinct by exact Hnames.
    reflexivity.
  - intros c p k H. unfold derived_curve. cbn [filter].
    rewrite (leb_zero_not_gt H). reflexivity.
  - intros c p k H. unfold derived_curve. cbn [filter]. rewrite H.
    reflexivity.
  - intros c p H. unfold derived_curve. f_equal.
    induction H as [| k c Hk _ IH]; [reflexivity |].
    cbn [filter]. rewrite (gt_zero_not_leb _ Hk), IH. reflexivity.
  - vm_compute. reflexivity.
Qed.

Lemma C1_witness :
  generate_virtual_attack_files
    (balance_file bite_table)
    (attribute_file (shape_A (map curve_value [attack_power_curve]))) []
  = ([("Bite Attack",
       {| curves := [{| Time := [VFloat f_half; VFloat f_one];
                        Values := [VFloat 0x1.4p+3; VFloat 0x1.ep+3] |}];
          y_label := "Damage";
          title_name := "Bite Attack" |})],
     Ok tt).
Proof.
  refine (proj2 (proj1 C1_virtual_curves_by_display_name _ _ bite_table
                   [attack_power_curve]
                   (balance_file_ok bite_table)
                   (shape_A_file_ok [attack_power_curve]) _) _).
  - vm_compute. repeat constructor; simpl; intuition discriminate.
  - vm_compute. repeat constructor; simpl; intuition.
Defined.

(** C2, the code at the failing inputs: a balance file whose record has no
    [Rows] makes [generate_virtual_attack_files] let a [KeyError] out,
    with nothing stored; a curve file whose curve has no [Keys] makes
    [plot_selected_file] let a [KeyError] out. *)
Theorem C2_exceptions_escape :
  generate_virtual_attack_files balance_without_rows attack_power []
  = ([], Raise KeyError)
  /\ plot_selected_file "Stamina" [] [("Stamina", "ATT_Rex_Stamina.json")]
                        (fun _ => curve_without_keys)
     = Raise KeyError.
Proof. split; vm_compute; reflexivity. Qed.

(** For finite times the test of the code and the test on the times
    themselves are one. *)
Lemma slope_worded (a b : keyframe) :
  PrimFloat.is_finite (time a) = true ->
  PrimFloat.is_finite (time b) = true ->
  slope a b = Worded.slope a b.
Proof.
  intros Ha Hb. unfold slope, Worded.slope.
  change f_zero with PrimFloat.zero. rewrite (sub_eqb_zero _ _ Hb Ha).
  reflexivity.
Qed.

Lemma slopes_worded (c : curve) :
  Worded.finite_times c = true -> slopes c = Worded.slopes c.
Proof.
  unfold Worded.finite_times.
  induction c as [| a c IH]; [reflexivity |].
  destruct c as [| b c]; [reflexivity |].
  intros H. cbn [forallb] in H.
  apply andb_true_iff in H. destruct H as [Ha H].
  pose proof H as Hrest.
  cbn [forallb] in H. apply andb_true_iff in H. destruct H as [Hb _].
  change (slopes (a :: b :: c)) with (slope a b :: slopes (b :: c)).
  change (Worded.slopes (a :: b :: c))
    with (Worded.slope a b :: Worded.slopes (b :: c)).
  rewrite (slope_worded a b Ha Hb), (IH Hrest). reflexivity.
Qed.

Lemma is_trivial_long_worded (c : curve) :
  Worded.finite_times c = true ->
  is_trivial_long c = Worded.is_trivial_long c.
Proof.
  intros H. unfold is_trivial_long, Worded.is_trivial_long.
  rewrite (slopes_worded c H). reflexivity.
Qed.

(** C3, as stated, fails: the rule gives a pair of equal times the slope
    [+inf], and the code tests the difference of the two times.  On the
    keyframes (0,0), (inf,1), (inf,5) the last two times are equal and
    their difference, [inf - inf], is a NaN, which is not zero: the code
    takes the slope NaN, which no comparison finds away from the first
    slope, and answers [True], in either shape of file, where the rule
    has the slopes 0 and [+inf] and answers [False]. *)
Lemma C3_equal_infinite_times :
  is_linear_or_flat
    (attribute_file (shape_A [curve_value Worded.infinite_times]))
  = Ok true
  /\ is_linear_or_flat
       (attribute_file (shape_B (curve_value Worded.infinite_times)))
     = Ok true
  /\ Worded.is_trivial_long Worded.infinite_times = false
  /\ Worded.slopes Worded.infinite_times = [f_zero; f_inf]
  /\ slopes Worded.infinite_times = [f_zero; PrimFloat.nan].
Proof. repeat split; vm_compute; reflexivity. Qed.

(** C3, amended.  On a curve of more than two keyframes the classifier
    answers as the rules say, with this test for a pair that has no
    duration: the difference of its two times is zero.  So it answers
    [True] when every value equals the first one; otherwise the slope of
    each consecutive pair is taken, [+inf] when the difference of the
    times is zero, and the answer is [False] at the first later pair
    whose slope is further than [1e-9] from the slope of the first pair,
    [True] when there is none.  When the times are finite, the difference
    is zero exactly when the two times are equal, and the classifier
    answers as the rules do in their own words.  The keyframes (0,0),
    (0.5,1), (1,4) are not trivial and (0,0), (0.5,1), (1,2) are, in
    either shape of file and whether the JSON text writes the whole
    numbers as integers or not. *)
Theorem C3_long_curve_follows_the_rules :
  (forall (data : value) (kvs : list value) (c : curve),
      representative_keys data = Ok (VList kvs) ->
      Forall2 is_keyframe kvs c ->
      2 < List.length c ->
      is_linear_or_flat (Parsed data) = Ok (is_trivial_long c))
  /\ (forall c : curve, is_flat c = true -> is_trivial_long c = true)
  /\ (forall (c : curve) (first : float) (later : list float),
         is_flat c = false -> slopes c = first :: later ->
         is_trivial_long c
         = negb (existsb (fun s => differs s first) later))
  /\ (forall a b : keyframe,
         slope a b
         = if PrimFloat.eqb (PrimFloat.sub (time b) (time a)) f_zero
           then f_inf
           else PrimFloat.div (PrimFloat.sub (val b) (val a))
                              (PrimFloat.sub (time b) (time a)))
  /\ (forall a b : keyframe,
         PrimFloat.is_finite (time a) = true ->
         PrimFloat.is_finite (time b) = true ->
         slope a b
         = if PrimFloat.eqb (time b) (time a) then f_inf
           else PrimFloat.div (PrimFloat.sub (val b) (val a))
                              (PrimFloat.sub (time b) (time a)))
  /\ (forall (data : value) (kvs : list value) (c : curve),
         representative_keys data = Ok (VList kvs) ->
         Forall2 is_keyframe kvs c ->
         2 < List.length c ->
         Worded.finite_times c = true ->
         is_linear_or_flat (Parsed data) = Ok (Worded.is_trivial_long c))
  /\ is_trivial_long bent_curve = false
  /\ is_trivial_long straight_curve = true
  /\ is_linear_or_flat (attribute_file (shape_A [bent])) = Ok false
  /\ is_linear_or_flat (attribute_file (shape_B bent)) = Ok false
  /\ is_linear_or_flat (attribute_file (shape_A [straight])) = Ok true
  /\ is_linear_or_flat (attribute_file (shape_B straight)) = Ok true.
Proof.
  split; [| split; [| split; [| split; [| split; [| split]]]]].
  - intros data kvs c Hkeys Hk Hlen.
    rewrite (is_linear_or_flat_of_keys _ Hkeys).
    rewrite (classify_keys_long Hk Hlen). reflexivity.
  - intros c H. unfold is_trivial_long. rewrite H. reflexivity.
  - intros c first later Hf Hs. unfold is_trivial_long. rewrite Hf, Hs.
    clear. induction later as [| s later IH]; [reflexivity |].
    cbn [all_match existsb]. destruct (differs s first); [reflexivity |].
    exact IH.
  - intros a b. reflexivity.
  - intros a b Ha Hb. exact (slope_worded a b Ha Hb).
  - intros data kvs c Hkeys Hk Hlen Hfin.
    rewrite (is_linear_or_flat_of_keys _ Hkeys).
    rewrite (classify_keys_long Hk Hlen).
    rewrite (is_trivial_long_worded c Hfin). reflexivity.
  - repeat split; vm_compute; reflexivity.
Qed.

Lemma C3_witness :
  is_linear_or_flat (attribute_file (shape_A [curve_value bent_curve]))
  = Ok (Worded.is_trivial_long bent_curve).
Proof.
  destruct C3_long_curve_follows_the_rules
    as (_ & _ & _ & _ & _ & Hworded & _).
  exact (Hworded
           (VList [shape_A [curve_value bent_curve]])
           (map keyframe_value bent_curve) bent_curve
           eq_refl
           (Forall2_cons _ _ (keyframe_value_ok _)
              (Forall2_cons _ _ (keyframe_value_ok _)
                 (Forall2_cons _ _ (keyframe_value_ok _) (Forall2_nil _))))
           (le_n 3) eq_refl).
Defined.

(** C4.  A curve of two keyframes or fewer is trivial, whatever its
    keyframes hold: once the keys of the first curve of the file are a
    list of at most two items, of any kind, [is_linear_or_flat] returns
    [True]. *)
Theorem C4_short_curve_is_trivial (data : value) (kvs : list value) :
  representative_keys data = Ok (VList kvs) ->
  List.length kvs <= 2 ->
  is_linear_or_flat (Parsed data) = Ok true.
Proof.
  intros Hkeys Hlen. rewrite (is_linear_or_flat_of_keys _ Hkeys).
  rewrite (classify_keys_short _ Hlen). reflexivity.
Qed.

Lemma C4_witness :
  representative_keys (VList [shape_B two_odd_keys])
  = Ok (VList [VStr "x"; VNone])
  /\ is_linear_or_flat (attribute_file (shape_B two_odd_keys)) = Ok true.
Proof.
  split; [reflexivity |].
  apply (@C4_short_curve_is_trivial (VList [shape_B two_odd_keys])
           [VStr "x"; VNone]); [reflexivity | simpl; lia].
Defined.

(** C5.  Under a name that is "weight" or "scale" whatever the case of
    its letters, a curve whose last time point is below 1.0 gets exactly
    one more keyframe, at time 1.0, with the value of the keyframe that
    was last; a curve whose last time point is 1.0 or more is left as it
    is.  ["Weight"] with the curve [(0,2),(0.8,5)] gives
    [(0,2),(0.8,5),(1.0,5)], and with a curve that ends at 1.0 the same
    curve. *)
Theorem C5_weight_and_scale_reach_one :
  (forall (name : string) (cv : value) (pre : curve) (k : keyframe),
      is_weight_or_scale name = true ->
      is_curve cv (pre ++ [k]) ->
      (PrimFloat.ltb (time k) f_one = true ->
       plot_curve name cv
       = Ok (time_values (pre ++ [k; (f_one, val k)]),
             val_values (pre ++ [k; (f_one, val k)]),
             fst (unit_rule name)))
      /\ (PrimFloat.leb f_one (time k) = true ->
          plot_curve name cv
          = Ok (time_values (pre ++ [k]), val_values (pre ++ [k]),
                fst (unit_rule name))))
  /\ plot_file "Weight" (attribute_file (shape_A [weight_short]))
     = Ok (Some {| arg_time_points_list :=
                     [[VInt 0; VFloat f_0_8; VFloat f_one]];
                   arg_values_list :=
                     [[VFloat 0x1p+1; VFloat 0x1.4p+2; VFloat 0x1.4p+2]];
                   arg_file_name := "Weight";
                   arg_y_label := "Value (kg)" |})
  /\ plot_file "Weight" (attribute_file (shape_A [weight_full]))
     = Ok (Some {| arg_time_points_list := [[VInt 0; VFloat f_one]];
                   arg_values_list := [[VFloat 0x1p+1; VFloat 0x1.4p+2]];
                   arg_file_name := "Weight";
                   arg_y_label := "Value (kg)" |}).
Proof.
  split; [| split; vm_compute; reflexivity].
  intros name cv pre k Hname Hc.
  rewrite (plot_curve_spec name Hc), (unit_rule_weight_or_scale _ Hname).
  rewrite converted_values_one. unfold boundary, ends_early, extended.
  rewrite Hname, rev_app_distr. cbn [rev app andb].
  split; intros Ht.
  - rewrite Ht, <- app_assoc. reflexivity.
  - rewrite (leb_not_ltb Ht). reflexivity.
Qed.

Lemma C5_witness :
  plot_curve "wEIGHT" (curve_value weight_short_curve)
  = Ok ([VFloat f_zero; VFloat f_0_8; VFloat f_one],
        [VFloat 0x1p+1; VFloat 0x1.4p+2; VFloat 0x1.4p+2],
        "Value (kg)").
Proof.
  exact (proj1 (proj1 C5_weight_and_scale_reach_one "wEIGHT"
                  (curve_value weight_short_curve)
                  [(f_zero, 0x1p+1%float)] (f_0_8, 0x1.4p+2%float)
                  eq_refl (curve_value_ok weight_short_curve))
               eq_refl).
Defined.

(** C6, as stated, fails twice.  A name that contains both words, such as
    ["SpeedWeight"], contains "weight" and yet gets the km/h label and
    converted values.  And the value 100 under ["Speed"] becomes the
    double product of 100 by 0.036, which is 3.5999999999999996, the double
    just below 3.6. *)
Lemma C6_weight_after_speed_and_rounding :
  PyStr.contains "weight" (PyStr.lower "SpeedWeight") = true
  /\ plot_file "SpeedWeight" (attribute_file (shape_A [speed_100]))
     = Ok (Some {| arg_time_points_list := [[VInt 0]];
                   arg_values_list := [[VFloat f_below_3_6]];
                   arg_file_name := "SpeedWeight";
                   arg_y_label := "Value (km/h)" |})
  /\ plot_file "Speed" (attribute_file (shape_A [speed_100]))
     = Ok (Some {| arg_time_points_list := [[VInt 0]];
                   arg_values_list := [[VFloat f_below_3_6]];
                   arg_file_name := "Speed";
                   arg_y_label := "Value (km/h)" |})
  /\ eq (VFloat f_below_3_6) (VFloat f_3_6) = false
  /\ PrimFloat.ltb f_below_3_6 f_3_6 = true.
Proof. repeat split; vm_compute; reflexivity. Qed.

(** C6, amended.  The unit rule looks for "speed" first: a name that
    contains "speed" (case-insensitive) gets the km/h label and every
    value multiplied by the double 0.036; a name that does not, and
    contains "weight", gets the kg label with the values unchanged; any
    other name gets the generic label with the factor 1.0, which changes
    no value.  The values are those of the curve after the boundary
    extension, for each of the first two curves of the file.  ["Speed"]
    with the value 100 gives the double product
    100 * 0.036, that is 3.5999999999999996, under the km/h label. *)
Theorem C6_unit_rule_speed_first :
  (forall (name : string) (cv : value) (c : curve),
      is_curve cv c ->
      plot_curve name cv
      = Ok (time_values (boundary name c),
            converted_values (snd (unit_rule name)) (boundary name c),
            fst (unit_rule name)))
  /\ (forall (name : string) (file_data : value) (cs : list curve),
         is_attribute_data file_data cs -> cs <> [] ->
         plot_file name (Parsed file_data)
         = Ok (Some {| arg_time_points_list :=
                         map (fun c => time_values (boundary name c))
                             (firstn 2 cs);
                       arg_values_list :=
                         map (fun c =>
                                converted_values (snd (unit_rule name))
                                                 (boundary name c))
                             (firstn 2 cs);
                       arg_file_name := name;
                       arg_y_label := fst (unit_rule name) |}))
  /\ (forall name : string,
         PyStr.contains "speed" (PyStr.lower name) = true ->
         unit_rule name = ("Value (km/h)", kmh_factor))
  /\ (forall name : string,
         PyStr.contains "speed" (PyStr.lower name) = false ->
         PyStr.contains "weight" (PyStr.lower name) = true ->
         unit_rule name = ("Value (kg)", f_one))
  /\ (forall name : string,
         PyStr.contains "speed" (PyStr.lower name) = false ->
         PyStr.contains "weight" (PyStr.lower name) = false ->
         unit_rule name = ("Value", f_one))
  /\ (forall c : curve, converted_values f_one c = val_values c)
  /\ plot_file "Speed" (attribute_file (shape_A [speed_100]))
     = Ok (Some {| arg_time_points_list := [[VInt 0]];
                   arg_values_list :=
                     [[VFloat (PrimFloat.mul 0x1.9p+6 kmh_factor)]];
                   arg_file_name := "Speed";
                   arg_y_label := "Value (km/h)" |})
  /\ PrimFloat.mul 0x1.9p+6 kmh_factor = f_below_3_6.
Proof.
  split; [exact plot_curve_spec |].
  split; [exact plot_file_spec |].
  split; [intros name H; unfold unit_rule; rewrite H; reflexivity |].
  split; [intros name H1 H2; unfold unit_rule; rewrite H1, H2; reflexivity |].
  split; [intros name H1 H2; unfold unit_rule; rewrite H1, H2; reflexivity |].
  split; [exact converted_values_one |].
  split; vm_compute; reflexivity.
Qed.

Lemma C6_witness :
  plot_curve "Sprint Speed" (curve_value speed_100_curve)
  = Ok ([VFloat f_zero], [VFloat f_below_3_6], "Value (km/h)")
  /\ unit_rule "Sprint Speed" = ("Value (km/h)", kmh_factor)
  /\ unit_rule "Body Weight" = ("Value (kg)", f_one)
  /\ unit_rule "Stamina" = ("Value", f_one).
Proof.
  destruct C6_unit_rule_speed_first as (Hc & _ & Hs & Hw & Ho & _).
  split; [exact (Hc "Sprint Speed" _ _ (curve_value_ok speed_100_curve)) |].
  split; [exact (Hs "Sprint Speed" eq_refl) |].
  split; [exact (Hw "Body Weight" eq_refl eq_refl) |].
  exact (Ho "Stamina" eq_refl eq_refl).
Defined.

(** C7.  A single curve gives the same curve set in either shape: a record
    whose [FloatCurves] is the list of that one curve, and a record
    without [FloatCurves] whose [Properties] holds the curve under
    [FloatCurve], both resolve to the one-item list of the curve, whatever
    else the records hold and whichever of the two resolutions of the
    program is used.  Shape (A) is tried first: a record that has both
    gives its [FloatCurves]. *)
Theorem C7_both_shapes_one_curve_set :
  (forall c : value,
      float_curves_or (shape_A [c]) = Ok (VList [c])
      /\ float_curves_or (shape_B c) = Ok (VList [c])
      /\ float_curves_in (shape_A [c]) = Ok (VList [c])
      /\ float_curves_in (shape_B c) = Ok (VList [c]))
  /\ (forall (dA dB p : list (string * value)) (c : value),
         lookup "FloatCurves" dA = Some (VList [c]) ->
         lookup "FloatCurves" dB = None ->
         lookup "Properties" dB = Some (VDict p) ->
         lookup "FloatCurve" p = Some c ->
         float_curves_or (VDict dA) = Ok (VList [c])
         /\ float_curves_or (VDict dB) = float_curves_or (VDict dA)
         /\ float_curves_in (VDict dB) = float_curves_in (VDict dA))
  /\ (forall c c' : value,
         float_curves_or
           (VDict [("FloatCurves", VList [c]);
                   ("Properties", VDict [("FloatCurve", c')])])
         = Ok (VList [c])).
Proof.
  split; [intros c; repeat split; reflexivity |].
  split; [| intros c c'; reflexivity].
  intros dA dB p c HA HB Hp Hc.
  destruct (@shape_A_both dA (VList [c]) HA eq_refl) as [A1 A2].
  destruct (@shape_B_both dB p c HB Hp Hc) as [B1 B2].
  rewrite A1, A2, B1, B2. repeat split; reflexivity.
Qed.

Lemma C7_witness :
  float_curves_or
    (VDict [("Type", VStr "CurveFloat");
            ("Properties", VDict [("FloatCurve", straight)])])
  = float_curves_or
      (VDict [("Name", VStr "Stamina"); ("FloatCurves", VList [straight])]).
Proof.
  exact (proj1 (proj2 (proj1 (proj2 C7_both_shapes_one_curve_set)
                         [("Name", VStr "Stamina");
                          ("FloatCurves", VList [straight])]
                         [("Type", VStr "CurveFloat");
                          ("Properties", VDict [("FloatCurve", straight)])]
                         [("FloatCurve", straight)] straight
                         eq_refl eq_refl eq_refl eq_refl))).
Defined.

(** C8, the code at the failing input: on the file
    [[{"FloatCurves": [], "Properties": null}]] the classifier ends with an
    [AttributeError], which its [except] clause does not name, and so does
    the filter of [update_json_files] around it; the same happens on the
    file [[1]]. *)
Theorem C8_attribute_error_escapes :
  is_linear_or_flat (attribute_file empty_curves_null_properties)
  = Raise AttributeError
  /\ attribute_listed (attribute_file empty_curves_null_properties)
     = Raise AttributeError
  /\ is_linear_or_flat (Parsed (VList [VInt 1])) = Raise AttributeError.
Proof. repeat split; vm_compute; reflexivity. Qed.

(** C9.  Plotting and derivation read the first two curves of a curve set
    and nothing after them: the curves an entry gets, the entries stored,
    and the call of [plot_data] are the same, exceptions included, as when
    the curve set is cut to its first two curves, so that no later curve
    can cause an error; and whenever they succeed, the curves of every
    stored entry and the two lists given to [plot_data] have at most two
    items.  The same holds of the whole methods on shape (A) files. *)
Theorem C9_only_the_first_two_curves :
  (forall (cs : list value) (damage_value : value),
      new_curves (VList cs) damage_value
      = new_curves (VList (firstn 2 cs)) damage_value)
  /\ (forall (cs : list value) (attrs : list (string * value))
             (vfd : virtual_files),
         store_attacks (VList cs) attrs vfd
         = store_attacks (VList (firstn 2 cs)) attrs vfd)
  /\ (forall (balance : file) (cs : list value) (vfd : virtual_files),
         generate_virtual_attack_files balance (attribute_file (shape_A cs))
                                       vfd
         = generate_virtual_attack_files
             balance (attribute_file (shape_A (firstn 2 cs))) vfd)
  /\ (forall (cs : list value) (attrs : list (string * value))
             (name : string) (e : virtual_entry),
         lookup name (fst (store_attacks (VList cs) attrs [])) = Some e ->
         List.length (curves e) <= 2)
  /\ (forall (name : string) (cs : list value),
         plot_float_curves name (VList cs)
         = plot_float_curves name (VList (firstn 2 cs)))
  /\ (forall (name : string) (cs : list value),
         plot_file name (attribute_file (shape_A cs))
         = plot_file name (attribute_file (shape_A (firstn 2 cs))))
  /\ (forall (name : string) (cs : list value) (call : plot_call),
         plot_float_curves name (VList cs) = Ok (Some call) ->
         List.length (arg_time_points_list call) <= 2
         /\ List.length (arg_values_list call) <= 2).
Proof.
  split; [exact new_curves_first_two |].
  split; [exact store_attacks_first_two |].
  split.
  { intros balance cs vfd. unfold generate_virtual_attack_files.
    cbn [get_json_data attribute_file truthy negb orb].
    destruct (negb (truthy (get_json_data balance))); [reflexivity |].
    cbn [orb]. change (attack_power_curves (VList [shape_A cs]))
      with (Ok (A:=value) (VList cs)).
    change (attack_power_curves (VList [shape_A (firstn 2 cs)]))
      with (Ok (A:=value) (VList (firstn 2 cs))).
    cbn [bind try_except].
    destruct (damage_attributes (get_json_data balance)); [| reflexivity].
    apply store_attacks_first_two. }
  split.
  { intros cs attrs name e H.
    destruct (store_attacks_short cs attrs [] name H) as [H' | H'];
      [discriminate | exact H']. }
  split; [exact plot_float_curves_first_two |].
  split; [| exact plot_float_curves_length].
  intros name cs. destruct cs as [| a [| b cs]]; reflexivity.
Qed.

Lemma C9_witness :
  plot_float_curves "Stamina" (VList three_curves)
  = plot_float_curves "Stamina" (VList [straight; bent])
  /\ List.length
       (arg_time_points_list
          {| arg_time_points_list :=
               [[VInt 0; VFloat f_half; VInt 1]; [VInt 0; VFloat f_half; VInt 1]];
             arg_values_list :=
               [[VFloat f_zero; VFloat f_one; VFloat 0x1p+1];
                [VFloat f_zero; VFloat f_one; VFloat 0x1p+2]];
             arg_file_name := "Stamina";
             arg_y_label := "Value" |}) <= 2.
Proof.
  destruct C9_only_the_first_two_curves as (_ & _ & _ & _ & Hp & _ & Hl).
  split; [exact (Hp "Stamina" three_curves) |].
  refine (proj1 (Hl "Stamina" three_curves _ _)).
  vm_compute. reflexivity.
Defined.

(** C10, the code at the failing input.  The classifier and the plotter
    resolve the curves of a record with [x or [...]], the generator with
    tests on the presence of the keys.  On the record
    [{"FloatCurves": []}] the former fall back to [Properties] and
    resolve the list [[None]], while the generator takes the empty list
    that the key holds; with a curve under [Properties.FloatCurve]
    beside the empty list, the former resolve that curve and the latter
    still nothing.  So an AttackPower file of that kind, with the bent
    curve, is listed and is plotted with its curve, while every attack
    that the generator derives from it has no curve at all. *)
Theorem C10_empty_FloatCurves_diverge :
  float_curves_or empty_curves = Ok (VList [VNone])
  /\ float_curves_in empty_curves = Ok (VList [])
  /\ float_curves_or empty_curves_and_B = Ok (VList [straight])
  /\ float_curves_in empty_curves_and_B = Ok (VList [])
  /\ float_curves_or empty_curves <> float_curves_in empty_curves
  /\ attribute_listed (attribute_file MoreExamples.empty_curves_and_bent)
     = Ok true
  /\ plot_file "AttackPower"
               (attribute_file MoreExamples.empty_curves_and_bent)
     = Ok (Some {| arg_time_points_list := [[VInt 0; VFloat f_half; VInt 1]];
                   arg_values_list :=
                     [[VFloat f_zero; VFloat f_one; VFloat 0x1p+2]];
                   arg_file_name := "AttackPower";
                   arg_y_label := "Value" |})
  /\ generate_virtual_attack_files
       (balance_file bite_table)
       (attribute_file MoreExamples.empty_curves_and_bent) []
     = ([("Bite Attack",
          {| curves := []; y_label := "Damage";
             title_name := "Bite Attack" |})],
        Ok tt).
Proof.
  repeat split; try (vm_compute; reflexivity). vm_compute. discriminate.
Qed.

(** X26.  The classifier and the plotter resolve the curves of a record
    with one and the same expression, and the generator with a test on
    the presence of the keys.  The three resolve the same curve set
    exactly on the records that are objects whose [FloatCurves] is present
    with a value that is true, or absent with [Properties] an object that
    holds [FloatCurve]; on any other record, the one whose [FloatCurves] is
    an empty list among them, the generator departs from the other two. *)
Theorem X26_resolutions_meet_on_agreeing_records :
  forall record : value,
    float_curves_in record = float_curves_or record
    <-> exists d, record = VDict d /\ agreeing_record d.
Proof.
  intros record.
  assert (Hother : forall v : value,
             (forall d, v <> VDict d) ->
             float_curves_or v = Raise AttributeError
             /\ float_curves_in v <> Raise AttributeError).
  { intros v Hv. destruct v as [| b | z | f | s | l | d];
      try (split; [reflexivity | discriminate]).
    - split; [reflexivity |]. unfold float_curves_in. cbn [contains bind].
      destruct (PyStr.contains "FloatCurves" s); [discriminate |].
      destruct (PyStr.contains "Properties" s); discriminate.
    - split; [reflexivity |]. unfold float_curves_in. cbn [contains bind].
      destruct (existsb _ l); [discriminate |].
      destruct (existsb _ l); discriminate.
    - exfalso. exact (Hv d eq_refl). }
  destruct record as [| b | z | f | s | l | d];
    try (split;
         [ intros H;
           match type of H with
           | float_curves_in ?v = _ =>
               destruct (Hother v ltac:(discriminate)) as [Ho Hi];
               rewrite Ho in H; contradiction
           end
         | intros (d & E & _); discriminate ]).
  unfold agreeing_record. split.
  - intros H. exists d. split; [reflexivity |]. revert H.
    unfold float_curves_in, float_curves_or.
    cbn [contains get getitem_key]. unfold has_key.
    destruct (lookup "FloatCurves" d) as [a |] eqn:Ha; cbn [bind].
    + destruct (truthy a) eqn:Ht; [intros _; left; exists a; tauto |].
      destruct (lookup "Properties" d) as [props |]; cbn [bind].
      * destruct props; cbn [get bind]; try discriminate.
        destruct (lookup "FloatCurve" d0); cbn [bind];
          intros H; inversion H; subst a; discriminate.
      * cbn [get lookup bind]. intros H; inversion H; subst a; discriminate.
    + intros H. right. split; [reflexivity |].
      destruct (lookup "Properties" d) as [props |]; cbn [bind] in H.
      * destruct props as [| b | z | f | s | l | p];
          cbn [get contains getitem_key bind] in H; try discriminate.
        -- destruct (PyStr.contains "FloatCurve" s); discriminate.
        -- destruct (existsb _ l); discriminate.
        -- exists p. unfold has_key in H.
           destruct (lookup "FloatCurve" p) as [c |]; [exists c; tauto |].
           discriminate.
      * cbn [get lookup bind] in H. discriminate.
  - intros (d' & E & [(a & Ha & Ht) | (Ha & p & c & Hp & Hc)]);
      inversion E; subst d'.
    + destruct (shape_A_both d Ha Ht) as [H1 H2]. rewrite H1, H2. reflexivity.
    + destruct (@shape_B_both d p c Ha Hp Hc) as [H1 H2].
      rewrite H1, H2. reflexivity.
Qed.

Lemma X26_witness :
  float_curves_in (shape_B straight) = float_curves_or (shape_B straight)
  /\ ~ agreeing_record [("FloatCurves", VList [])].
Proof.
  split.
  - apply (proj2 (X26_resolutions_meet_on_agreeing_records
                    (shape_B straight))).
    eexists. split; [reflexivity |].
    right. split; [reflexivity |]. eexists. eexists. split; reflexivity.
  - intros H.
    assert (E : float_curves_in empty_curves = float_curves_or empty_curves).
    { apply (proj2 (X26_resolutions_meet_on_agreeing_records empty_curves)).
      eexists. split; [reflexivity | exact H]. }
    vm_compute in E. discriminate.
Defined.

(** X1.  What the classifier does recover from: it answers [True] when the
    file is missing, when its text is not JSON and when the parsed value
    is false (null, an empty array, an empty object, zero), and it never
    ends with a [KeyError], an [IndexError] or a [TypeError]. *)
Theorem X1_classifier_recovers :
  is_linear_or_flat Missing = Ok true
  /\ is_linear_or_flat Invalid = Ok true
  /\ (forall v : value,
         truthy v = false -> is_linear_or_flat (Parsed v) = Ok true)
  /\ (forall (f : file) (e : exn),
         is_linear_or_flat f = Raise e ->
         e <> KeyError /\ e <> IndexError /\ e <> TypeError).
Proof.
  split; [reflexivity | split; [reflexivity | split]].
  - intros v H. unfold is_linear_or_flat. cbn [get_json_data]. rewrite H.
    reflexivity.
  - intros f e. unfold is_linear_or_flat.
    destruct (negb (truthy (get_json_data f))); [discriminate |].
    destruct (is_linear_or_flat_body (get_json_data f)) as [b | e'];
      [discriminate |].
    destruct e'; cbn; intros H; inversion H; repeat split; discriminate.
Qed.

Lemma X1_witness :
  is_linear_or_flat (Parsed (VList [])) = Ok true
  /\ AttributeError <> TypeError.
Proof.
  destruct X1_classifier_recovers as (_ & _ & Hv & He).
  split; [exact (Hv (VList []) eq_refl) |].
  exact (proj2 (proj2 (He (Parsed (VList [VInt 1])) AttributeError eq_refl))).
Defined.

(** X2.  [generate_virtual_attack_files] reads the two files, the
    balance file first, before it looks at either.  When both readings
    return and a file is missing or is not JSON, and when the AttackPower
    record has neither [FloatCurves] nor [Properties], nothing is stored
    and no exception is raised.  When a reading raises an exception that
    [get_json_data] does not catch, that exception gets out with nothing
    stored, and the one of the second file also when the first file is
    missing. *)
Theorem X2_generation_skipped (X : Type) :
  (forall (other : file) (vfd : virtual_files),
      Reading.generate_virtual_attack_files
        (Reading.Gives Missing) (Reading.Gives other) vfd
      = (vfd, @Reading.Ends X unit (Ok tt))
      /\ Reading.generate_virtual_attack_files
           (Reading.Gives Invalid) (Reading.Gives other) vfd
         = (vfd, @Reading.Ends X unit (Ok tt))
      /\ Reading.generate_virtual_attack_files
           (Reading.Gives other) (Reading.Gives Missing) vfd
         = (vfd, @Reading.Ends X unit (Ok tt))
      /\ Reading.generate_virtual_attack_files
           (Reading.Gives other) (Reading.Gives Invalid) vfd
         = (vfd, @Reading.Ends X unit (Ok tt)))
  /\ (forall (balance : file) (d : list (string * value))
             (vfd : virtual_files),
         lookup "FloatCurves" d = None ->
         lookup "Properties" d = None ->
         Reading.generate_virtual_attack_files
           (Reading.Gives balance)
           (Reading.Gives (Parsed (VList [VDict d]))) vfd
         = (vfd, @Reading.Ends X unit (Ok tt)))
  /\ (forall (balance : file) (x : X) (vfd : virtual_files),
         Reading.generate_virtual_attack_files
           (Reading.Gives balance) (Reading.Fails x) vfd
         = (vfd, Reading.ReadFails x))
  /\ (forall (attack_power : Reading.reading X) (x : X)
             (vfd : virtual_files),
         Reading.generate_virtual_attack_files
           (Reading.Fails x) attack_power vfd
         = (vfd, Reading.ReadFails x)).
Proof.
  split; [| split; [| split]].
  - intros other vfd. unfold Reading.generate_virtual_attack_files.
    unfold generate_virtual_attack_files.
    cbn [get_json_data truthy negb orb]. rewrite orb_true_r.
    repeat split; reflexivity.
  - intros balance d vfd Ha Hp.
    unfold Reading.generate_virtual_attack_files.
    unfold generate_virtual_attack_files.
    destruct (negb (truthy (get_json_data balance))
              || negb (truthy (get_json_data (Parsed (VList [VDict d])))));
      [reflexivity |].
    cbn [get_json_data]. unfold attack_power_curves.
    cbn [getitem_int]. rewrite list_getitem_0. cbn [bind].
    unfold float_curves_in. cbn [contains]. unfold has_key.
    rewrite Ha, Hp. reflexivity.
  - intros balance x vfd. reflexivity.
  - intros attack_power x vfd. reflexivity.
Qed.

Lemma X2_witness :
  Reading.generate_virtual_attack_files
    (Reading.Gives (balance_file bite_table))
    (Reading.Gives (Parsed (VList [VDict [("Type", VStr "CurveTable")]]))) []
  = ([], @Reading.Ends string unit (Ok tt))
  /\ Reading.generate_virtual_attack_files
       (Reading.Gives Missing) MoreExamples.undecodable []
     = ([], Reading.ReadFails "UnicodeDecodeError").
Proof.
  destruct (X2_generation_skipped string) as (_ & Hshape & Hsecond & _).
  split.
  - exact (Hshape (balance_file bite_table)
                  [("Type", VStr "CurveTable")] [] eq_refl eq_refl).
  - exact (Hsecond Missing "UnicodeDecodeError" []).
Defined.

End Claims.

(* ===================================================================== *)
(** ** Loops and what they keep *)
(* ===================================================================== *)

Section Loops.
Import PyExc PyVal.
Local Open Scope py_scope.

(** A property that every pass keeps holds when the loop ends. *)
Lemma for_each_invariant {X S : Type} (body : S -> X -> result S)
      (P : S -> Prop) (xs : list X) :
  (forall s x s', In x xs -> P s -> body s x = Ok s' -> P s') ->
  forall s s', P s -> for_each body xs s = Ok s' -> P s'.
Proof.
  induction xs as [| x xs IH]; intros Hstep s s' Hs Hrun; cbn in Hrun.
  - inversion Hrun; subst; exact Hs.
  - destruct (body s x) as [s1 |] eqn:E; cbn in Hrun; [| discriminate].
    apply IH with (s := s1); auto.
    + intros; eapply Hstep; eauto; right; assumption.
    + eapply Hstep; eauto; left; reflexivity.
Qed.

Lemma comprehension_length {X Y : Type} (f : X -> result Y) (xs : list X) :
  forall ys, comprehension f xs = Ok ys -> List.length ys = List.length xs.
Proof.
  induction xs as [| x xs IH]; intros ys H; cbn in H.
  - inversion H; reflexivity.
  - destruct (f x); cbn in H; [| discriminate].
    destruct (comprehension f xs); cbn in H; [| discriminate].
    inversion H; subst; cbn; f_equal; apply IH; reflexivity.
Qed.

(** A loop whose passes skip the items that a test rejects runs the same
    over the items that pass it. *)
Lemma for_each_filter {X S : Type} (body : S -> X -> result S)
      (keep : X -> bool) (xs : list X) :
  (forall s x, keep x = false -> body s x = Ok s) ->
  forall s, for_each body xs s = for_each body (filter keep xs) s.
Proof.
  intros Hskip; induction xs as [| x xs IH]; intros s; cbn; [reflexivity |].
  destruct (keep x) eqn:K; cbn.
  - destruct (body s x); cbn; [apply IH | reflexivity].
  - rewrite (Hskip s x K); cbn; apply IH.
Qed.

End Loops.

(* ===================================================================== *)
(** ** What the generator stores *)
(* ===================================================================== *)

Section Stored.
Import PyExc PyVal Reader Window Invariants.
Local Open Scope string_scope.
Local Open Scope list_scope.
Local Open Scope py_scope.

Lemma scaled_curve_step_keeps (damage_value : value) (acc out : series)
      (key : value) :
  balanced acc /\ after_zero acc ->
  scaled_curve_step damage_value acc key = Ok out ->
  balanced out /\ after_zero out.
Proof.
  intros [Hb Hz] H; unfold scaled_curve_step in H.
  destruct (getitem_key key "Time") as [t |] eqn:Et; cbn in H; [| discriminate].
  destruct (gt_num t (PyNum.Float f_zero)) as [keep |] eqn:Eg; cbn in H;
    [| discriminate].
  destruct keep.
  - destruct (getitem_key key "Value") as [v |]; cbn in H; [| discriminate].
    destruct (mul v damage_value) as [w |]; cbn in H; [| discriminate].
    inversion H; subst; unfold balanced, after_zero in *; cbn; split.
    + rewrite !length_app; cbn; lia.
    + apply Forall_app; split; [exact Hz | constructor; [exact Eg | constructor]].
  - inversion H; subst; split; assumption.
Qed.

Lemma scaled_curve_keeps (curve damage_value : value) (s : series) :
  scaled_curve curve damage_value = Ok s -> balanced s /\ after_zero s.
Proof.
  unfold scaled_curve; intros H.
  destruct (getitem_key curve "Keys") as [keys |]; cbn in H; [| discriminate].
  destruct (iter keys) as [ks |]; cbn in H; [| discriminate].
  revert H;
    apply (@for_each_invariant _ _ _ (fun s => balanced s /\ after_zero s)).
  - intros acc key out _ Hacc Hstep.
    exact (@scaled_curve_step_keeps _ acc out key Hacc Hstep).
  - split; [reflexivity | constructor].
Qed.

Lemma new_curves_keep (ap_curves damage_value : value) (l : list series) :
  new_curves ap_curves damage_value = Ok l ->
  List.length l <= 2 /\ Forall balanced l /\ Forall after_zero l.
Proof.
  unfold new_curves; intros H.
  destruct (slice_to_2 ap_curves) as [two |] eqn:E2; cbn in H; [| discriminate].
  destruct (iter two) as [cs |] eqn:Ei; cbn in H; [| discriminate].
  assert (Hcs : List.length cs <= 2).
  { destruct ap_curves as [| | | | s | l0 |]; try discriminate;
      unfold slice_to_2 in E2; inversion E2; subst two;
      unfold iter in Ei; inversion Ei; subst cs.
    - rewrite length_map.
      destruct s as [| a [| b [| c s]]]; cbn; lia.
    - destruct l0 as [| a [| b l0]]; cbn; lia. }
  split.
  - pose proof (@new_curves_steps_length damage_value cs [] l H) as Hl.
    cbn in Hl; lia.
  - revert H.
    apply (@for_each_invariant _ _ _
             (fun l => Forall balanced l /\ Forall after_zero l)).
    + intros acc c out _ [Hb Hz] Hstep; unfold new_curves_step in Hstep.
      destruct (scaled_curve c damage_value) as [s |] eqn:Es; cbn in Hstep;
        [| discriminate].
      inversion Hstep; subst.
      destruct (@scaled_curve_keeps c damage_value s Es) as [Hb' Hz'].
      split; apply Forall_app; split; auto.
    + split; constructor.
Qed.

(** The entries that [store_attacks] leaves: the ones it found, and the
    ones of the keys it went through. *)
Lemma store_attacks_entries (ap_curves : value)
      (attrs : list (string * value)) :
  forall (vfd : virtual_files) (name : string) (e : virtual_entry),
    lookup name (fst (store_attacks ap_curves attrs vfd)) = Some e ->
    lookup name vfd = Some e
    \/ (entry_ok name e
        /\ exists k, In k (map fst attrs) /\ name = display_name k).
Proof.
  induction attrs as [| [k dv] attrs IH]; intros vfd name e H; cbn in H.
  - left; exact H.
  - destruct (new_curves ap_curves dv) as [cs |] eqn:En; cbn in H.
    + apply IH in H; destruct H as [H | [Hok [k' [Hin Hk']]]].
      * rewrite lookup_dict_set in H.
        destruct (String.eqb name (display_name k)) eqn:Ek.
        -- apply String.eqb_eq in Ek; inversion H; subst e.
           right; split.
           ++ destruct (@new_curves_keep ap_curves dv cs En) as [Hl [Hb Hz]].
              unfold entry_ok; cbn; repeat split; auto.
           ++ exists k; split; [left; reflexivity | exact Ek].
        -- left; exact H.
      * right; split; [exact Hok |].
        exists k'; split; [right; exact Hin | exact Hk'].
    + left; exact H.
Qed.

(** The keys that the dict comprehension of line 384 keeps start with
    [Damage.]. *)
Lemma damage_attributes_step_keys (acc out : list (string * value))
      (kv : string * value) :
  Forall (fun k => PyStr.startswith "Damage." k = true) (map fst acc) ->
  damage_attributes_step acc kv = Ok out ->
  Forall (fun k => PyStr.startswith "Damage." k = true) (map fst out).
Proof.
  intros Hacc H; destruct kv as [k v]; unfold damage_attributes_step in H.
  destruct (PyStr.startswith "Damage." k) eqn:Ek.
  - destruct (getitem_key v "AttributePercentageValues") as [p |]; cbn in H;
      [| discriminate].
    destruct (ne p (VInt 0)); inversion H; subst; [| exact Hacc].
    clear H; induction acc as [| [k' a'] acc IH]; cbn.
    + constructor; [exact Ek | constructor].
    + inversion Hacc; subst.
      destruct (String.eqb k k'); cbn; constructor; auto.
  - inversion H; subst; exact Hacc.
Qed.

Lemma damage_attributes_keys (balance_data : value)
      (attrs : list (string * value)) :
  damage_attributes balance_data = Ok attrs ->
  Forall (fun k => PyStr.startswith "Damage." k = true) (map fst attrs).
Proof.
  unfold damage_attributes; intros H.
  destruct (getitem_int balance_data 0) as [record |]; cbn in H;
    [| discriminate].
  destruct (getitem_key record "Rows") as [rows |]; cbn in H; [| discriminate].
  destruct (items rows) as [its |]; cbn in H; [| discriminate].
  revert H;
    apply (@for_each_invariant _ _ _
             (fun acc =>
                Forall (fun k => PyStr.startswith "Damage." k = true)
                       (map fst acc))).
  - intros acc kv out _ Hacc Hstep.
    exact (@damage_attributes_step_keys acc out kv Hacc Hstep).
  - constructor.
Qed.

Lemma generated_entries (balance attack_power : file) (vfd : virtual_files)
      (name : string) (e : virtual_entry) :
  lookup name
         (fst (generate_virtual_attack_files balance attack_power vfd))
  = Some e ->
  lookup name vfd = Some e
  \/ (entry_ok name e
      /\ exists k, PyStr.startswith "Damage." k = true
                   /\ name = display_name k).
Proof.
  unfold generate_virtual_attack_files; intros H.
  destruct (negb (truthy (get_json_data balance))
            || negb (truthy (get_json_data attack_power)));
    [left; exact H |].
  destruct (try_except _ _ _) as [[ap_curves |] |]; try (left; exact H).
  destruct (damage_attributes (get_json_data balance)) as [attrs |] eqn:Ed;
    [| left; exact H].
  apply store_attacks_entries in H.
  destruct H as [H | [Hok [k [Hin Hk]]]]; [left; exact H |].
  right; split; [exact Hok |].
  exists k; split; [| exact Hk].
  pose proof (@damage_attributes_keys _ attrs Ed) as Hall.
  rewrite Forall_forall in Hall; apply Hall; exact Hin.
Qed.

(** The rows that do not start with [Damage.] are not looked into. *)
Lemma damage_attributes_filter (rows : list (string * value)) :
  forall acc,
    for_each damage_attributes_step rows acc
    = for_each damage_attributes_step (filter is_damage_row rows) acc.
Proof.
  apply for_each_filter.
  intros s [k v] Hk; unfold is_damage_row in Hk; cbn [fst] in Hk.
  unfold damage_attributes_step; rewrite Hk; reflexivity.
Qed.

End Stored.

(* ===================================================================== *)
(** ** The exceptions that get out *)
(* ===================================================================== *)

Section Escapes.
Import PyExc PyVal Reader Invariants.
Local Open Scope string_scope.
Local Open Scope list_scope.
Local Open Scope py_scope.

Variable allowed : list exn.

Lemma raises_only_ok {A : Type} (a : A) : raises_only allowed (Ok a).
Proof. intros e H; discriminate. Qed.

Lemma raises_only_raise {A : Type} (e : exn) :
  In e allowed -> raises_only allowed (@Raise A e).
Proof. intros H e' E; inversion E; subst; exact H. Qed.

Lemma raises_only_retype {A B : Type} (e : exn) :
  raises_only allowed (@Raise A e) -> raises_only allowed (@Raise B e).
Proof. intros H e' E; inversion E; subst; apply H; reflexivity. Qed.

Lemma raises_only_bind {A B : Type} (r : result A) (k : A -> result B) :
  raises_only allowed r ->
  (forall a, r = Ok a -> raises_only allowed (k a)) ->
  raises_only allowed (bind r k).
Proof.
  intros Hr Hk e H; destruct r as [a | e']; cbn in H.
  - exact (Hk a eq_refl e H).
  - inversion H; subst; apply Hr; reflexivity.
Qed.

Lemma raises_only_for_each {X S : Type} (body : S -> X -> result S)
      (xs : list X) :
  (forall s x, In x xs -> raises_only allowed (body s x)) ->
  forall s, raises_only allowed (for_each body xs s).
Proof.
  induction xs as [| x xs IH]; intros Hb s; cbn.
  - apply raises_only_ok.
  - apply raises_only_bind.
    + apply Hb; left; reflexivity.
    + intros s1 _; apply IH; intros; apply Hb; right; assumption.
Qed.

Lemma raises_only_comprehension {X Y : Type} (f : X -> result Y)
      (xs : list X) :
  (forall x, In x xs -> raises_only allowed (f x)) ->
  raises_only allowed (comprehension f xs).
Proof.
  induction xs as [| x xs IH]; intros Hf; cbn.
  - apply raises_only_ok.
  - apply raises_only_bind; [apply Hf; left; reflexivity |].
    intros y _; apply raises_only_bind.
    + apply IH; intros; apply Hf; right; assumption.
    + intros; apply raises_only_ok.
Qed.

Hypothesis key_error : In KeyError allowed.
Hypothesis type_error : In TypeError allowed.
Hypothesis attribute_error : In AttributeError allowed.
Hypothesis overflow_error : In OverflowError allowed.

Lemma raises_only_getitem_key (v : value) (k : string) :
  raises_only allowed (getitem_key v k).
Proof.
  intros e H; destruct v; cbn in H; try (inversion H; subst; assumption).
  destruct (lookup k d); inversion H; subst; assumption.
Qed.

Lemma raises_only_get (v : value) (k : string) (d : value) :
  raises_only allowed (get v k d).
Proof.
  intros e H; destruct v; cbn in H; try (inversion H; subst; assumption).
  destruct (lookup k d0); inversion H.
Qed.

Lemma raises_only_iter (v : value) : raises_only allowed (iter v).
Proof.
  intros e H; destruct v; cbn in H; inversion H; subst; assumption.
Qed.

Lemma raises_only_items (v : value) : raises_only allowed (items v).
Proof.
  intros e H; destruct v; cbn in H; inversion H; subst; assumption.
Qed.

Lemma raises_only_slice (v : value) : raises_only allowed (slice_to_2 v).
Proof.
  intros e H; destruct v; cbn in H; inversion H; subst; assumption.
Qed.

Lemma raises_only_contains (k : string) (v : value) :
  raises_only allowed (contains k v).
Proof.
  intros e H; destruct v; cbn in H; inversion H; subst; assumption.
Qed.

Lemma raises_only_lt_num (v : value) (c : PyNum.num) :
  raises_only allowed (lt_num v c).
Proof.
  intros e H; unfold lt_num in H; destruct (as_num v); inversion H; subst;
    assumption.
Qed.

Lemma raises_only_gt_num (v : value) (c : PyNum.num) :
  raises_only allowed (gt_num v c).
Proof.
  intros e H; unfold gt_num in H; destruct (as_num v); inversion H; subst;
    assumption.
Qed.

Lemma raises_only_to_float (a : PyNum.num) :
  raises_only allowed (PyNum.to_float a).
Proof.
  intros e H; destruct a as [z | f]; cbn in H; [| discriminate].
  unfold PyNum.float_of_int in H.
  destruct (PyNum.nearest_binary64 (Z.abs z) 1); inversion H; subst;
    assumption.
Qed.

Lemma raises_only_num_mul (a b : PyNum.num) :
  raises_only allowed (PyNum.mul a b).
Proof.
  assert (G : raises_only allowed
                (x <- PyNum.to_float a ;; y <- PyNum.to_float b ;;
                 Ok (PyNum.Float (PrimFloat.mul x y)))).
  { apply raises_only_bind; [apply raises_only_to_float |].
    intros x _; apply raises_only_bind; [apply raises_only_to_float |].
    intros; apply raises_only_ok. }
  destruct a, b; try exact G.
  apply raises_only_ok.
Qed.

Lemma raises_only_repeat_seq (s : value) (n : Z) :
  raises_only allowed (repeat_seq s n).
Proof.
  unfold repeat_seq; apply raises_only_bind.
  - intros e H; unfold repeat_count in H.
    destruct (_ || _)%bool; inversion H; subst; assumption.
  - intros c _ e H; destruct s; inversion H; subst; assumption.
Qed.

Lemma raises_only_mul (a b : value) : raises_only allowed (mul a b).
Proof.
  destruct a, b; unfold mul; cbn [as_num int_like];
    first [ apply raises_only_raise; assumption
          | apply raises_only_repeat_seq
          | apply raises_only_bind;
            [apply raises_only_num_mul | intros; apply raises_only_ok] ].
Qed.

(** An index that is in range gives the item. *)
Lemma list_getitem_last_ok {A : Type} (l : list A) :
  l <> [] -> exists a, list_getitem l (-1) = Ok a.
Proof.
  intros Hl; destruct l as [| x l] using rev_ind; [contradiction |].
  exists x; apply list_getitem_last.
Qed.

Lemma getitem_int_0_truthy (v : value) :
  truthy v = true ->
  raises_only allowed (getitem_int v 0).
Proof.
  intros Ht e H; destruct v; cbn in H; try (inversion H; subst; assumption).
  - destruct s as [| c s]; [discriminate |].
    cbn [PyStr.chars] in H; rewrite list_getitem_0 in H; discriminate.
  - destruct l as [| x l]; [discriminate |].
    rewrite list_getitem_0 in H; discriminate.
Qed.

End Escapes.

(* ===================================================================== *)
(** ** What is handed to plot_data *)
(* ===================================================================== *)

Section Handed.
Import PyExc PyVal Reader Window Invariants.
Local Open Scope string_scope.
Local Open Scope list_scope.
Local Open Scope py_scope.

Lemma data_errors_key : In KeyError data_errors.
Proof. cbn; tauto. Qed.

Lemma data_errors_type : In TypeError data_errors.
Proof. cbn; tauto. Qed.

Lemma data_errors_attribute : In AttributeError data_errors.
Proof. cbn; tauto. Qed.

Lemma data_errors_overflow : In OverflowError data_errors.
Proof. cbn; tauto. Qed.

Lemma extend_to_one_lengths (name : string) (t v : list value) :
  List.length t = List.length v ->
  raises_only data_errors (extend_to_one name t v)
  /\ forall t' v', extend_to_one name t v = Ok (t', v') ->
                   List.length t' = List.length v'.
Proof.
  intros Hl; unfold extend_to_one.
  destruct (existsb _ _).
  - destruct t as [| t0 t1] eqn:Et.
    + split; [apply raises_only_ok |].
      intros t' v' H; inversion H; subst; exact Hl.
    + rewrite <- Et in *.
      assert (Ht : t <> []) by (rewrite Et; discriminate).
      assert (Hv : v <> []).
      { intros ->; rewrite Et in Hl; discriminate. }
      destruct (@list_getitem_last_ok _ _ Ht) as [final Hf].
      destruct (@list_getitem_last_ok _ _ Hv) as [last_value Hlast].
      rewrite Hf; cbn [bind].
      split.
      * apply raises_only_bind;
          [apply raises_only_lt_num; exact data_errors_type |].
        intros short _; destruct short; [| apply raises_only_ok].
        rewrite Hlast; apply raises_only_ok.
      * intros t' v' H.
        destruct (lt_num final (PyNum.Float f_one)) as [short |]; cbn in H;
          [| discriminate].
        destruct short.
        -- rewrite Hlast in H; cbn in H; inversion H; subst.
           rewrite !length_app; cbn [List.length] in *; lia.
        -- inversion H; subst; exact Hl.
  - split; [apply raises_only_ok |].
    intros t' v' H; inversion H; subst; exact Hl.
Qed.

Lemma plot_curve_lengths (name : string) (curve : value) :
  raises_only data_errors (plot_curve name curve)
  /\ forall t v l, plot_curve name curve = Ok (t, v, l) ->
                   List.length t = List.length v /\ l = fst (unit_rule name).
Proof.
  unfold plot_curve.
  pose proof (@raises_only_getitem_key data_errors data_errors_key
                data_errors_type curve "Keys") as Hk.
  destruct (getitem_key curve "Keys") as [keys | e] eqn:Ek; cbn [bind].
  2:{ split; [exact (raises_only_retype Hk) | intros; discriminate]. }
  pose proof (@raises_only_iter data_errors data_errors_type keys) as Hi.
  destruct (iter keys) as [ks | e] eqn:Ei; cbn [bind].
  2:{ split; [exact (raises_only_retype Hi) | intros; discriminate]. }
  pose proof (@raises_only_comprehension data_errors _ _
                (fun key => getitem_key key "Time") ks
                (fun x _ => @raises_only_getitem_key data_errors
                              data_errors_key data_errors_type x "Time"))
    as Ht.
  destruct (comprehension (fun key => getitem_key key "Time") ks)
    as [time_points | e] eqn:Et; cbn [bind].
  2:{ split; [exact (raises_only_retype Ht) | intros; discriminate]. }
  pose proof (@raises_only_comprehension data_errors _ _
                (fun key => getitem_key key "Value") ks
                (fun x _ => @raises_only_getitem_key data_errors
                              data_errors_key data_errors_type x "Value"))
    as Hv.
  destruct (comprehension (fun key => getitem_key key "Value") ks)
    as [values | e] eqn:Ev; cbn [bind].
  2:{ split; [exact (raises_only_retype Hv) | intros; discriminate]. }
  assert (Hl : List.length time_points = List.length values).
  { rewrite (@comprehension_length _ _ _ _ _ Et), (@comprehension_length _ _ _ _ _ Ev).
    reflexivity. }
  destruct (@extend_to_one_lengths name _ _ Hl) as [He Hl'].
  destruct (extend_to_one name time_points values) as [[t' v'] | e] eqn:Ee;
    cbn [bind].
  2:{ split; [exact (raises_only_retype He) | intros; discriminate]. }
  specialize (Hl' t' v' eq_refl).
  destruct (unit_rule name) as [label factor] eqn:Eu.
  pose proof (@raises_only_comprehension data_errors _ _
                (fun v => mul v (VFloat factor)) v'
                (fun x _ => @raises_only_mul data_errors data_errors_type
                              data_errors_overflow x (VFloat factor)))
    as Hm.
  destruct (comprehension (fun v => mul v (VFloat factor)) v')
    as [values' | e] eqn:Em; cbn [bind].
  2:{ split; [exact (raises_only_retype Hm) | intros; discriminate]. }
  split; [apply raises_only_ok |].
  intros t v l H; inversion H; subst.
  rewrite (@comprehension_length _ _ _ _ _ Em); split; [exact Hl' | reflexivity].
Qed.

Lemma Forall2_snoc {A B : Type} (R : A -> B -> Prop) (l : list A)
      (m : list B) (a : A) (b : B) :
  Forall2 R l m -> R a b -> Forall2 R (l ++ [a]) (m ++ [b]).
Proof.
  intros H Hab; apply Forall2_app; [exact H | constructor; [exact Hab | constructor]].
Qed.

Lemma plot_steps_keep (name : string) (cs : list value) :
  forall (some : bool) (acc : plot_locals),
    locals_ok name some acc ->
    raises_only data_errors (for_each (plot_step name) cs acc)
    /\ forall out, for_each (plot_step name) cs acc = Ok out ->
                   locals_ok name
                             (some || negb (Nat.eqb (List.length cs) 0)) out.
Proof.
  induction cs as [| c cs IH]; intros some acc Hacc; cbn [for_each].
  - split; [apply raises_only_ok |].
    intros out H; inversion H; subst; cbn; rewrite orb_false_r; exact Hacc.
  - destruct acc as [[tpl vl] bound]; destruct Hacc as [Hf Hb].
    unfold plot_step at 1 3.
    destruct (plot_curve_lengths name c) as [Hr Hc].
    destruct (plot_curve name c) as [[[t v] l] | e] eqn:Ec; cbn [bind].
    2:{ split; [exact (raises_only_retype Hr) | intros; discriminate]. }
    destruct (Hc t v l eq_refl) as [Hl ->].
    assert (Hnew : locals_ok name true
                     (tpl ++ [t], vl ++ [v], Some (fst (unit_rule name)))).
    { split; [apply Forall2_snoc; assumption |].
      intros _; split; [reflexivity |].
      destruct tpl; discriminate. }
    destruct (@IH true _ Hnew) as [Hr' Hout].
    split; [exact Hr' |].
    intros out H; specialize (Hout out H).
    cbn [List.length Nat.eqb negb]; rewrite orb_true_r.
    cbn [orb] in Hout; exact Hout.
Qed.

Lemma has_data_lists (tpl vl : list (list value)) (name label : string) :
  tpl <> [] -> List.length tpl = List.length vl ->
  has_data {| arg_time_points_list := tpl; arg_values_list := vl;
              arg_file_name := name; arg_y_label := label |} = true.
Proof.
  intros Ht Hl; unfold has_data; cbn.
  destruct tpl; [contradiction |]; destruct vl; [discriminate | reflexivity].
Qed.

Lemma plot_float_curves_ok (name : string) (float_curves : value) :
  raises_only data_errors (plot_float_curves name float_curves)
  /\ forall call, plot_float_curves name float_curves = Ok (Some call) ->
                  file_call_ok name call.
Proof.
  unfold plot_float_curves.
  destruct (truthy float_curves) eqn:Et; cbn [negb].
  2:{ split; [apply raises_only_ok | intros; discriminate]. }
  pose proof (@getitem_int_0_truthy data_errors data_errors_key
                data_errors_type float_curves Et) as H0.
  destruct (getitem_int float_curves 0) as [first | e] eqn:E0; cbn [bind].
  2:{ split; [exact (raises_only_retype H0) | intros; discriminate]. }
  destruct (truthy first) eqn:Ef; cbn [negb].
  2:{ split; [apply raises_only_ok | intros; discriminate]. }
  pose proof (@raises_only_slice data_errors data_errors_type float_curves)
    as H2.
  destruct (slice_to_2 float_curves) as [two | e] eqn:E2; cbn [bind].
  2:{ split; [exact (raises_only_retype H2) | intros; discriminate]. }
  pose proof (@raises_only_iter data_errors data_errors_type two) as Hi.
  destruct (iter two) as [cs | e] eqn:Ei; cbn [bind].
  2:{ split; [exact (raises_only_retype Hi) | intros; discriminate]. }
  assert (Hcs : 1 <= List.length cs <= 2).
  { destruct float_curves as [| | | | s | l |]; try discriminate;
      unfold slice_to_2 in E2; inversion E2; subst two;
      unfold iter in Ei; inversion Ei; subst cs.
    - rewrite length_map.
      destruct s as [| a [| b [| c s]]]; cbn; try lia; discriminate.
    - destruct l as [| a [| b l]]; cbn; try lia; discriminate. }
  assert (Hinit : locals_ok name false ([], [], None)).
  { split; [constructor | discriminate]. }
  destruct (@plot_steps_keep name cs false _ Hinit) as [Hr Hout].
  destruct (for_each (plot_step name) cs ([], [], None))
    as [[[tpl vl] bound] | e] eqn:Eloop; cbn [bind].
  2:{ split; [exact (raises_only_retype Hr) | intros; discriminate]. }
  specialize (Hout _ eq_refl).
  destruct (@plot_steps_length name cs _ _ Eloop) as [Hlt Hlv]; cbn in Hlt, Hlv.
  destruct Hout as [Hf Hb].
  assert (Hsome : false || negb (Nat.eqb (List.length cs) 0) = true).
  { destruct cs; cbn in *; [lia | reflexivity]. }
  destruct (Hb Hsome) as [-> Hne].
  split; [apply raises_only_ok |].
  intros call H; inversion H; subst call; unfold file_call_ok; cbn.
  repeat split; try assumption; try reflexivity; try lia.
  apply has_data_lists; [exact Hne | lia].
Qed.

Lemma plot_file_ok (name : string) (f : file) :
  raises_only data_errors (plot_file name f)
  /\ forall call, plot_file name f = Ok (Some call) ->
                  file_call_ok name call.
Proof.
  unfold plot_file.
  destruct (truthy (get_json_data f)) eqn:Et; cbn [negb].
  2:{ split; [apply raises_only_ok | intros; discriminate]. }
  pose proof (@getitem_int_0_truthy data_errors data_errors_key
                data_errors_type _ Et) as H0.
  destruct (getitem_int (get_json_data f) 0) as [record | e] eqn:E0;
    cbn [bind].
  2:{ split; [exact (raises_only_retype H0) | intros; discriminate]. }
  assert (Hfc : raises_only data_errors (float_curves_or record)).
  { unfold float_curves_or.
    apply raises_only_bind;
      [apply raises_only_get; exact data_errors_attribute |].
    intros a _; destruct (truthy a); [apply raises_only_ok |].
    apply raises_only_bind;
      [apply raises_only_get; exact data_errors_attribute |].
    intros p _; apply raises_only_bind;
      [apply raises_only_get; exact data_errors_attribute |].
    intros; apply raises_only_ok. }
  destruct (float_curves_or record) as [fc | e] eqn:Efc; cbn [bind].
  2:{ split; [exact (raises_only_retype Hfc) | intros; discriminate]. }
  apply plot_float_curves_ok.
Qed.

Lemma plot_selected_file_escapes (name : string) (vfd : virtual_files)
      (paths : list (string * string)) (disk : string -> file) :
  raises_only data_errors (plot_selected_file name vfd paths disk).
Proof.
  unfold plot_selected_file.
  destruct (lookup name vfd); [apply raises_only_ok |].
  destruct (lookup name paths) as [full_path |]; [| apply raises_only_ok].
  destruct (String.eqb full_path EmptyString); [apply raises_only_ok |].
  apply plot_file_ok.
Qed.

End Handed.

(* ===================================================================== *)
(** ** Names *)
(* ===================================================================== *)

Section Names.
Import PyStr Formatting Invariants.
Local Open Scope string_scope.

Lemma append_nil_r (s : string) : s ++ EmptyString = s.
Proof. induction s as [| c s IH]; cbn; [reflexivity | rewrite IH; reflexivity]. Qed.

Lemma append_assoc (s t u : string) : (s ++ t) ++ u = s ++ (t ++ u).
Proof. induction s as [| c s IH]; cbn; [reflexivity | rewrite IH; reflexivity]. Qed.

Lemma length_append (s t : string) :
  String.length (s ++ t) = String.length s + String.length t.
Proof. induction s as [| c s IH]; cbn; [reflexivity | rewrite IH; reflexivity]. Qed.

Lemma append_cancel_r (s t u : string) : s ++ u = t ++ u -> s = t.
Proof.
  revert t; induction s as [| c s IH]; intros [| d t] H; cbn in H.
  - reflexivity.
  - apply (f_equal String.length) in H; cbn in H; rewrite length_append in H; lia.
  - apply (f_equal String.length) in H; cbn in H; rewrite length_append in H; lia.
  - inversion H; subst; f_equal; apply IH; assumption.
Qed.

Lemma prefix_refl (s t : string) : String.prefix s (s ++ t) = true.
Proof.
  induction s as [| c s IH]; cbn; [destruct t; reflexivity |].
  destruct (ascii_dec c c); [exact IH | contradiction].
Qed.

(** A character that the text lacks is lacking in each of its prefixes. *)
Lemma prefix_no_char (c : ascii) (p s : string) :
  String.prefix p s = true -> no_char c s = true -> no_char c p = true.
Proof.
  revert s; induction p as [| a p IH]; intros s Hp Hs; [reflexivity |].
  destruct s as [| b s]; cbn in Hp; [discriminate |].
  destruct (ascii_dec a b) as [-> |]; [| discriminate].
  cbn [no_char] in Hs |- *; apply andb_true_iff in Hs; destruct Hs as [Hb Hs].
  rewrite Hb; cbn [andb]; exact (IH s Hp Hs).
Qed.

Lemma no_char_app (c : ascii) (s t : string) :
  no_char c (s ++ t) = no_char c s && no_char c t.
Proof.
  induction s as [| a s IH]; cbn; [reflexivity |].
  rewrite IH, andb_assoc; reflexivity.
Qed.

(** [s.replace(old, new)] leaves alone a text that lacks one of the
    characters of [old]. *)
Lemma replace_from_absent (c : ascii) (old new s : string) :
  no_char c old = false -> no_char c s = true ->
  replace_from old new 0 s = s.
Proof.
  intros Hold; induction s as [| a s IH]; intros Hs; [reflexivity |].
  cbn [replace_from].
  destruct (String.prefix old (String a s)) eqn:Hp.
  - rewrite (prefix_no_char c _ _ Hp Hs) in Hold; discriminate.
  - cbn [no_char] in Hs; apply andb_true_iff in Hs; destruct Hs as [_ Hs].
    rewrite (IH Hs); reflexivity.
Qed.

Lemma replace_absent (c : ascii) (old new s : string) :
  no_char c old = false -> no_char c s = true -> replace old new s = s.
Proof.
  intros Hold Hs; unfold replace; destruct old as [| a old];
    [discriminate |].
  exact (replace_from_absent c _ new _ Hold Hs).
Qed.

(** The characters of a match are passed over. *)
Lemma replace_from_skip (old new p s : string) :
  replace_from old new (String.length p) (p ++ s) = replace_from old new 0 s.
Proof.
  induction p as [| a p IH]; cbn [String.length append].
  - destruct s; reflexivity.
  - cbn [replace_from]; exact IH.
Qed.

(** A match at the start is replaced, and the search goes on behind it. *)
Lemma replace_at_start (old new s : string) :
  old <> EmptyString ->
  replace old new (old ++ s) = new ++ replace old new s.
Proof.
  intros Hold; destruct old as [| a old]; [contradiction |].
  unfold replace; cbn [append replace_from].
  change (String a (old ++ s)) with (String a old ++ s).
  rewrite prefix_refl.
  replace (String.length (String a old) - 1) with (String.length old)
    by (cbn [String.length]; lia).
  rewrite replace_from_skip; reflexivity.
Qed.

Lemma replace_empty (old new : string) :
  old <> EmptyString -> replace old new EmptyString = EmptyString.
Proof. intros H; destruct old; [contradiction | reflexivity]. Qed.

(** The extension is taken off a name without a dot. *)
Lemma replace_json (s : string) :
  no_char "."%char s = true -> replace ".json" EmptyString (s ++ ".json") = s.
Proof.
  intros Hs; unfold replace.
  induction s as [| a s IH]; [reflexivity |].
  cbn [no_char] in Hs; apply andb_true_iff in Hs; destruct Hs as [Ha Hs].
  cbn [append replace_from].
  assert (Hp : String.prefix ".json" (String a (s ++ ".json")) = false).
  { change (String.prefix ".json" (String a (s ++ ".json")))
      with (match ascii_dec "."%char a with
            | left _ => String.prefix "json" (s ++ ".json")
            | right _ => false
            end).
    destruct (ascii_dec "."%char a) as [<- |]; [| reflexivity].
    rewrite Ascii.eqb_refl in Ha; discriminate. }
  rewrite Hp, (IH Hs); reflexivity.
Qed.

(** The balance file of a dinosaur. *)
Lemma balance_name (basename : string -> string) (path dinosaur : string) :
  basename path = "DT_" ++ dinosaur ++ "BalanceAttributes.json" ->
  no_char "."%char dinosaur = true ->
  format_file_name basename path dinosaur = "Balance Attributes".
Proof.
  intros Hb Hd; unfold format_file_name; rewrite Hb.
  set (pat := "DT_" ++ dinosaur).
  assert (E : "DT_" ++ dinosaur ++ "BalanceAttributes.json"
              = (pat ++ "BalanceAttributes") ++ ".json").
  { subst pat; cbn [append]; rewrite !append_assoc; reflexivity. }
  rewrite E, replace_json.
  2:{ subst pat; rewrite !no_char_app, Hd; reflexivity. }
  assert (Hs : PyStr.startswith "ATT_" (pat ++ "BalanceAttributes") = false)
    by (subst pat; reflexivity).
  assert (Hs' : PyStr.startswith "DT_" (pat ++ "BalanceAttributes") = true).
  { subst pat; rewrite !append_assoc; apply prefix_refl. }
  rewrite Hs, Hs', replace_at_start by (subst pat; discriminate).
  rewrite (replace_absent "_"%char pat EmptyString "BalanceAttributes");
    [reflexivity | subst pat; reflexivity | reflexivity].
Qed.

(** *** White space *)

Lemma capital_not_space (c : ascii) : is_AZ c = true -> is_space c = false.
Proof.
  unfold is_AZ, is_space; intros H.
  apply andb_true_iff in H; destruct H as [H1 H2].
  apply N.leb_le in H1; apply N.leb_le in H2.
  repeat match goal with
         | |- context [(?a <=? ?b)%N] => destruct (N.leb_spec a b)
         | |- context [(?a =? ?b)%N] => destruct (N.eqb_spec a b)
         end; cbn; try reflexivity; lia.
Qed.

Lemma without_space_capitals (s : string) :
  without_space (space_before_capitals s) = without_space s.
Proof.
  induction s as [| c s IH]; [reflexivity |].
  cbn [space_before_capitals].
  destruct (is_AZ c) eqn:Ec.
  - cbn [without_space].
    change (is_space " "%char) with true; cbn iota.
    rewrite (capital_not_space c Ec), IH; reflexivity.
  - cbn [without_space]; rewrite IH; reflexivity.
Qed.

Lemma without_space_lstrip (s : string) :
  without_space (lstrip s) = without_space s.
Proof.
  induction s as [| c s IH]; [reflexivity |].
  cbn [lstrip without_space].
  destruct (is_space c) eqn:Ec; [exact IH |].
  cbn [without_space]; rewrite Ec; reflexivity.
Qed.

Lemma without_space_rstrip (s : string) :
  without_space (rstrip s) = without_space s.
Proof.
  induction s as [| c s IH]; [reflexivity |].
  cbn [rstrip without_space].
  destruct (rstrip s) as [| d r] eqn:Er.
  - cbn in IH; destruct (is_space c) eqn:Ec.
    + rewrite <- IH; reflexivity.
    + cbn [without_space]; rewrite Ec, <- IH; reflexivity.
  - cbn [without_space] in IH |- *.
    destruct (is_space c); rewrite IH; reflexivity.
Qed.

Lemma without_space_id (s : string) :
  no_space s = true -> without_space s = s.
Proof.
  induction s as [| c s IH]; intros H; [reflexivity |].
  cbn [no_space] in H; apply andb_true_iff in H; destruct H as [Hc Hs].
  cbn [without_space].
  apply negb_true_iff in Hc; rewrite Hc, (IH Hs); reflexivity.
Qed.

(** A name without white space can be read back from its display form. *)
Lemma format_virtual_name_back (s : string) :
  no_space s = true ->
  without_space (Reader.format_virtual_name s) = s.
Proof.
  intros H; unfold Reader.format_virtual_name, strip.
  rewrite without_space_rstrip, without_space_lstrip,
    without_space_capitals.
  exact (without_space_id s H).
Qed.

End Names.

(* ===================================================================== *)
(** ** sorted *)
(* ===================================================================== *)

Section Ordering.
Import Window Invariants.

Lemma insert_sorted_perm (x : string) (l : list string) :
  Permutation (insert_sorted x l) (x :: l).
Proof.
  induction l as [| y l IH]; cbn; [apply Permutation_refl |].
  destruct (String.leb x y); [apply Permutation_refl |].
  eapply Permutation_trans; [apply perm_skip; exact IH | apply perm_swap].
Qed.

Lemma sorted_perm (l : list string) : Permutation (sorted l) l.
Proof.
  induction l as [| x l IH]; cbn; [constructor |].
  eapply Permutation_trans; [apply insert_sorted_perm |].
  apply perm_skip; exact IH.
Qed.

Lemma insert_sorted_ordered (x : string) (l : list string) :
  Sorted str_le l -> Sorted str_le (insert_sorted x l).
Proof.
  induction l as [| y l IH]; intros Hl; cbn.
  - repeat constructor.
  - destruct (String.leb x y) eqn:E.
    + constructor; [exact Hl | constructor; exact E].
    + inversion Hl as [| ? ? Hl' Hd]; subst.
      constructor; [exact (IH Hl') |].
      assert (Hyx : str_le y x).
      { destruct (String.leb_total x y) as [H | H]; [congruence | exact H]. }
      destruct l as [| z l]; cbn.
      * constructor; exact Hyx.
      * destruct (String.leb x z); constructor; [exact Hyx |].
        inversion Hd; assumption.
Qed.

Lemma sorted_ordered (l : list string) : Sorted str_le (sorted l).
Proof.
  induction l as [| x l IH]; cbn; [constructor |].
  apply insert_sorted_ordered; exact IH.
Qed.

Lemma sorted_nil (l : list string) : sorted l = [] -> l = [].
Proof.
  intros H; pose proof (sorted_perm l) as P; rewrite H in P.
  apply Permutation_nil; exact P.
Qed.

End Ordering.

(* ===================================================================== *)
(** ** The balance table *)
(* ===================================================================== *)

Section TableText.
Import PyExc PyVal Reader Table Invariants.
Local Open Scope string_scope.
Local Open Scope list_scope.
Local Open Scope py_scope.

Variable str_of : value -> string.

Lemma raises_only_try {A : Type} (allowed caught : list exn)
      (body : result A) (handler : exn -> result A) :
  raises_only (caught ++ allowed) body ->
  (forall e, raises_only allowed (handler e)) ->
  raises_only allowed (try_except body caught handler).
Proof.
  intros Hb Hh e H; unfold try_except in H.
  destruct body as [a | e0]; [discriminate |].
  destruct (existsb (exn_eqb e0) caught) eqn:Ec.
  - exact (Hh e0 e H).
  - inversion H; subst e0.
    specialize (Hb e eq_refl); apply in_app_or in Hb.
    destruct Hb as [Hb | Hb]; [| exact Hb].
    assert (Hx : existsb (exn_eqb e) caught = true).
    { apply existsb_exists; exists e; split; [exact Hb |].
      destruct e; reflexivity. }
    congruence.
Qed.

(** The loop writes the rows that have a percentage. *)
Lemma table_rows_text (rows : list (string * value)) :
  forallb (fun kv => is_object (snd kv)) rows = true ->
  forall acc : string,
    for_each (table_step str_of) rows acc
    = Ok (acc ++ table_lines str_of rows)%string.
Proof.
  induction rows as [| [k row] rows IH]; intros Hrows acc; cbn [for_each].
  - cbn; rewrite append_nil_r; reflexivity.
  - cbn [forallb snd] in Hrows; apply andb_true_iff in Hrows.
    destruct Hrows as [Hrow Hrows]; specialize (IH Hrows).
    destruct row as [| | | | | | d]; try discriminate.
    unfold table_step at 1; cbn [table_lines percentage get].
    destruct (lookup "AttributePercentageValues" d) as [v |]; cbn [bind].
    + destruct v; cbn [bind]; rewrite IH; try reflexivity;
        rewrite !append_assoc; reflexivity.
    + apply IH.
Qed.

Lemma table_escapes (f : file) :
  raises_only [TypeError; AttributeError] (show_balance_table str_of f).
Proof.
  unfold show_balance_table.
  destruct (truthy (get_json_data f)) eqn:Et; cbn [negb];
    [| apply raises_only_ok].
  apply raises_only_bind; [| intros; apply raises_only_ok].
  unfold table_string_of; apply raises_only_try;
    [| intros; apply raises_only_ok].
  set (allowed := [KeyError; IndexError] ++ [TypeError; AttributeError]).
  assert (Hk : In KeyError allowed) by (cbn; tauto).
  assert (Hty : In TypeError allowed) by (cbn; tauto).
  assert (Ha : In AttributeError allowed) by (cbn; tauto).
  apply raises_only_bind; [apply getitem_int_0_truthy; assumption |].
  intros record _; apply raises_only_bind;
    [apply raises_only_get; assumption |].
  intros rows _; apply raises_only_bind;
    [apply raises_only_items; assumption |].
  intros its _; apply raises_only_for_each.
  intros s [k row] _; unfold table_step.
  apply raises_only_bind; [apply raises_only_get; assumption |].
  intros v _; destruct v; apply raises_only_ok.
Qed.

End TableText.

(* ===================================================================== *)
(** ** The window *)
(* ===================================================================== *)

Section WindowFacts.
Import PyExc PyVal Reader Window Invariants.
Local Open Scope string_scope.
Local Open Scope list_scope.

Variable join : list string -> string.
Variable basename : string -> string.
Variable isdir : string -> bool.
Variable path_exists : string -> bool.
Variable glob : string -> list string.
Variable disk : string -> file.

(** What [enable_plot_button] touches is the button. *)
Lemma enable_plot_button_frame (st : ui) :
  with_plot_button (enable_plot_button st) (plot_button st) = st.
Proof.
  unfold enable_plot_button.
  destruct (_ && _)%bool; [destruct (PyStr.contains _ _) |];
    destruct st; reflexivity.
Qed.

Lemma enable_plot_button_enabled (st : ui) :
  button_enabled (plot_button (enable_plot_button st))
  = negb (String.eqb (json_file_var st) EmptyString)
    && negb (String.eqb (json_file_var st) "No files found").
Proof.
  unfold enable_plot_button.
  destruct (_ && _)%bool; [destruct (PyStr.contains _ _) |]; reflexivity.
Qed.

(** The menu after lines 344 to 356. *)
Lemma rebuild_json_menu_spec (st : ui) :
  let names :=
    sorted (map fst (json_files_paths st)
            ++ map fst (virtual_files_data st)) in
  let st' := rebuild_json_menu st in
  json_files_paths st' = json_files_paths st
  /\ virtual_files_data st' = virtual_files_data st
  /\ json_menu st'
     = match names with [] => ["No files found"] | _ :: _ => names end
  /\ hd_error (json_menu st') = Some (json_file_var st')
  /\ button_enabled (plot_button st')
     = match names with [] => false | _ :: _ => true end
  /\ root_dir st' = root_dir st
  /\ folders st' = folders st
  /\ folder_menu st' = folder_menu st
  /\ folder_var st' = folder_var st
  /\ path_entry_enabled st' = path_entry_enabled st.
Proof.
  cbv zeta; unfold rebuild_json_menu.
  destruct (sorted _) as [| first rest];
    unfold set_plot_button_state, set_json_file_var, enable_plot_button;
    cbn [json_file_var with_json_file_var with_json_menu];
    destruct (_ && _)%bool; try destruct (PyStr.contains _ _);
    cbn; repeat split; reflexivity.
Qed.

(** The bindings that the loop over the files leaves. *)
Lemma list_attributes_bindings (dinosaur_name : string)
      (file_paths : list string) :
  forall (paths : list (string * string)) (name path : string),
    lookup name
           (fst (list_attributes basename disk dinosaur_name file_paths
                                 paths))
    = Some path ->
    lookup name paths = Some path
    \/ (In path file_paths /\ attribute_listed (disk path) = Ok true).
Proof.
  induction file_paths as [| fp fps IH]; intros paths name path H;
    cbn [list_attributes] in H.
  - left; exact H.
  - destruct (attribute_listed (disk fp)) as [[|] | e] eqn:El.
    + apply IH in H; destruct H as [H | [Hin Hl]].
      * rewrite lookup_dict_set in H.
        destruct (String.eqb name _); [| left; exact H].
        inversion H; subst path.
        right; split; [left; reflexivity | exact El].
      * right; split; [right; exact Hin | exact Hl].
    + apply IH in H; destruct H as [H | [Hin Hl]]; [left; exact H |].
      right; split; [right; exact Hin | exact Hl].
    + left; exact H.
Qed.




(** The outcome of [update_json_files]: the two dicts are filled from
    the selected folder; then the menu is built again, unless an
    exception came first. *)
Lemma update_json_files_shape (st : ui) :
  exists (paths : list (string * string)) (vfd : virtual_files),
    (update_json_files join basename isdir path_exists glob disk st
     = (rebuild_json_menu (with_virtual (with_paths st paths) vfd), Ok tt)
     \/ exists e,
         update_json_files join basename isdir path_exists glob disk st
         = (with_virtual (with_paths st paths) vfd, Raise e))
    /\ (forall name path,
           lookup name paths = Some path ->
           (path = balance_file_path join st (folder_var st)
            /\ path_exists path = true)
           \/ (In path (glob (join [join [root_dir st; folder_var st;
                                          "Attributes"]; "ATT_*.json"]))
               /\ attribute_listed (disk path) = Ok true))
    /\ (forall name e,
           lookup name vfd = Some e ->
           entry_ok name e
           /\ exists k, PyStr.startswith "Damage." k = true
                        /\ name = display_name k).
Proof.
  unfold update_json_files; cbv zeta.
  cbn [folder_var with_virtual with_paths root_dir json_files_paths].
  destruct (String.eqb (folder_var st) EmptyString
            || String.eqb (folder_var st) "No Dinosaurs found")%bool.
  { exists [], []; split; [left; reflexivity |].
    split; intros; discriminate. }
  destruct (isdir _) eqn:Ed.
  2:{ exists [], []; split; [left; reflexivity |].
      split; intros; discriminate. }
  set (bpath := balance_file_path join _ (folder_var st)).
  assert (Hb : bpath = balance_file_path join st (folder_var st))
    by reflexivity.
  set (st1 := if path_exists bpath then _ else _).
  assert (H1 : forall name path,
             lookup name (json_files_paths st1) = Some path ->
             path = bpath /\ path_exists path = true).
  { intros name path; subst st1.
    destruct (path_exists bpath) eqn:Ee; cbn; [| discriminate].
    destruct (String.eqb name _); [| discriminate].
    intros H; inversion H; subst; split; [reflexivity | exact Ee]. }
  assert (Hsame : forall paths vfd,
             with_virtual (with_paths st1 paths) vfd
             = with_virtual (with_paths st paths) vfd).
  { intros; subst st1; destruct (path_exists bpath); reflexivity. }
  assert (Hroot : root_dir st1 = root_dir st)
    by (subst st1; destruct (path_exists bpath); reflexivity).
  assert (Hvfd : virtual_files_data st1 = [])
    by (subst st1; destruct (path_exists bpath); reflexivity).
  pose proof (list_attributes_bindings (folder_var st)
                (glob (join [join [root_dir st; folder_var st; "Attributes"];
                             "ATT_*.json"]))
                (json_files_paths st1)) as Hl.
  destruct (list_attributes basename disk (folder_var st) _
                            (json_files_paths st1))
    as [paths [[] | e]] eqn:El; cbn [fst] in Hl.
  - unfold generate_virtual_attack_files_of.
    cbn [virtual_files_data with_paths].
    rewrite Hvfd.
    pose proof (fun b a => @generated_entries b a []) as Hg.
    match goal with
    | |- context [generate_virtual_attack_files ?b ?a []] =>
        specialize (Hg b a);
        destruct (generate_virtual_attack_files b a []) as [vfd r] eqn:Eg
    end.
    cbn [fst] in Hg.
    exists paths, vfd; split.
    + destruct r as [[] | e]; [left | right; exists e];
        rewrite <- Hsame; reflexivity.
    + split.
      * intros name path H; apply Hl in H.
        destruct H as [H | H]; [left; exact (H1 _ _ H) |].
        right; exact H.
      * intros name e H; destruct (Hg name e H) as [Hn | Hok];
          [discriminate | exact Hok].
  - exists paths, []; split.
    + right; exists e.
      rewrite <- (Hsame paths []).
      subst st1; destruct (path_exists bpath); reflexivity.
    + split; [| intros; discriminate].
      intros name path H; apply Hl in H.
      destruct H as [H | H]; [left; exact (H1 _ _ H) |].
      right; exact H.
Qed.

(** What [update_json_files] leaves alone. *)
Lemma update_json_files_frame (st : ui) :
  let st' :=
    fst (update_json_files join basename isdir path_exists glob disk st) in
  root_dir st' = root_dir st
  /\ folders st' = folders st
  /\ folder_menu st' = folder_menu st
  /\ folder_var st' = folder_var st
  /\ path_entry_enabled st' = path_entry_enabled st.
Proof.
  cbv zeta.
  destruct (update_json_files_shape st) as (paths & vfd & [E | [e E]] & _);
    rewrite E; cbn [fst].
  - destruct (rebuild_json_menu_spec (with_virtual (with_paths st paths) vfd))
      as (_ & _ & _ & _ & _ & Hr & Hf & Hm & Hv & He).
    rewrite Hr, Hf, Hm, Hv, He; repeat split; reflexivity.
  - repeat split; reflexivity.
Qed.


(** With nothing to look into, everything is emptied. *)
Lemma update_json_files_nothing (st : ui) :
  (String.eqb (folder_var st) EmptyString
   || String.eqb (folder_var st) "No Dinosaurs found")%bool = true
  \/ isdir (join [root_dir st; folder_var st; "Attributes"]) = false ->
  update_json_files join basename isdir path_exists glob disk st
  = (rebuild_json_menu (with_virtual (with_paths st []) []), Ok tt).
Proof.
  intros H; unfold update_json_files; cbv zeta.
  cbn [folder_var with_virtual with_paths root_dir json_files_paths].
  destruct (_ || _)%bool; [reflexivity |].
  destruct H as [H | H]; [discriminate |].
  rewrite H; reflexivity.
Qed.

(** The menu that [update_json_files] builds. *)
Lemma menu_after_update (st : ui) :
  snd (update_json_files join basename isdir path_exists glob disk st)
  = Ok tt ->
  menu_shows
    (fst (update_json_files join basename isdir path_exists glob disk st)).
Proof.
  intros Hok; unfold menu_shows; cbv zeta.
  destruct (update_json_files_shape st) as (paths & vfd & [E | [e E]] & _);
    rewrite E in Hok |- *; cbn [fst snd] in Hok |- *; [| discriminate].
  destruct (rebuild_json_menu_spec (with_virtual (with_paths st paths) vfd))
    as (Hp & Hv & Hm & Hh & Hb & _).
  cbn [json_files_paths virtual_files_data with_virtual with_paths]
    in Hp, Hv, Hm, Hb.
  refine (conj _ (conj Hh _)); rewrite ?Hp, ?Hv, ?Hm, ?Hb.
  - destruct (sorted _) as [| first rest] eqn:Es;
      [repeat constructor | rewrite <- Es; apply sorted_ordered].
  - set (names := (map fst paths ++ map fst vfd)%list) in *.
    pose proof (sorted_perm names) as Hperm.
    destruct (sorted names) as [| first rest] eqn:Es.
    + apply sorted_nil in Es; split.
      * intros _; split; reflexivity.
      * intros Hn; contradiction.
    + split.
      * intros Hn; rewrite Hn in Hperm.
        apply Permutation_sym, Permutation_nil in Hperm; discriminate.
      * intros _; split; [exact Hperm | reflexivity].
Qed.

(** The folders found under a root, once the menu is built. *)
Lemma update_folder_menu_spec (listdir : string -> list string)
      (st : ui) (root : string) :
  folders_of join isdir listdir root
    (update_folder_menu join basename isdir path_exists glob disk
       (with_root st root (subfolders join isdir listdir root))).
Proof.
  set (dirs := subfolders join isdir listdir root).
  assert (Hs : Sorted str_le dirs) by apply sorted_ordered.
  assert (Hin : forall d, In d dirs
                          <-> In d (listdir root)
                              /\ isdir (join [root; d]) = true).
  { intros d; unfold dirs, subfolders.
    pose proof (filter_In (fun d => isdir (join [root; d])) d (listdir root))
      as F; cbn beta in F.
    rewrite <- F; split; intros H.
    - exact (Permutation_in _ (sorted_perm _) H).
    - exact (Permutation_in _ (Permutation_sym (sorted_perm _)) H). }
  unfold folders_of, update_folder_menu, set_folder_var.
  cbn [folders with_root].
  destruct dirs as [| first rest] eqn:Ed;
    match goal with
    | |- context [update_json_files _ _ _ _ _ _ ?s] =>
        destruct (update_json_files_frame s) as (Hr & Hf & Hm & Hv & _)
    end;
    rewrite Hr, Hf, Hm, Hv;
    cbn [root_dir folders folder_menu folder_var with_folder_var
         with_folder_menu with_root hd_error];
    refine (conj eq_refl (conj Hs (conj Hin (conj eq_refl _))));
    intros H; [contradiction | reflexivity].
Qed.

(** The entry keeps its state while the menus are built. *)
Lemma update_folder_menu_entry (st : ui) :
  path_entry_enabled
    (update_folder_menu join basename isdir path_exists glob disk st)
  = path_entry_enabled st.
Proof.
  unfold update_folder_menu, set_folder_var.
  destruct (folders st);
    match goal with
    | |- context [update_json_files _ _ _ _ _ _ ?s] =>
        destruct (update_json_files_frame s) as (_ & _ & _ & _ & He)
    end;
    rewrite He; reflexivity.
Qed.

End WindowFacts.

(* ===================================================================== *)
(** ** From the menu to the figure *)
(* ===================================================================== *)

Section ListedAndDrawn.
Import PyExc PyVal Reader Window Invariants.
Local Open Scope string_scope.
Local Open Scope list_scope.
Local Open Scope py_scope.

Lemma bind_ok {A B : Type} (r : result A) (k : A -> result B) (b : B) :
  bind r k = Ok b -> exists a, r = Ok a /\ k a = Ok b.
Proof.
  destruct r as [a | e]; cbn; intros H; [| discriminate].
  exists a; split; [reflexivity | exact H].
Qed.

(** A file that is listed was not found trivial. *)
Lemma listed_not_trivial (f : file) :
  attribute_listed f = Ok true -> is_linear_or_flat f = Ok false.
Proof.
  unfold attribute_listed; intros H.
  destruct (truthy (get_json_data f)) eqn:Et; cbn [negb] in H;
    [| discriminate].
  unfold try_except in H.
  match type of H with
  | match ?body with _ => _ end = _ => destruct body as [b | e] eqn:Eb
  end.
  - inversion H; subst b.
    apply bind_ok in Eb; destruct Eb as [r0 [_ Eb]].
    apply bind_ok in Eb; destruct Eb as [a [_ Eb]].
    apply bind_ok in Eb; destruct Eb as [shaped [_ Eb]].
    destruct shaped; [| discriminate].
    apply bind_ok in Eb; destruct Eb as [trivial [Ht Eb]].
    inversion Eb as [Hn]; destruct trivial; [discriminate | exact Ht].
  - destruct (existsb (exn_eqb e) [KeyError; IndexError]); discriminate.
Qed.

(** A file that is listed has keys under its first curve. *)
Lemma listed_has_keys (f : file) :
  attribute_listed f = Ok true ->
  truthy (get_json_data f) = true
  /\ exists record fc curve keys,
      getitem_int (get_json_data f) 0 = Ok record
      /\ float_curves_or record = Ok fc
      /\ getitem_int fc 0 = Ok curve
      /\ getitem_key curve "Keys" = Ok keys
      /\ classify_keys keys = Ok false.
Proof.
  intros H; pose proof (@listed_not_trivial f H) as Hlin.
  unfold attribute_listed in H.
  destruct (truthy (get_json_data f)) eqn:Et; cbn [negb] in H;
    [| discriminate].
  split; [reflexivity |].
  unfold is_linear_or_flat in Hlin; rewrite Et in Hlin; cbn [negb] in Hlin.
  unfold try_except in Hlin.
  destruct (is_linear_or_flat_body (get_json_data f)) as [b | e] eqn:Eb.
  2:{ destruct (existsb (exn_eqb e) [KeyError; IndexError; TypeError]);
        discriminate. }
  inversion Hlin; subst b.
  unfold is_linear_or_flat_body in Eb.
  apply bind_ok in Eb; destruct Eb as [record [Hr Eb]].
  apply bind_ok in Eb; destruct Eb as [fc [Hfc Eb]].
  apply bind_ok in Eb; destruct Eb as [curve [Hc Eb]].
  apply bind_ok in Eb; destruct Eb as [keys [Hk Eb]].
  exists record, fc, curve, keys; auto.
Qed.

Lemma getitem_key_truthy (v x : value) (k : string) :
  getitem_key v k = Ok x -> truthy v = true.
Proof.
  destruct v; cbn; try discriminate.
  destruct d; [discriminate | reflexivity].
Qed.

(** The loop of the plot ends with a call or with an exception. *)
Lemma plot_float_curves_some (name : string) (fc curve keys : value) :
  getitem_int fc 0 = Ok curve ->
  getitem_key curve "Keys" = Ok keys ->
  plot_float_curves name fc <> Ok None.
Proof.
  intros Hc Hk; unfold plot_float_curves.
  rewrite (getitem_int_truthy _ _ Hc); cbn [negb].
  rewrite Hc; cbn [bind].
  rewrite (getitem_key_truthy _ _ Hk); cbn [negb].
  destruct (slice_to_2 fc); cbn [bind]; [| discriminate].
  destruct (iter a); cbn [bind]; [| discriminate].
  destruct (for_each _ _ _) as [[[tpl vl] [label |]] |]; cbn [bind];
    discriminate.
Qed.

(** *** An attack power without curves *)

Lemma store_attacks_no_curves (attrs : list (string * value)) :
  forall (vfd : virtual_files) (name : string) (e : virtual_entry),
    lookup name (fst (store_attacks (VList []) attrs vfd)) = Some e ->
    lookup name vfd = Some e \/ curves e = [].
Proof.
  induction attrs as [| [k dv] attrs IH]; intros vfd name e H;
    cbn [store_attacks] in H; [left; exact H |].
  change (new_curves (VList []) dv) with (@Ok (list series) []) in H.
  cbn iota in H; apply IH in H.
  destruct H as [H | H]; [| right; exact H].
  rewrite lookup_dict_set in H.
  destruct (String.eqb name (display_name k)); [| left; exact H].
  inversion H; subst e; right; reflexivity.
Qed.

(** *** The exceptions of the generator *)

Lemma data_errors_incl (caught : list exn) (e : exn) :
  In e data_errors -> In e (caught ++ data_errors).
Proof. intros H; apply in_or_app; right; exact H. Qed.

Lemma scaled_curve_escapes (curve damage_value : value) :
  raises_only data_errors (scaled_curve curve damage_value).
Proof.
  unfold scaled_curve.
  apply raises_only_bind;
    [apply raises_only_getitem_key;
     [exact data_errors_key | exact data_errors_type] |].
  intros keys _; apply raises_only_bind;
    [apply raises_only_iter; exact data_errors_type |].
  intros ks _; apply raises_only_for_each.
  intros acc key _; unfold scaled_curve_step.
  apply raises_only_bind;
    [apply raises_only_getitem_key;
     [exact data_errors_key | exact data_errors_type] |].
  intros t _; apply raises_only_bind;
    [apply raises_only_gt_num; exact data_errors_type |].
  intros keep _; destruct keep; [| apply raises_only_ok].
  apply raises_only_bind;
    [apply raises_only_getitem_key;
     [exact data_errors_key | exact data_errors_type] |].
  intros t' _; apply raises_only_bind;
    [apply raises_only_getitem_key;
     [exact data_errors_key | exact data_errors_type] |].
  intros v _; apply raises_only_bind;
    [apply raises_only_mul;
     [exact data_errors_type | exact data_errors_overflow] |].
  intros; apply raises_only_ok.
Qed.

Lemma new_curves_escapes (ap_curves damage_value : value) :
  raises_only data_errors (new_curves ap_curves damage_value).
Proof.
  unfold new_curves.
  apply raises_only_bind;
    [apply raises_only_slice; exact data_errors_type |].
  intros two _; apply raises_only_bind;
    [apply raises_only_iter; exact data_errors_type |].
  intros cs _; apply raises_only_for_each.
  intros acc c _; unfold new_curves_step.
  apply raises_only_bind; [apply scaled_curve_escapes |].
  intros; apply raises_only_ok.
Qed.

Lemma store_attacks_escapes (ap_curves : value)
      (attrs : list (string * value)) :
  forall vfd : virtual_files,
    raises_only data_errors (snd (store_attacks ap_curves attrs vfd)).
Proof.
  induction attrs as [| [k dv] attrs IH]; intros vfd; cbn [store_attacks].
  - apply raises_only_ok.
  - pose proof (new_curves_escapes ap_curves dv) as Hn.
    destruct (new_curves ap_curves dv) as [cs | e]; [apply IH |].
    cbn [snd]; exact (raises_only_retype Hn).
Qed.

Lemma damage_attributes_escapes (balance_data : value) :
  truthy balance_data = true ->
  raises_only data_errors (damage_attributes balance_data).
Proof.
  intros Ht; unfold damage_attributes.
  apply raises_only_bind;
    [apply getitem_int_0_truthy;
     [exact data_errors_key | exact data_errors_type | exact Ht] |].
  intros record _; apply raises_only_bind;
    [apply raises_only_getitem_key;
     [exact data_errors_key | exact data_errors_type] |].
  intros rows _; apply raises_only_bind;
    [apply raises_only_items; exact data_errors_attribute |].
  intros its _; apply raises_only_for_each.
  intros acc [k v] _; unfold damage_attributes_step.
  destruct (PyStr.startswith "Damage." k); [| apply raises_only_ok].
  apply raises_only_bind;
    [apply raises_only_getitem_key;
     [exact data_errors_key | exact data_errors_type] |].
  intros p _; destruct (ne p (VInt 0)); [| apply raises_only_ok].
  apply raises_only_bind;
    [apply raises_only_getitem_key;
     [exact data_errors_key | exact data_errors_type] |].
  intros; apply raises_only_ok.
Qed.

Lemma attack_power_curves_escapes (attack_power_data : value) :
  truthy attack_power_data = true ->
  raises_only ([KeyError; ValueError; IndexError] ++ data_errors)
              (attack_power_curves attack_power_data).
Proof.
  intros Ht.
  set (allowed := [KeyError; ValueError; IndexError] ++ data_errors).
  assert (Hk : In KeyError allowed) by (cbn; tauto).
  assert (Hty : In TypeError allowed) by (cbn; tauto).
  assert (Hv : In ValueError allowed) by (cbn; tauto).
  unfold attack_power_curves.
  apply raises_only_bind; [apply getitem_int_0_truthy; assumption |].
  intros ap _; unfold float_curves_in.
  apply raises_only_bind; [apply raises_only_contains; assumption |].
  intros a _; destruct a; [apply raises_only_getitem_key; assumption |].
  apply raises_only_bind; [apply raises_only_contains; assumption |].
  intros p _; apply raises_only_bind.
  - destruct p; [| apply raises_only_ok].
    apply raises_only_bind; [apply raises_only_getitem_key; assumption |].
    intros; apply raises_only_contains; assumption.
  - intros b _; destruct b; [| apply raises_only_raise; assumption].
    apply raises_only_bind; [apply raises_only_getitem_key; assumption |].
    intros props _.
    apply raises_only_bind; [apply raises_only_getitem_key; assumption |].
    intros; apply raises_only_ok.
Qed.

Lemma generate_escapes (balance attack_power : file) (vfd : virtual_files) :
  raises_only data_errors
    (snd (generate_virtual_attack_files balance attack_power vfd)).
Proof.
  unfold generate_virtual_attack_files.
  destruct (truthy (get_json_data balance)) eqn:Eb; cbn [negb orb];
    [| apply raises_only_ok].
  destruct (truthy (get_json_data attack_power)) eqn:Ea; cbn [negb];
    [| apply raises_only_ok].
  assert (Htry : raises_only data_errors
                   (try_except
                      (c <- attack_power_curves (get_json_data attack_power) ;;
                       Ok (Some c))
                      [KeyError; ValueError; IndexError]
                      (fun _ => Ok None))).
  { apply raises_only_try; [| intros; apply raises_only_ok].
    apply raises_only_bind; [apply attack_power_curves_escapes; exact Ea |].
    intros; apply raises_only_ok. }
  destruct (try_except _ _ _) as [[ap_curves |] | e].
  - pose proof (damage_attributes_escapes _ Eb) as Hd.
    destruct (damage_attributes (get_json_data balance)) as [attrs | e].
    + apply store_attacks_escapes.
    + cbn [snd]; exact (raises_only_retype Hd).
  - apply raises_only_ok.
  - cbn [snd]; exact (raises_only_retype Htry).
Qed.

End ListedAndDrawn.

(* ===================================================================== *)
(** ** Further properties of the pipeline *)
(* ===================================================================== *)

Section Pipeline.
Import PyExc PyVal Reader Typed Examples Window Invariants.
Local Open Scope string_scope.
Local Open Scope list_scope.
Local Open Scope py_scope.

(** X3.  Whatever the two files hold, an entry that
    [generate_virtual_attack_files] adds to [virtual_files_data] or puts
    in the place of another is labelled "Damage", has its own name as
    title, has at most two curves, each with as many time points as
    values and with no time point at or below zero, and is named after a
    key that starts with [Damage.].  This holds as well when the
    function ends with an exception. *)
Theorem X3_stored_entries_are_well_formed
        (balance attack_power : file) (vfd : virtual_files)
        (name : string) (e : virtual_entry) :
  lookup name
         (fst (generate_virtual_attack_files balance attack_power vfd))
  = Some e ->
  lookup name vfd = Some e
  \/ (entry_ok name e
      /\ exists k, PyStr.startswith "Damage." k = true
                   /\ name = display_name k).
Proof. apply generated_entries. Qed.

Lemma X3_witness :
  lookup "Bite Attack" [] = Some ExampleDisk.bite_entry
  \/ (entry_ok "Bite Attack" ExampleDisk.bite_entry
      /\ exists k, PyStr.startswith "Damage." k = true
                   /\ "Bite Attack" = display_name k).
Proof.
  apply (@X3_stored_entries_are_well_formed
           (balance_file bite_table) attack_power []).
  vm_compute. reflexivity.
Defined.

(** X5.  Up to its call of [plot_data], [plot_selected_file] lets out
    the exception of the reading of the selected file, when
    [get_json_data] does not catch it, and otherwise only [KeyError],
    [TypeError], [AttributeError] and [OverflowError]: the label
    [y_label] is never read before the loop has bound it, and
    [values[-1]] never fails.  A file is read only for a name that is
    none of [virtual_files_data] and has a path in [json_files_paths]. *)
Theorem X5_exceptions_of_the_plot
        (X : Type) (name : string) (vfd : virtual_files)
        (paths : list (string * string))
        (disk : string -> Reading.reading X) :
  (forall x : X,
      Reading.plot_selected_file name vfd paths disk = Reading.ReadFails x ->
      lookup name vfd = None
      /\ exists path, lookup name paths = Some path
                      /\ disk path = Reading.Fails x)
  /\ (forall e : exn,
         Reading.plot_selected_file name vfd paths disk
         = Reading.Ends (Raise e) ->
         In e [KeyError; TypeError; AttributeError; OverflowError]).
Proof.
  unfold Reading.plot_selected_file.
  destruct (lookup name vfd) as [data |];
    [split; intros ? H; discriminate |].
  destruct (lookup name paths) as [full_path |];
    [| split; intros ? H; discriminate].
  destruct (String.eqb full_path EmptyString);
    [split; intros ? H; discriminate |].
  destruct (disk full_path) as [f | x0] eqn:Ed; cbn [Reading.reads].
  - split; [intros x H; discriminate |].
    intros e H. inversion H as [Hp].
    exact (proj1 (plot_file_ok name f) e Hp).
  - split; [| intros e H; discriminate].
    intros x H. inversion H; subst x0.
    split; [reflexivity |].
    exists full_path. split; [reflexivity | exact Ed].
Qed.

Lemma X5_witness :
  Reading.plot_selected_file
    "Stamina" [] [("Stamina", "Stamina.json")]
    (fun _ => @Reading.Gives string curve_without_keys)
  = Reading.Ends (Raise KeyError)
  /\ Reading.plot_selected_file
       "Stamina" [] [("Stamina", "Stamina.json")]
       MoreExamples.undecodable_disk
     = Reading.ReadFails "UnicodeDecodeError"
  /\ In KeyError [KeyError; TypeError; AttributeError; OverflowError]
  /\ lookup "Stamina" (@nil (string * virtual_entry)) = None
  /\ exists path,
      lookup "Stamina" [("Stamina", "Stamina.json")] = Some path
      /\ MoreExamples.undecodable_disk path
         = Reading.Fails "UnicodeDecodeError".
Proof.
  split; [vm_compute; reflexivity | split; [vm_compute; reflexivity |]].
  split.
  - apply (proj2 (@X5_exceptions_of_the_plot
                    string "Stamina" [] [("Stamina", "Stamina.json")]
                    (fun _ => Reading.Gives curve_without_keys))).
    vm_compute. reflexivity.
  - apply (proj1 (@X5_exceptions_of_the_plot
                    string "Stamina" [] [("Stamina", "Stamina.json")]
                    MoreExamples.undecodable_disk)).
    vm_compute. reflexivity.
Defined.

(** X6.  A file that the filter of [update_json_files] lets into the
    menu is never met with silence by [plot_selected_file], when its name
    is selected and no entry of [virtual_files_data] has the same name:
    either [plot_data] is called with data to draw, or an exception is
    raised.  (An entry of [virtual_files_data] of the same name is
    plotted in its place, and the file is not read.) *)
Theorem X6_listed_file_is_drawn
        (X : Type) (name path : string) (f : file) (vfd : virtual_files)
        (paths : list (string * string))
        (disk : string -> Reading.reading X) :
  lookup name vfd = None ->
  lookup name paths = Some path ->
  String.eqb path EmptyString = false ->
  disk path = Reading.Gives f ->
  attribute_listed f = Ok true ->
  (exists call,
      Reading.plot_selected_file name vfd paths disk
      = Reading.Ends (Ok (Some call))
      /\ has_data call = true)
  \/ (exists e,
         Reading.plot_selected_file name vfd paths disk
         = Reading.Ends (Raise e)).
Proof.
  intros Hv Hp Hne Hd H.
  unfold Reading.plot_selected_file.
  rewrite Hv, Hp, Hne, Hd. cbn [Reading.reads].
  destruct (@listed_has_keys f H)
    as (Ht & record & fc & curve & keys & Hr & Hfc & Hc & Hk & _).
  destruct (plot_file name f) as [[call |] | e] eqn:Ep.
  - left; exists call; split; [reflexivity |].
    apply (proj2 (plot_file_ok name f)) in Ep.
    exact (proj1 (proj2 Ep)).
  - exfalso; unfold plot_file in Ep.
    rewrite Ht, Hr in Ep; cbn [negb bind] in Ep.
    rewrite Hfc in Ep; cbn [bind] in Ep.
    exact (@plot_float_curves_some name fc curve keys Hc Hk Ep).
  - right; exists e; reflexivity.
Qed.

Lemma X6_witness :
  (exists call,
      Reading.plot_selected_file
        "Stamina" [] [("Stamina", "Stamina.json")]
        (fun _ => @Reading.Gives string (attribute_file (shape_A [bent])))
      = Reading.Ends (Ok (Some call))
      /\ has_data call = true)
  \/ (exists e,
         Reading.plot_selected_file
           "Stamina" [] [("Stamina", "Stamina.json")]
           (fun _ => @Reading.Gives string (attribute_file (shape_A [bent])))
         = Reading.Ends (Raise e)).
Proof.
  apply (@X6_listed_file_is_drawn
           string "Stamina" "Stamina.json" (attribute_file (shape_A [bent]))
           [] [("Stamina", "Stamina.json")]
           (fun _ => Reading.Gives (attribute_file (shape_A [bent]))));
    vm_compute; reflexivity.
Defined.

(** X7.  The generator reads the rows whose key starts with [Damage.]
    and no other: the outcome is that of the table cut down to those
    rows, whatever the other rows and the other keys of the record
    hold. *)
Theorem X7_other_rows_are_not_read
        (d : list (string * value)) (more : list value)
        (rows : list (string * value)) (attack_power : file)
        (vfd : virtual_files) :
  lookup "Rows" d = Some (VDict rows) ->
  generate_virtual_attack_files
    (Parsed (VList (VDict d :: more))) attack_power vfd
  = generate_virtual_attack_files
      (Parsed (VList [VDict [("Rows", VDict (filter is_damage_row rows))]]))
      attack_power vfd.
Proof.
  intros Hd; unfold generate_virtual_attack_files.
  cbn [get_json_data truthy negb orb].
  assert (E : damage_attributes (VList (VDict d :: more))
              = damage_attributes
                  (VList [VDict [("Rows",
                                  VDict (filter is_damage_row rows))]])).
  { unfold damage_attributes; cbn [getitem_int].
    rewrite !list_getitem_0; cbn [bind getitem_key].
    rewrite Hd; cbn [lookup String.eqb]; cbn [bind items].
    apply damage_attributes_filter. }
  rewrite E; reflexivity.
Qed.

Lemma X7_witness :
  generate_virtual_attack_files
    (Parsed (VList [VDict ExampleDisk.table_with_odd_row])) attack_power []
  = generate_virtual_attack_files
      (Parsed
         (VList
            [VDict
               [("Rows",
                 VDict
                   (filter is_damage_row
                      [("Damage.Bite",
                        VDict [("AttributePercentageValues",
                                VFloat f_half)]);
                       ("Other.X", VInt 3)]))]]))
      attack_power [].
Proof.
  apply (@X7_other_rows_are_not_read
           ExampleDisk.table_with_odd_row [] _ attack_power []).
  reflexivity.
Defined.

(** X8.  Two keys whose last segments differ and hold no white space get
    different display names, so neither entry takes the place of the
    other. *)
Theorem X8_display_names_differ (a b : string) :
  no_space (PyStr.split_dot_last a) = true ->
  no_space (PyStr.split_dot_last b) = true ->
  PyStr.split_dot_last a <> PyStr.split_dot_last b ->
  display_name a <> display_name b.
Proof.
  intros Ha Hb Hne Heq; apply Hne.
  unfold display_name in Heq; apply append_cancel_r in Heq.
  apply (f_equal without_space) in Heq.
  rewrite (format_virtual_name_back _ Ha) in Heq.
  rewrite (format_virtual_name_back _ Hb) in Heq.
  exact Heq.
Qed.

Lemma X8_witness :
  display_name "Damage.TailWhip" <> display_name "Damage.Tail.Whip".
Proof.
  apply (@X8_display_names_differ "Damage.TailWhip" "Damage.Tail.Whip");
    [reflexivity | reflexivity | vm_compute; discriminate].
Defined.

(** X17.  When the AttackPower record has the key [FloatCurves] with an
    empty list, every entry that the generator stores has no curve, and
    selecting it makes [plot_data] give up for want of data. *)
Theorem X17_attack_power_without_curves
        (balance : file) (d : list (string * value)) (more : list value)
        (name : string) (e : virtual_entry)
        (paths : list (string * string)) (disk : string -> file) :
  lookup "FloatCurves" d = Some (VList []) ->
  lookup name
         (fst (generate_virtual_attack_files
                 balance (Parsed (VList (VDict d :: more))) []))
  = Some e ->
  curves e = []
  /\ exists call,
      plot_selected_file
        name
        (fst (generate_virtual_attack_files
                balance (Parsed (VList (VDict d :: more))) []))
        paths disk
      = Ok (Some call)
      /\ has_data call = false.
Proof.
  intros Hd He.
  assert (Hc : curves e = []).
  { revert He; unfold generate_virtual_attack_files.
    destruct (negb (truthy (get_json_data balance)) || _)%bool;
      [discriminate |].
    cbn [get_json_data]; unfold attack_power_curves; cbn [getitem_int].
    rewrite list_getitem_0; cbn [bind]; unfold float_curves_in.
    cbn [contains getitem_key]; unfold has_key; rewrite Hd.
    cbn [bind try_except].
    destruct (damage_attributes (get_json_data balance)) as [attrs |];
      [| discriminate].
    intros He; apply store_attacks_no_curves in He.
    destruct He as [He | He]; [discriminate | exact He]. }
  split; [exact Hc |].
  unfold plot_selected_file; rewrite He, Hc.
  eexists; split; reflexivity.
Qed.

Lemma X17_witness :
  curves {| curves := []; y_label := "Damage"; title_name := "Bite Attack" |}
  = []
  /\ exists call,
      plot_selected_file
        "Bite Attack"
        (fst (generate_virtual_attack_files
                (balance_file bite_table)
                (Parsed (VList [VDict [("FloatCurves", VList [])]])) []))
        [] (fun _ => Missing)
      = Ok (Some call)
      /\ has_data call = false.
Proof.
  apply (@X17_attack_power_without_curves
           (balance_file bite_table) [("FloatCurves", VList [])] []
           "Bite Attack" _ [] (fun _ => Missing));
    vm_compute; reflexivity.
Defined.

(** X18.  Whether an attribute file is listed is decided by the first
    curve of its first record alone: the other curves, the other keys of
    the record and the other records play no part. *)
Theorem X18_first_curve_decides
        (d : list (string * value)) (more rest : list value) (c : value) :
  lookup "FloatCurves" d = Some (VList (c :: rest)) ->
  attribute_listed (Parsed (VList (VDict d :: more)))
  = attribute_listed (Parsed (VList [VDict [("FloatCurves", VList [c])]])).
Proof.
  assert (G : forall d more rest,
             lookup "FloatCurves" d = Some (VList (c :: rest)) ->
             attribute_listed (Parsed (VList (VDict d :: more)))
             = try_except
                 (trivial <-
                    try_except
                      (keys <- getitem_key c "Keys" ;; classify_keys keys)
                      [KeyError; IndexError; TypeError]
                      (fun _ => Ok true) ;;
                  Ok (negb trivial))
                 [KeyError; IndexError]
                 (fun _ => Ok false)).
  { clear; intros d more rest Hd.
    unfold attribute_listed, is_linear_or_flat, is_linear_or_flat_body,
      float_curves_or.
    cbn [get_json_data truthy negb getitem_int].
    rewrite !list_getitem_0; cbn [bind contains get].
    unfold has_key; rewrite Hd; cbn [truthy bind getitem_int].
    rewrite list_getitem_0; reflexivity. }
  intros Hd; rewrite (G d more rest Hd).
  symmetry; apply (G _ [] []); reflexivity.
Qed.

Lemma X18_witness :
  attribute_listed (attribute_file (shape_A [straight; bent]))
  = attribute_listed
      (Parsed (VList [VDict [("FloatCurves", VList [straight])]])).
Proof.
  apply (@X18_first_curve_decides _ [] [bent] straight).
  reflexivity.
Defined.

(** X20.  An exception that [generate_virtual_attack_files] lets out is
    the one of the reading of one of its two files, when [get_json_data]
    does not catch it, or comes from the data.  When the percentages of
    the qualifying rows are floats, so that no product of line 400
    repeats a sequence (which can run out of memory), the exceptions
    that come from the data are [KeyError], [TypeError],
    [AttributeError] and [OverflowError]: the [ValueError] that the
    function raises itself and an [IndexError] never get out. *)
Theorem X20_exceptions_of_the_generator
        (X : Type) (balance attack_power : Reading.reading X)
        (vfd : virtual_files) :
  (forall x : X,
      snd (Reading.generate_virtual_attack_files balance attack_power vfd)
      = Reading.ReadFails x ->
      balance = Reading.Fails x \/ attack_power = Reading.Fails x)
  /\ (forall e : exn,
         Reading.float_percentages balance ->
         snd (Reading.generate_virtual_attack_files balance attack_power vfd)
         = Reading.Ends (Raise e) ->
         In e [KeyError; TypeError; AttributeError; OverflowError]).
Proof.
  unfold Reading.generate_virtual_attack_files.
  destruct balance as [b | xb].
  2:{ split; [| intros e _ H; discriminate].
      intros x H. inversion H. left. reflexivity. }
  destruct attack_power as [a | xa].
  2:{ split; [| intros e _ H; discriminate].
      intros x H. inversion H. right. reflexivity. }
  pose proof (generate_escapes b a vfd) as Hg.
  destruct (generate_virtual_attack_files b a vfd) as [vfd' r].
  cbn [snd] in Hg |- *.
  split; [intros x H; discriminate |].
  intros e _ H. inversion H as [Hr]. exact (Hg e Hr).
Qed.

Lemma X20_witness :
  snd (Reading.generate_virtual_attack_files
         (@Reading.Gives string (balance_file bite_table))
         (Reading.Gives curve_without_keys) [])
  = Reading.Ends (Raise KeyError)
  /\ In KeyError [KeyError; TypeError; AttributeError; OverflowError]
  /\ (@Reading.Gives string (balance_file bite_table)
      = Reading.Fails "UnicodeDecodeError"
      \/ MoreExamples.undecodable = Reading.Fails "UnicodeDecodeError").
Proof.
  split; [vm_compute; reflexivity |].
  split.
  - apply (proj2 (@X20_exceptions_of_the_generator
                    string (Reading.Gives (balance_file bite_table))
                    (Reading.Gives curve_without_keys) [])).
    + intros b attrs Hb Hd. inversion Hb. subst b.
      vm_compute in Hd. inversion Hd. reflexivity.
    + vm_compute. reflexivity.
  - apply (proj1 (@X20_exceptions_of_the_generator
                    string (Reading.Gives (balance_file bite_table))
                    MoreExamples.undecodable [])).
    reflexivity.
Defined.

(** X21.  A call of [plot_data] made for a file read from disk has data
    to draw, one or two curves, each with as many time points as values,
    the selected name as title and the label of the unit rule, whatever
    the file holds. *)
Theorem X21_call_for_a_file (name : string) (f : file) (call : plot_call) :
  plot_file name f = Ok (Some call) ->
  has_data call = true
  /\ call_ok call
  /\ List.length (arg_time_points_list call) <= 2
  /\ List.length (plotted_lines call)
     = List.length (arg_time_points_list call)
  /\ arg_file_name call = name
  /\ arg_y_label call = fst (unit_rule name).
Proof.
  intros H; apply (proj2 (plot_file_ok name f)) in H.
  destruct H as (Hok & Hd & Hl & Hn & Hy).
  repeat split; try assumption.
  unfold plotted_lines.
  rewrite length_combine, length_map, length_seq, Nat.min_id.
  rewrite length_combine.
  pose proof (Forall2_length Hok) as E; unfold call_ok in Hok.
  rewrite <- E; apply Nat.min_id.
Qed.

Lemma X21_witness :
  has_data
    {| arg_time_points_list := [[VInt 0; VFloat f_0_8; VFloat f_one]];
       arg_values_list :=
         [[VFloat 0x1p+1%float; VFloat 0x1.4p+2%float;
           VFloat 0x1.4p+2%float]];
       arg_file_name := "Weight";
       arg_y_label := "Value (kg)" |} = true.
Proof.
  refine (proj1 (@X21_call_for_a_file
                   "Weight" (attribute_file (shape_A [weight_short]))
                   _ _)).
  vm_compute. reflexivity.
Defined.

End Pipeline.

(* ===================================================================== *)
(** ** Further properties: names and the table *)
(* ===================================================================== *)

Section NamesAndTable.
Import PyExc PyVal Reader Typed Examples Formatting Table Invariants.
Local Open Scope list_scope.
Local Open Scope string_scope.

(** X9.  [format_file_name] gives an attribute file the display name of
    its attribute: for a file called [ATT_<dinosaur>_<attribute>.json],
    with no dot in either name and no underscore in the attribute, the
    result is [format_virtual_name] of the attribute. *)
Theorem X9_name_of_an_attribute_file
        (basename : string -> string) (path dinosaur attribute : string) :
  basename path = "ATT_" ++ dinosaur ++ "_" ++ attribute ++ ".json" ->
  no_char "."%char dinosaur = true ->
  no_char "."%char attribute = true ->
  no_char "_"%char attribute = true ->
  format_file_name basename path dinosaur = format_virtual_name attribute.
Proof.
  intros Hb Hd Ha Hu; unfold format_file_name; rewrite Hb.
  set (pat := "ATT_" ++ dinosaur ++ "_").
  assert (E : "ATT_" ++ dinosaur ++ "_" ++ attribute ++ ".json"
              = (pat ++ attribute) ++ ".json").
  { subst pat; cbn [append]; rewrite !append_assoc; reflexivity. }
  rewrite E, replace_json.
  2:{ subst pat; rewrite !no_char_app, Hd, Ha; reflexivity. }
  assert (Hs : PyStr.startswith "ATT_" (pat ++ attribute) = true).
  { subst pat; rewrite !append_assoc; apply prefix_refl. }
  rewrite Hs, replace_at_start by (subst pat; discriminate).
  rewrite (replace_absent "_"%char pat EmptyString attribute);
    [reflexivity | | exact Hu].
  subst pat; reflexivity.
Qed.

Lemma X9_witness :
  format_file_name ExampleDisk.basename ExampleDisk.speed_path "Rex"
  = format_virtual_name "MaxSpeed".
Proof.
  apply (@X9_name_of_an_attribute_file
           ExampleDisk.basename ExampleDisk.speed_path "Rex" "MaxSpeed");
    reflexivity.
Defined.

(** X10.  [format_file_name] calls the balance file of a dinosaur
    "Balance Attributes": for a file called
    [DT_<dinosaur>BalanceAttributes.json], with no dot in the name of the
    dinosaur. *)
Theorem X10_name_of_the_balance_file
        (basename : string -> string) (path dinosaur : string) :
  basename path = "DT_" ++ dinosaur ++ "BalanceAttributes.json" ->
  no_char "."%char dinosaur = true ->
  format_file_name basename path dinosaur = "Balance Attributes".
Proof.
  intros Hb Hd; apply balance_name; assumption.
Qed.

Lemma X10_witness :
  format_file_name ExampleDisk.basename ExampleDisk.balance_path "Rex"
  = "Balance Attributes".
Proof.
  apply (@X10_name_of_the_balance_file
           ExampleDisk.basename ExampleDisk.balance_path "Rex");
    reflexivity.
Defined.

(** X11.  For a balance file whose first record has an object under
    [Rows], with every row an object, [show_balance_table] shows the rows
    that have a percentage other than [null], in the order of the file,
    one line each; the rows without one are left out. *)
Theorem X11_table_shows_the_rows
        (str_of : value -> string) (d : list (string * value))
        (more : list value) (rows : list (string * value)) :
  lookup "Rows" d = Some (VDict rows) ->
  forallb (fun kv => is_object (snd kv)) rows = true ->
  show_balance_table str_of (Parsed (VList (VDict d :: more)))
  = Ok (Some (table_lines str_of rows)).
Proof.
  intros Hd Hrows; unfold show_balance_table, table_string_of.
  cbn [get_json_data truthy negb getitem_int].
  rewrite list_getitem_0; cbn [bind get]; rewrite Hd; cbn [bind items].
  rewrite (table_rows_text str_of rows Hrows); reflexivity.
Qed.

Lemma X11_witness :
  show_balance_table ExampleDisk.str_of (balance_file bite_table)
  = Ok (Some ("Damage.Bite: 0.5" ++ line_feed
              ++ "Other.X: 1.0" ++ line_feed)).
Proof.
  exact (@X11_table_shows_the_rows
           ExampleDisk.str_of
           [("Rows",
             VDict (map (fun kp => (fst kp, row_value (snd kp))) bite_table))]
           []
           (map (fun kp => (fst kp, row_value (snd kp))) bite_table)
           eq_refl eq_refl).
Defined.

(** X12.  [show_balance_table] opens no window for a file that is
    missing, is not JSON or holds a false value; it shows the error text
    when the top of the file is an object that is not empty.  It lets
    out the exception of the reading of the file, when [get_json_data]
    does not catch it; the exceptions that the data of the file bring
    about are [TypeError] and [AttributeError], never the [KeyError] and
    [IndexError] that its handler names. *)
Theorem X12_table_errors (X : Type) (str_of : value -> string) :
  (forall f : file,
      truthy (get_json_data f) = false ->
      Reading.show_balance_table str_of (Reading.Gives f)
      = @Reading.Ends X (option string) (Ok None))
  /\ (forall (k : string) (v : value) (d : list (string * value)),
         Reading.show_balance_table
           str_of (Reading.Gives (Parsed (VDict ((k, v) :: d))))
         = @Reading.Ends X (option string) (Ok (Some error_text)))
  /\ (forall (r : Reading.reading X) (x : X),
         Reading.show_balance_table str_of r = Reading.ReadFails x
         <-> r = Reading.Fails x)
  /\ (forall (r : Reading.reading X) (e : exn),
         Reading.show_balance_table str_of r = Reading.Ends (Raise e) ->
         e = TypeError \/ e = AttributeError).
Proof.
  split; [| split; [| split]].
  - intros f H. unfold Reading.show_balance_table, Reading.reads.
    unfold show_balance_table. rewrite H. reflexivity.
  - intros k v d. reflexivity.
  - intros r x. unfold Reading.show_balance_table, Reading.reads.
    destruct r as [f | x0]; split; intros H; try discriminate;
      inversion H; reflexivity.
  - intros r e H. unfold Reading.show_balance_table, Reading.reads in H.
    destruct r as [f | x0]; [| discriminate].
    inversion H as [Hf]. apply (table_escapes str_of f) in Hf.
    destruct Hf as [<- | [<- | []]]; [left | right]; reflexivity.
Qed.

Lemma X12_witness :
  Reading.show_balance_table ExampleDisk.str_of
                             (Reading.Gives (Parsed (VList [])))
  = @Reading.Ends string (option string) (Ok None)
  /\ (AttributeError = TypeError \/ AttributeError = AttributeError)
  /\ Reading.show_balance_table ExampleDisk.str_of MoreExamples.undecodable
     = Reading.ReadFails "UnicodeDecodeError".
Proof.
  destruct (X12_table_errors string ExampleDisk.str_of)
    as (Hn & _ & Hx & He).
  split; [exact (Hn (Parsed (VList [])) eq_refl) | split].
  - exact (He (Reading.Gives (Parsed (VList [VInt 1]))) AttributeError
              eq_refl).
  - exact (proj2 (Hx MoreExamples.undecodable "UnicodeDecodeError") eq_refl).
Defined.

End NamesAndTable.

(* ===================================================================== *)
(** ** Further properties: the window *)
(* ===================================================================== *)

Section WindowProperties.
Import PyExc PyVal Reader Formatting Table Window Invariants.
Local Open Scope list_scope.
Local Open Scope string_scope.

(** The file system that the window looks into. *)
Variable join : list string -> string.
Variable basename : string -> string.
Variable isdir : string -> bool.
Variable path_exists : string -> bool.
Variable listdir : string -> list string.
Variable glob : string -> list string.
Variable disk : string -> file.
Variable script_dir : string.

Local Abbreviation update :=
  (update_json_files join basename isdir path_exists glob disk).

(** X4.  After [update_json_files], whichever name is selected and
    whatever the files hold by then, a call of [plot_data] that
    [plot_selected_file] makes passes at most two curves, each with as
    many time points as values. *)
Theorem X4_plots_are_balanced
        (st : ui) (later : string -> file) (name : string)
        (call : plot_call) :
  plot_selected_file_of later (with_json_file_var (fst (update st)) name)
  = Ok (Some call) ->
  call_ok call /\ List.length (arg_time_points_list call) <= 2.
Proof.
  unfold plot_selected_file_of, plot_selected_file.
  cbn [json_file_var virtual_files_data json_files_paths
       with_json_file_var].
  destruct (update_json_files_shape join basename isdir path_exists glob
              disk st) as (paths & vfd & Hshape & _ & Hvfd).
  assert (Ev : virtual_files_data (fst (update st)) = vfd).
  { destruct Hshape as [E | [e E]]; rewrite E; cbn [fst];
      [rewrite (proj1 (proj2 (rebuild_json_menu_spec _))) |]; reflexivity. }
  rewrite Ev.
  destruct (lookup name vfd) as [data |] eqn:El.
  - intros H; inversion H; subst call; clear H.
    destruct (Hvfd name data El) as ((_ & _ & Hlen & Hbal & _) & _).
    unfold call_ok; cbn; rewrite length_map; split; [| exact Hlen].
    clear - Hbal; induction Hbal; cbn; constructor; assumption.
  - destruct (lookup name (json_files_paths _)) as [full_path |];
      [| intros H; discriminate].
    destruct (String.eqb full_path EmptyString); [intros H; discriminate |].
    intros H; apply (proj2 (plot_file_ok name (later full_path))) in H.
    destruct H as (Hok & _ & Hl & _); split; assumption.
Qed.

(** X13.  When [update_json_files] ends without an exception, the menu of
    the attributes is in order and its first label is the one selected.
    If the two dicts are empty, the menu holds the placeholder and the
    button is disabled; if not, the menu holds the names of the two
    dicts, each as often as it occurs there, and the button is enabled. *)
Theorem X13_menu_after_update (st : ui) :
  snd (update st) = Ok tt -> menu_shows (fst (update st)).
Proof. apply menu_after_update. Qed.




(** X19.  With no dinosaur selected, or with a dinosaur whose folder has
    no [Attributes] folder, [update_json_files] empties both dicts, puts
    the placeholder in the menu and selects it, and disables the button,
    whatever the window held before; a press on the button then does
    nothing. *)
Theorem X19_nothing_to_list (st : ui) (str_of : value -> string)
        (later : string -> file) :
  (String.eqb (folder_var st) EmptyString
   || String.eqb (folder_var st) "No Dinosaurs found")%bool = true
  \/ isdir (join [root_dir st; folder_var st; "Attributes"]) = false ->
  snd (update st) = Ok tt
  /\ json_files_paths (fst (update st)) = []
  /\ virtual_files_data (fst (update st)) = []
  /\ json_menu (fst (update st)) = ["No files found"]
  /\ json_file_var (fst (update st)) = "No files found"
  /\ button_enabled (plot_button (fst (update st))) = false
  /\ press_plot_button later str_of (fst (update st)) = Ok Nothing.
Proof.
  intros H.
  rewrite (update_json_files_nothing join basename isdir path_exists glob
             disk st H).
  cbn [fst snd]; repeat split; reflexivity.
Qed.

(** X22.  With no folder to show, [update_folder_menu] puts its
    placeholder in the menu of the dinosaurs and selects it, and the
    change of the selection empties the menu of the attributes and
    disables the button. *)
Theorem X22_no_dinosaur_folders (st : ui) :
  folders st = [] ->
  let st' :=
    update_folder_menu join basename isdir path_exists glob disk st in
  folder_menu st' = ["No Dinosaurs found"]
  /\ folder_var st' = "No Dinosaurs found"
  /\ json_menu st' = ["No files found"]
  /\ json_file_var st' = "No files found"
  /\ json_files_paths st' = []
  /\ virtual_files_data st' = []
  /\ button_enabled (plot_button st') = false.
Proof.
  intros Hf; cbv zeta; unfold update_folder_menu, set_folder_var.
  rewrite Hf.
  rewrite (update_json_files_nothing
             join basename isdir path_exists glob disk
             (with_folder_var (with_folder_menu st ["No Dinosaurs found"])
                              "No Dinosaurs found")
             (or_introl eq_refl)).
  cbn [fst]; repeat split; reflexivity.
Qed.

(** X23.  When the [JSONs] folder beside the script is a directory,
    [auto_locate_jsons_folder] makes it the root, lists the directories
    in it in order, and selects the first of them; the button above
    reads "Found: " and the root. *)
Theorem X23_folders_beside_the_script (st : ui) :
  isdir (join [script_dir; "JSONs"]) = true ->
  let st' :=
    auto_locate_jsons_folder join basename isdir path_exists listdir glob
                             disk script_dir st in
  folders_of join isdir listdir (join [script_dir; "JSONs"]) st'
  /\ select_root_text st' = "Found: " ++ join [script_dir; "JSONs"]
  /\ select_root_enabled st' = true.
Proof.
  intros Hd; cbv zeta; unfold auto_locate_jsons_folder.
  cbn [root_dir with_root]; rewrite Hd.
  split; [| split; reflexivity].
  exact (update_folder_menu_spec join basename isdir path_exists glob disk
           listdir st (join [script_dir; "JSONs"])).
Qed.

(** X24.  When the text of the entry, without the white space around
    it, is the path of a directory, [update_folder_from_entry] makes it
    the root, lists the directories in it in order, and selects the
    first of them; if it is not, the root, the folders, the menus and
    the selection stay as they were and the button above reads
    "Invalid Path". *)
Theorem X24_folders_of_the_entry (st : ui) :
  let st' :=
    update_folder_from_entry join basename isdir path_exists listdir glob
                             disk st in
  (isdir (PyStr.strip (path_entry st)) = true ->
   folders_of join isdir listdir (PyStr.strip (path_entry st)) st'
   /\ select_root_text st' = "Using: " ++ PyStr.strip (path_entry st))
  /\ (isdir (PyStr.strip (path_entry st)) = false ->
      st' = with_select_root st "Invalid Path" true).
Proof.
  cbv zeta; unfold update_folder_from_entry.
  destruct (isdir (PyStr.strip (path_entry st))) eqn:Hd; split;
    try discriminate; intros _; [| reflexivity].
  split; [| reflexivity].
  exact (update_folder_menu_spec join basename isdir path_exists glob disk
           listdir st (PyStr.strip (path_entry st))).
Qed.

(** X25.  Unticking the box disables the entry and looks for the
    [JSONs] folder beside the script again; when it is a directory, its
    directories are listed in order with the first one selected, as at
    the start, but the button above is left disabled and reading
    "Locating JSONs folder...", not "Found: " and the root. *)
Theorem X25_unticking_locates_again (st : ui) :
  override_path_var st = false ->
  isdir (join [script_dir; "JSONs"]) = true ->
  let st' :=
    toggle_path_entry join basename isdir path_exists listdir glob disk
                      script_dir st in
  folders_of join isdir listdir (join [script_dir; "JSONs"]) st'
  /\ path_entry_enabled st' = false
  /\ select_root_text st' = "Locating JSONs folder..."
  /\ select_root_enabled st' = false.
Proof.
  intros Ho Hd; cbv zeta; unfold toggle_path_entry; rewrite Ho.
  unfold auto_locate_jsons_folder; cbn [root_dir with_root]; rewrite Hd.
  split; [| split; [| split; reflexivity]].
  - exact (update_folder_menu_spec join basename isdir path_exists glob disk
             listdir (with_path_entry_enabled st false)
             (join [script_dir; "JSONs"])).
  - cbn [path_entry_enabled with_select_root].
    rewrite update_folder_menu_entry; reflexivity.
Qed.

End WindowProperties.

(* ===================================================================== *)
(** ** The window on the folder of examples *)
(* ===================================================================== *)

Section WindowExamples.
Import PyExc PyVal Reader Formatting Table Window Invariants.
Import ExampleDisk.
Local Open Scope list_scope.
Local Open Scope string_scope.

Lemma X4_witness :
  call_ok weight_call
  /\ List.length (arg_time_points_list weight_call) <= 2.
Proof.
  apply (@X4_plots_are_balanced join basename isdir path_exists glob disk
                                rex_selected disk "Weight" weight_call).
  vm_compute. reflexivity.
Defined.

Lemma X13_witness : menu_shows rex_listed.
Proof.
  apply (@X13_menu_after_update join basename isdir path_exists glob disk
                                rex_selected).
  vm_compute. reflexivity.
Defined.




Lemma X19_witness :
  snd (update_json_files join basename isdir path_exists glob disk initial)
  = Ok tt
  /\ json_files_paths
       (fst (update_json_files join basename isdir path_exists glob disk
                               initial)) = []
  /\ virtual_files_data
       (fst (update_json_files join basename isdir path_exists glob disk
                               initial)) = []
  /\ json_menu
       (fst (update_json_files join basename isdir path_exists glob disk
                               initial)) = ["No files found"]
  /\ json_file_var
       (fst (update_json_files join basename isdir path_exists glob disk
                               initial)) = "No files found"
  /\ button_enabled
       (plot_button
          (fst (update_json_files join basename isdir path_exists glob disk
                                  initial))) = false
  /\ press_plot_button
       disk str_of
       (fst (update_json_files join basename isdir path_exists glob disk
                               initial)) = Ok Nothing.
Proof.
  apply (@X19_nothing_to_list join basename isdir path_exists glob disk
                              initial str_of disk).
  left. reflexivity.
Defined.

Lemma X22_witness :
  folder_menu
    (update_folder_menu join basename isdir path_exists glob disk initial)
  = ["No Dinosaurs found"]
  /\ json_menu
       (update_folder_menu join basename isdir path_exists glob disk initial)
     = ["No files found"].
Proof.
  destruct (@X22_no_dinosaur_folders join basename isdir path_exists glob
                                     disk initial eq_refl)
    as (Hm & _ & Hj & _).
  split; [exact Hm | exact Hj].
Defined.

Lemma X23_witness :
  folders_of join isdir listdir "/JSONs"
             (init join basename isdir path_exists listdir glob disk "/")
  /\ select_root_text
       (init join basename isdir path_exists listdir glob disk "/")
     = "Found: /JSONs"
  /\ select_root_enabled
       (init join basename isdir path_exists listdir glob disk "/")
     = true.
Proof.
  apply (@X23_folders_beside_the_script
           join basename isdir path_exists listdir glob disk "/" initial).
  reflexivity.
Defined.

Lemma X24_witness :
  folders_of join isdir listdir "/JSONs"
             (update_folder_from_entry join basename isdir path_exists
                                       listdir glob disk typed_path)
  /\ select_root_text
       (update_folder_from_entry join basename isdir path_exists listdir
                                 glob disk typed_path)
     = "Using: /JSONs".
Proof.
  apply (proj1 (@X24_folders_of_the_entry
                  join basename isdir path_exists listdir glob disk
                  typed_path)).
  reflexivity.
Defined.

Lemma X25_witness :
  folders_of join isdir listdir "/JSONs"
             (toggle_path_entry join basename isdir path_exists listdir glob
                                disk "/" initial)
  /\ path_entry_enabled
       (toggle_path_entry join basename isdir path_exists listdir glob disk
                          "/" initial) = false
  /\ select_root_text
       (toggle_path_entry join basename isdir path_exists listdir glob disk
                          "/" initial) = "Locating JSONs folder..."
  /\ select_root_enabled
       (toggle_path_entry join basename isdir path_exists listdir glob disk
                          "/" initial) = false.
Proof.
  apply (@X25_unticking_locates_again
           join basename isdir path_exists listdir glob disk "/" initial);
    reflexivity.
Defined.

End WindowExamples.
